(** * Meta Events Manager: credential manager, connection prober, role policy

    A shallow embedding of

    - [supabase/migrations/20260205170216_...sql]: the [app_role] enum, the
      [user_roles] table, the [has_role] function and the row-level policies
      on [webhook_urls];
    - [src/components/ClientSupabaseConfig.tsx]: [testConnection],
      [provisionTables], [handleSave], [handleDisconnect];
    - [src/pages/Configuracao.tsx]: the credential fetch of the mount effect
      and [handleSave];
    - [src/pages/AdminWebhooks.tsx] (the page [App] routes [/admin/webhooks]
      to): the data fetch of the mount effect, [handleAddWebhook],
      [handleDeleteWebhook] and the render guard.

    Conventions of the embedding.

    - JavaScript strings are [string]s; the only string operations the code
      uses are truthiness, [includes] and a regular-expression [test], all of
      which only look for ASCII text.
    - An async handler is a computation in the monad [M]: it threads the
      React state being written, the primary store and the chronological
      trace of observable effects (store calls, network calls of a transient
      client, toasts, console output), and it may throw.
    - A handler reads the component state through the values captured by the
      render that created it (its first argument [r]); the [set...] calls
      write the state carried by the monad.  Inside one call a captured value
      never changes, as in React.
    - What the outside world answers (the reply to a probe query, a fresh row
      id, the time of an insert) is an explicit argument.  Replies of the
      primary store are computed from its tables and row-level policies;
      transport failures of the primary store are not modelled.
    - Each handler call runs without interleaving with other handlers.

    Beyond the handlers above, the file embeds the mount effects and the view
    logic of the same components, the Meta test of the credential page, the
    navigation filter of [src/components/Layout.tsx] and the earlier revision
    of the pointer form; the reads of these mount effects go through
    [store_peek] and are not recorded in the trace. *)

From Stdlib Require Import String Ascii List Bool Arith Lia.
From Stdlib Require Import Permutation Sorted.
Import ListNotations.
Local Open Scope string_scope.
Local Open Scope bool_scope.

(** ** JavaScript values used by the handlers *)

Module Js.

(** [!!s] for a string: only the empty string is falsy. *)
Definition truthy (s : string) : bool :=
  match s with
  | EmptyString => false
  | String _ _ => true
  end.

(** [!!v] for a [string | null]. *)
Definition truthy_opt (v : option string) : bool :=
  match v with
  | Some s => truthy s
  | None => false
  end.

(** [s.includes(sub)]. *)
Fixpoint includes (s sub : string) : bool :=
  String.prefix sub s ||
  match s with
  | EmptyString => false
  | String _ s' => includes s' sub
  end.

(** [v || d] for [v : string | null] and a string [d]. *)
Definition or_else (v : option string) (d : string) : string :=
  match v with
  | Some s => if truthy s then s else d
  | None => d
  end.

(** [v || null] for a string [v]. *)
Definition or_null (v : string) : option string :=
  if truthy v then Some v else None.

(** An error object, as far as the handlers look at it. *)
Record Error := { message : string }.

End Js.

(** ** Regular expressions, for [urlPattern.test] *)

Module Regex.

Inductive regex :=
| Void
| Eps
| Lit (c : ascii)
| Cls (p : ascii -> bool)
| Cat (r1 r2 : regex)
| Alt (r1 r2 : regex)
| Star (r : regex).

(** [r+] *)
Definition Plus (r : regex) : regex := Cat r (Star r).

(** A literal run of characters. *)
Fixpoint Str (s : string) : regex :=
  match s with
  | EmptyString => Eps
  | String c s' => Cat (Lit c) (Str s')
  end.

Fixpoint nullable (r : regex) : bool :=
  match r with
  | Void => false
  | Eps => true
  | Lit _ => false
  | Cls _ => false
  | Cat r1 r2 => nullable r1 && nullable r2
  | Alt r1 r2 => nullable r1 || nullable r2
  | Star _ => true
  end.

(** Brzozowski derivative. *)
Fixpoint deriv (a : ascii) (r : regex) : regex :=
  match r with
  | Void => Void
  | Eps => Void
  | Lit c => if Ascii.eqb a c then Eps else Void
  | Cls p => if p a then Eps else Void
  | Cat r1 r2 =>
      if nullable r1
      then Alt (Cat (deriv a r1) r2) (deriv a r2)
      else Cat (deriv a r1) r2
  | Alt r1 r2 => Alt (deriv a r1) (deriv a r2)
  | Star r1 => Cat (deriv a r1) (Star r1)
  end.

(** [/^r$/.test(s)]: without the [m] flag the anchors are the two ends of
    the input, so the whole string has to match. *)
Fixpoint test (r : regex) (s : string) : bool :=
  match s with
  | EmptyString => nullable r
  | String a s' => test (deriv a r) s'
  end.

(** The language of a regular expression, to state what [test] decides. *)
Inductive lang : regex -> string -> Prop :=
| lang_eps : lang Eps EmptyString
| lang_lit c : lang (Lit c) (String c EmptyString)
| lang_cls p c : p c = true -> lang (Cls p) (String c EmptyString)
| lang_cat r1 r2 s1 s2 : lang r1 s1 -> lang r2 s2 -> lang (Cat r1 r2) (s1 ++ s2)
| lang_alt_l r1 r2 s : lang r1 s -> lang (Alt r1 r2) s
| lang_alt_r r1 r2 s : lang r2 s -> lang (Alt r1 r2) s
| lang_star_nil r : lang (Star r) EmptyString
| lang_star_cons r s1 s2 : lang r s1 -> lang (Star r) s2 -> lang (Star r) (s1 ++ s2).

(** [[a-z0-9-]] *)
Definition lower_alnum_or_hyphen (c : ascii) : bool :=
  let n := nat_of_ascii c in
  ((97 <=? n)%nat && (n <=? 122)%nat)
  || ((48 <=? n)%nat && (n <=? 57)%nat)
  || (n =? 45)%nat.

(** Every character of a string is in a class. *)
Fixpoint all_chars (p : ascii -> bool) (s : string) : bool :=
  match s with
  | EmptyString => true
  | String c s' => p c && all_chars p s'
  end.

End Regex.

(** ** The primary store *)

Module Db.

Definition uuid := string.

(** [CREATE TYPE public.app_role AS ENUM ('admin', 'user')] *)
Inductive app_role := admin | user.

Definition app_role_eqb (a b : app_role) : bool :=
  match a, b with
  | admin, admin => true
  | user, user => true
  | _, _ => false
  end.

(** SQL values may be NULL, and comparisons are three-valued. *)
Definition sql_eq {A} (eqb : A -> A -> bool) (x y : option A) : option bool :=
  match x, y with
  | Some a, Some b => Some (eqb a b)
  | _, _ => None
  end.

Definition sql_and (x y : option bool) : option bool :=
  match x, y with
  | Some false, _ => Some false
  | _, Some false => Some false
  | Some true, Some true => Some true
  | _, _ => None
  end.

Definition sql_or (x y : option bool) : option bool :=
  match x, y with
  | Some true, _ => Some true
  | _, Some true => Some true
  | Some false, Some false => Some false
  | _, _ => None
  end.

(** A row passes a [WHERE], [USING] or [WITH CHECK] clause only when the
    clause is true; false and NULL both reject it. *)
Definition holds (c : option bool) : bool :=
  match c with
  | Some true => true
  | _ => false
  end.

(** [CREATE TABLE public.user_roles]: every column is NOT NULL. *)
Module UserRoles.
Record row := {
  id : uuid;
  user_id : uuid;
  role : app_role;
  created_at : nat
}.
End UserRoles.

Module Profiles.
Record row := {
  id : uuid;
  email : option string;
  client_supabase_url : option string;
  client_supabase_key : option string
}.
End Profiles.

Module MetaCredentials.
Record row := {
  user_id : uuid;
  pixel_id : string;
  page_id : option string;
  access_token : string
}.
End MetaCredentials.

Module WebhookUrls.
Record row := {
  id : uuid;
  user_id : uuid;
  webhook_url : string;
  created_at : option nat;
  created_by_admin : bool
}.
End WebhookUrls.

Record t := {
  user_roles : list UserRoles.row;
  profiles : list Profiles.row;
  meta_credentials : list MetaCredentials.row;
  webhook_urls : list WebhookUrls.row
}.

(** [public.has_role(_user_id uuid, _role app_role) RETURNS boolean]:
    [SELECT EXISTS (SELECT 1 FROM public.user_roles
                    WHERE user_id = _user_id AND role = _role)].
    The function is not STRICT, so a NULL argument reaches the body. *)
Definition has_role (d : t) (_user_id : option uuid) (_role : option app_role) : bool :=
  existsb
    (fun r =>
       holds (sql_and
                (sql_eq String.eqb (Some (UserRoles.user_id r)) _user_id)
                (sql_eq app_role_eqb (Some (UserRoles.role r)) _role)))
    (user_roles d).

(** *** Row-level policies

    The policies on [webhook_urls] are the ones this migration creates, one
    per command, on a table with row-level security enabled; policies an
    earlier migration may have left on the table are not among the sources. *)

(** [CREATE POLICY "Users can view own webhook" ON public.webhook_urls
    FOR SELECT USING (auth.uid() = user_id OR public.has_role(auth.uid(), 'admin'))] *)
Definition webhook_urls_select_using (d : t) (uid : option uuid) (w : WebhookUrls.row) : bool :=
  holds (sql_or
           (sql_eq String.eqb uid (Some (WebhookUrls.user_id w)))
           (Some (has_role d uid (Some admin)))).

(** [CREATE POLICY "Admins can insert webhooks" ON public.webhook_urls
    FOR INSERT WITH CHECK (public.has_role(auth.uid(), 'admin'))] *)
Definition webhook_urls_insert_check (d : t) (uid : option uuid) (w : WebhookUrls.row) : bool :=
  holds (Some (has_role d uid (Some admin))).

(** [CREATE POLICY "Admins can update webhooks" ... FOR UPDATE USING (...)] *)
Definition webhook_urls_update_using (d : t) (uid : option uuid) (w : WebhookUrls.row) : bool :=
  holds (Some (has_role d uid (Some admin))).

(** [CREATE POLICY "Admins can delete webhooks" ... FOR DELETE USING (...)] *)
Definition webhook_urls_delete_using (d : t) (uid : option uuid) (w : WebhookUrls.row) : bool :=
  holds (Some (has_role d uid (Some admin))).

(** Modelled from the spec: the owner policies of [profiles] and
    [meta_credentials].  The migrations that create these tables are not
    among the sources; the spec says a profile is "mutated by the owning user
    only (via row-level policy keyed on id = current_user)" and a Meta
    credential is "owned exclusively by its user". *)
Definition owner_using (uid : option uuid) (owner : uuid) : bool :=
  holds (sql_eq String.eqb uid (Some owner)).

(** [profiles] can be read by the owner (see [owner_using]) and, by
    [CREATE POLICY "Admins can view all profiles" ON public.profiles
    FOR SELECT USING (public.has_role(auth.uid(), 'admin'))], by an admin.
    Policies of one command are combined with OR. *)
Definition profiles_select_using (d : t) (uid : option uuid) (p : Profiles.row) : bool :=
  owner_using uid (Profiles.id p) || holds (Some (has_role d uid (Some admin))).

(** *** Replies *)

(** The [{ data, error }] object a query resolves to. *)
Record reply (A : Type) := { data : option A; error : option Js.Error }.
Arguments data {A} _.
Arguments error {A} _.

Definition ok {A} (a : A) : reply A := {| data := Some a; error := None |}.
Definition no_rows {A} : reply A := {| data := None; error := None |}.
Definition failed {A} (msg : string) : reply A :=
  {| data := None; error := Some {| Js.message := msg |} |}.

(** A name between double quotes, as PostgreSQL prints identifiers in its
    messages. *)
Definition quoted (name : string) : string :=
  String "034"%char (name ++ String "034"%char EmptyString).

(** The error of a write that a row-level policy of [table] refuses
    (SQLSTATE 42501); PostgREST hands PostgreSQL's message on as it is. *)
Definition rls_violation (table : string) : Js.Error :=
  {| Js.message :=
       "new row violates row-level security policy for table " ++ quoted table |}.

(** The error of a write that a uniqueness constraint refuses (SQLSTATE
    23505): the message ends with the name of the constraint. *)
Definition unique_violation (name : string) : Js.Error :=
  {| Js.message := "duplicate key value violates unique constraint " ++ quoted name |}.

(** [.maybeSingle()]: no row is [null] data, one row is that row, more rows
    are an error. *)
Definition maybeSingle {A} (rows : list A) : reply A :=
  match rows with
  | [] => no_rows
  | [r] => ok r
  | _ :: _ :: _ => failed "JSON object requested, multiple (or no) rows returned"
  end.

(** *** Ordering *)

Fixpoint insert_sorted {A} (le : A -> A -> bool) (x : A) (l : list A) : list A :=
  match l with
  | [] => [x]
  | y :: l' => if le x y then x :: l else y :: insert_sorted le x l'
  end.

Definition order_by {A} (le : A -> A -> bool) (l : list A) : list A :=
  fold_right (insert_sorted le) [] l.

(** [ORDER BY created_at DESC]: NULLs come first in a descending order. *)
Definition created_at_desc (a b : WebhookUrls.row) : bool :=
  match WebhookUrls.created_at a, WebhookUrls.created_at b with
  | None, _ => true
  | Some _, None => false
  | Some x, Some y => (y <=? x)%nat
  end.

(** [ORDER BY email]: ascending, NULLs last. *)
Definition email_asc (a b : Profiles.row) : bool :=
  match Profiles.email a, Profiles.email b with
  | _, None => true
  | None, Some _ => false
  | Some x, Some y => String.leb x y
  end.

(** *** Queries issued by the components *)

(** [from('profiles').select('id, email').order('email')] *)
Definition profiles_select_all (uid : option uuid) (d : t) : reply (list Profiles.row) :=
  ok (order_by email_asc (filter (profiles_select_using d uid) (profiles d))).

(** [from('profiles').update({ client_supabase_url, client_supabase_key }).eq('id', id)] *)
Definition profiles_update (uid : option uuid) (url key : option string) (id : uuid)
    (d : t) : option Js.Error * t :=
  (None,
   {| user_roles := user_roles d;
      profiles :=
        map (fun p =>
               if String.eqb (Profiles.id p) id && owner_using uid (Profiles.id p)
               then {| Profiles.id := Profiles.id p;
                       Profiles.email := Profiles.email p;
                       Profiles.client_supabase_url := url;
                       Profiles.client_supabase_key := key |}
               else p)
            (profiles d);
      meta_credentials := meta_credentials d;
      webhook_urls := webhook_urls d |}).

(** [from('meta_credentials').select('*').eq('user_id', user_id).maybeSingle()] *)
Definition meta_credentials_select (uid : option uuid) (user_id : uuid) (d : t)
    : reply MetaCredentials.row :=
  maybeSingle
    (filter (fun m =>
               String.eqb (MetaCredentials.user_id m) user_id
               && owner_using uid (MetaCredentials.user_id m))
            (meta_credentials d)).

(** The rows of [meta_credentials] that belong to user [i]. *)
Definition owned_by (i : uuid) (m : MetaCredentials.row) : bool :=
  String.eqb (MetaCredentials.user_id m) i.

(** What the update below does to one row: the [.eq] filter and the owner
    policy select it, the three columns are set. *)
Definition meta_credentials_set (uid : option uuid)
    (pixel_id : string) (page_id : option string) (access_token : string)
    (user_id : uuid) (m : MetaCredentials.row) : MetaCredentials.row :=
  if String.eqb (MetaCredentials.user_id m) user_id
     && owner_using uid (MetaCredentials.user_id m)
  then {| MetaCredentials.user_id := MetaCredentials.user_id m;
          MetaCredentials.pixel_id := pixel_id;
          MetaCredentials.page_id := page_id;
          MetaCredentials.access_token := access_token |}
  else m.

(** [from('meta_credentials').update({ pixel_id, page_id, access_token }).eq('user_id', user_id)] *)
Definition meta_credentials_update (uid : option uuid)
    (pixel_id : string) (page_id : option string) (access_token : string)
    (user_id : uuid) (d : t) : option Js.Error * t :=
  (None,
   {| user_roles := user_roles d;
      profiles := profiles d;
      meta_credentials :=
        map (meta_credentials_set uid pixel_id page_id access_token user_id)
            (meta_credentials d);
      webhook_urls := webhook_urls d |}).

(** Modelled from the spec: the uniqueness constraint on
    [meta_credentials.user_id] ("unique -- one credential set per user"); the
    table's declaration is not among the sources.  True when the table
    already holds a row with the [user_id] of [m]. *)
Definition violates_user_id_unique (m : MetaCredentials.row) (d : t) : bool :=
  existsb (owned_by (MetaCredentials.user_id m)) (meta_credentials d).

(** Modelled from the spec: the name of that constraint.  The table's
    declaration is not among the sources; this is the name PostgreSQL gives a
    [UNIQUE] constraint on [user_id] that is declared without one.  Nothing
    below depends on the text: the handlers pass the store's message on
    without reading it. *)
Definition user_id_unique_name : string := "meta_credentials_user_id_key".

(** [from('meta_credentials').insert({ user_id, pixel_id, page_id, access_token })] *)
Definition meta_credentials_insert (uid : option uuid) (m : MetaCredentials.row)
    (d : t) : option Js.Error * t :=
  if negb (owner_using uid (MetaCredentials.user_id m)) then
    (Some (rls_violation "meta_credentials"), d)
  else if violates_user_id_unique m d then
    (Some (unique_violation user_id_unique_name), d)
  else
    (None,
     {| user_roles := user_roles d;
        profiles := profiles d;
        meta_credentials := meta_credentials d ++ [m];
        webhook_urls := webhook_urls d |}).

(** [from('webhook_urls').select('*').order('created_at', { ascending: false })] *)
Definition webhook_urls_select_all (uid : option uuid) (d : t) : reply (list WebhookUrls.row) :=
  ok (order_by created_at_desc (filter (webhook_urls_select_using d uid) (webhook_urls d))).

(** [from('webhook_urls').insert({ user_id, webhook_url, created_by_admin }).select().single()]:
    the reply carries either the error or the inserted row.  The store fills
    in [id] and [created_at]; [fresh] and [now] are the values it picks.  Per
    the spec there is no uniqueness constraint on [user_id].  The returned row
    has to pass the SELECT policy as well. *)
Definition webhook_urls_insert (uid : option uuid)
    (user_id : uuid) (webhook_url : string) (created_by_admin : bool)
    (fresh : uuid) (now : nat) (d : t) : (Js.Error + WebhookUrls.row) * t :=
  let w := {| WebhookUrls.id := fresh;
              WebhookUrls.user_id := user_id;
              WebhookUrls.webhook_url := webhook_url;
              WebhookUrls.created_at := Some now;
              WebhookUrls.created_by_admin := created_by_admin |} in
  if negb (webhook_urls_insert_check d uid w) then
    (inl (rls_violation "webhook_urls"), d)
  else if negb (webhook_urls_select_using d uid w) then
    (inl (rls_violation "webhook_urls"), d)
  else
    (inr w,
     {| user_roles := user_roles d;
        profiles := profiles d;
        meta_credentials := meta_credentials d;
        webhook_urls := webhook_urls d ++ [w] |}).

(** [from('webhook_urls').delete().eq('id', id)]: rows the DELETE policy hides
    are simply not deleted; that is not an error. *)
Definition webhook_urls_delete (uid : option uuid) (id : uuid) (d : t) : option Js.Error * t :=
  (None,
   {| user_roles := user_roles d;
      profiles := profiles d;
      meta_credentials := meta_credentials d;
      webhook_urls :=
        filter (fun w =>
                  negb (String.eqb (WebhookUrls.id w) id
                        && webhook_urls_delete_using d uid w))
               (webhook_urls d) |}).

(** [from('profiles').select('client_supabase_url, client_supabase_key')
    .eq('id', id).maybeSingle()]: the two selected columns of the row. *)
Definition profiles_select_pointer (uid : option uuid) (id : uuid) (d : t)
    : reply (option string * option string) :=
  maybeSingle
    (map (fun p => (Profiles.client_supabase_url p, Profiles.client_supabase_key p))
       (filter (fun p => String.eqb (Profiles.id p) id && profiles_select_using d uid p)
          (profiles d))).

(** [from('webhook_urls').select('webhook_url').eq('user_id', user_id).maybeSingle()] *)
Definition webhook_urls_select_own (uid : option uuid) (user_id : uuid) (d : t)
    : reply string :=
  maybeSingle
    (map WebhookUrls.webhook_url
       (filter (fun w => String.eqb (WebhookUrls.user_id w) user_id
                         && webhook_urls_select_using d uid w)
          (webhook_urls d))).

(** [CREATE POLICY "Users can view own roles" ON public.user_roles
    FOR SELECT USING (auth.uid() = user_id)] and
    [CREATE POLICY "Admins can view all roles" ON public.user_roles
    FOR SELECT USING (public.has_role(auth.uid(), 'admin'))], combined with OR. *)
Definition user_roles_select_using (d : t) (uid : option uuid) (r : UserRoles.row) : bool :=
  holds (sql_eq String.eqb uid (Some (UserRoles.user_id r)))
  || holds (Some (has_role d uid (Some admin))).

End Db.

(** ** Handlers as computations *)

(** The calls on the primary store's client, as they appear in the trace. *)
Inductive query :=
| ProfilesSelectAll
| ProfilesUpdate (url key : option string) (id : Db.uuid)
| MetaCredentialsSelect (user_id : Db.uuid)
| MetaCredentialsUpdate (pixel_id : string) (page_id : option string)
    (access_token : string) (user_id : Db.uuid)
| MetaCredentialsInsert (m : Db.MetaCredentials.row)
| WebhookUrlsSelectAll
| WebhookUrlsInsert (user_id : Db.uuid) (webhook_url : string) (created_by_admin : bool)
| WebhookUrlsDelete (id : Db.uuid).

(** What a handler does that can be observed from outside. *)
Inductive effect :=
| Toast (title description : string) (destructive : bool)
| CreateClient (url key : string)
| ClientQuery (table : string)
| StoreCall (q : query)
| ConsoleLog (text : string)
| ConsoleError (text : string).

Definition is_store_call (e : effect) : bool :=
  match e with
  | StoreCall _ => true
  | _ => false
  end.

(** A network call: creating a transient client or querying through it. *)
Definition is_network_call (e : effect) : bool :=
  match e with
  | CreateClient _ _ => true
  | ClientQuery _ => true
  | _ => false
  end.

(** How an awaited query on a transient client ends: it resolves to an object
    with an [error] field (possibly [null]), or the promise rejects. *)
Inductive network_reply :=
| Resolved (error : option Js.Error)
| Rejected (e : Js.Error).

Module Auth.

(** [useAuth().user], as far as the components read it. *)
Record User := { id : Db.uuid }.

(** The session the primary store's client sends along: [auth.uid()] is the
    signed-in user's id, NULL without a session. *)
Definition uid (user : option User) : option Db.uuid := option_map id user.

End Auth.

Section Handler.

Context {S : Type}.

Record world := {
  state : S;
  db : Db.t;
  trace : list effect
}.

Inductive outcome (A : Type) :=
| Returned (a : A)
| Thrown (e : Js.Error).

Definition M (A : Type) : Type := world -> outcome A * world.

Definition ret {A} (a : A) : M A := fun w => (Returned A a, w).

Definition throw {A} (e : Js.Error) : M A := fun w => (Thrown A e, w).

Definition bind {A B} (m : M A) (k : A -> M B) : M B :=
  fun w =>
    match m w with
    | (Returned _ a, w') => k a w'
    | (Thrown _ e, w') => (Thrown B e, w')
    end.

(** [try { body } catch (e) { handler }] *)
Definition try_catch {A} (body : M A) (handler : Js.Error -> M A) : M A :=
  fun w =>
    match body w with
    | (Returned _ a, w') => (Returned A a, w')
    | (Thrown _ e, w') => handler e w'
    end.

(** [try { body } finally { fin }]: [fin] runs however [body] ends. *)
Definition finally {A} (body : M A) (fin : M unit) : M A :=
  fun w =>
    match body w with
    | (r, w') =>
        match fin w' with
        | (Returned _ _, w'') => (r, w'')
        | (Thrown _ e, w'') => (Thrown A e, w'')
        end
    end.

Definition emit (e : effect) : M unit :=
  fun w => (Returned unit tt,
            {| state := state w; db := db w; trace := trace w ++ [e] |}).

(** A [set...] call of [useState]; [f] is the functional update. *)
Definition set_state (f : S -> S) : M unit :=
  fun w => (Returned unit tt,
            {| state := f (state w); db := db w; trace := trace w |}).

(** A query on the primary store that may change it. *)
Definition store_call {A} (q : query) (f : Db.t -> A * Db.t) : M A :=
  fun w =>
    match f (db w) with
    | (a, d') =>
        (Returned A a,
         {| state := state w; db := d'; trace := trace w ++ [StoreCall q] |})
    end.

(** A read-only query on the primary store. *)
Definition store_read {A} (q : query) (f : Db.t -> A) : M A :=
  store_call q (fun d => (f d, d)).

(** [createClient(url, key).from(table).select(...).limit(1)], awaited. *)
Definition client_query (url key table : string) (n : network_reply) : M (option Js.Error) :=
  fun w =>
    let w' := {| state := state w; db := db w;
                 trace := trace w ++ [CreateClient url key; ClientQuery table] |} in
    match n with
    | Resolved e => (Returned _ e, w')
    | Rejected e => (Thrown _ e, w')
    end.

(** The handler of the latest render: it captures the state as it is when
    the user triggers it. *)
Definition latest {A} (h : S -> M A) : M A := fun w => h (state w) w.

(** [toast({ title, description, variant })] *)
Definition toast (title description : string) (destructive : bool) : M unit :=
  emit (Toast title description destructive).

End Handler.

Arguments world : clear implicits.
Arguments M : clear implicits.
Arguments Returned {A} _.
Arguments Thrown {A} _.

Declare Scope handler_scope.
Delimit Scope handler_scope with handler.
Notation "x <- m ;; k" := (bind m (fun x => k))
  (at level 61, m at next level, right associativity) : handler_scope.
Notation "m ;; k" := (bind m (fun _ => k))
  (at level 61, right associativity) : handler_scope.
Local Open Scope handler_scope.

(** A handler created by a render that saw state [r], run on store [d]. *)
Definition run {S A} (h : M S A) (r : S) (d : Db.t) : outcome A * world S :=
  h {| state := r; db := d; trace := [] |}.

(** A read-only query on the primary store whose call is not one of the
    [query] labels above: the handler gets the reply, the trace is left as it
    is.  The reads of the mount effects below are modelled with it. *)
Definition store_peek {S A} (f : Db.t -> A) : M S A :=
  fun w => (Returned (f (db w)), w).

(** ** [src/components/ClientSupabaseConfig.tsx] *)

Module ClientSupabaseConfig.

Record ClientSupabaseCredentials := { url : string; key : string }.

Inductive ConnectionStatus := disconnected | connecting | connected | error.

(** The [useState] cells of the component. *)
Record State := {
  credentials : ClientSupabaseCredentials;
  showKey : bool;
  isSaving : bool;
  connectionStatus : ConnectionStatus;
  connectionError : option string;
  hasExistingConfig : bool
}.

Definition initial : State :=
  {| credentials := {| url := EmptyString; key := EmptyString |};
     showKey := false;
     isSaving := false;
     connectionStatus := disconnected;
     connectionError := None;
     hasExistingConfig := false |}.

Definition with_credentials (c : ClientSupabaseCredentials) (s : State) : State :=
  {| credentials := c; showKey := showKey s; isSaving := isSaving s;
     connectionStatus := connectionStatus s; connectionError := connectionError s;
     hasExistingConfig := hasExistingConfig s |}.

Definition setCredentials (c : ClientSupabaseCredentials) : M State unit :=
  set_state (with_credentials c).

Definition with_isSaving (b : bool) (s : State) : State :=
  {| credentials := credentials s; showKey := showKey s; isSaving := b;
     connectionStatus := connectionStatus s; connectionError := connectionError s;
     hasExistingConfig := hasExistingConfig s |}.

Definition setIsSaving (b : bool) : M State unit :=
  set_state (with_isSaving b).

Definition with_connectionStatus (c : ConnectionStatus) (s : State) : State :=
  {| credentials := credentials s; showKey := showKey s; isSaving := isSaving s;
     connectionStatus := c; connectionError := connectionError s;
     hasExistingConfig := hasExistingConfig s |}.

Definition setConnectionStatus (c : ConnectionStatus) : M State unit :=
  set_state (with_connectionStatus c).

Definition with_connectionError (e : option string) (s : State) : State :=
  {| credentials := credentials s; showKey := showKey s; isSaving := isSaving s;
     connectionStatus := connectionStatus s; connectionError := e;
     hasExistingConfig := hasExistingConfig s |}.

Definition setConnectionError (e : option string) : M State unit :=
  set_state (with_connectionError e).

Definition with_hasExistingConfig (b : bool) (s : State) : State :=
  {| credentials := credentials s; showKey := showKey s; isSaving := isSaving s;
     connectionStatus := connectionStatus s; connectionError := connectionError s;
     hasExistingConfig := b |}.

Definition setHasExistingConfig (b : bool) : M State unit :=
  set_state (with_hasExistingConfig b).

(** [/^https:\/\/[a-z0-9-]+\.supabase\.co$/] *)
Definition urlPattern : Regex.regex :=
  Regex.Cat (Regex.Str "https://")
    (Regex.Cat (Regex.Plus (Regex.Cls Regex.lower_alnum_or_hyphen))
       (Regex.Str ".supabase.co")).

Definition url_format_message : string :=
  "Formato de URL inválido. Use: https://xxxxx.supabase.co".

Definition invalid_key_message : string := "Chave de API inválida".

(** [error.message.includes('Invalid API key')] *)
Definition is_invalid_api_key (e : Js.Error) : bool :=
  Js.includes (Js.message e) "Invalid API key".

(** [testConnection(url, key)]; [n] is how the probe query ends, if it is
    issued.  The callback has no dependencies: it reads no component state. *)
Definition testConnection (n : network_reply) (url key : string) : M State bool :=
  if negb (Js.truthy url) || negb (Js.truthy key) then
    setConnectionStatus disconnected ;;
    ret false
  else
    try_catch
      (if negb (Regex.test urlPattern url) then
         setConnectionError (Some url_format_message) ;;
         setConnectionStatus error ;;
         ret false
       else
         setConnectionStatus connecting ;;
         err <- client_query url key "_test_connection_" n ;;
         if match err with
            | Some e => is_invalid_api_key e
            | None => false
            end
         then
           setConnectionError (Some invalid_key_message) ;;
           setConnectionStatus error ;;
           ret false
         else
           setConnectionError None ;;
           setConnectionStatus connected ;;
           ret true)
      (fun e =>
         if is_invalid_api_key e then
           setConnectionError (Some invalid_key_message) ;;
           setConnectionStatus error ;;
           ret false
         else
           setConnectionError None ;;
           setConnectionStatus connected ;;
           ret true).

(** [provisionTables(url, key)] *)
Definition provisionTables (n : network_reply) (url key : string) : M State bool :=
  try_catch
    (err <- client_query url key "meta_credentials" n ;;
     (if match err with
         | Some e => negb (Js.includes (Js.message e) "does not exist")
         | None => false
         end
      then emit (ConsoleLog "Client Supabase connected, but tables may not exist yet")
      else ret tt) ;;
     emit (ConsoleLog "Client Supabase connected successfully") ;;
     toast "Atenção"
       "Lembre-se de criar as tabelas meta_credentials, webhook_urls e events no seu Supabase."
       false ;;
     ret true)
    (fun e =>
       emit (ConsoleError "Error provisioning tables:") ;;
       ret false).

(** The replies of the two transient clients a save may create. *)
Record Network := { probe : network_reply; provision : network_reply }.

(** [handleSave], created by a render that saw [user] and the state [r]. *)
Definition handleSave (user : option Auth.User) (r : State) (n : Network) : M State unit :=
  match user with
  | None => ret tt
  | Some u =>
      if negb (Js.truthy (url (credentials r))) || negb (Js.truthy (key (credentials r))) then
        toast "Campos obrigatórios" "Preencha a URL e a chave do Supabase." true
      else
        setIsSaving true ;;
        finally
          (try_catch
             (isConnected <- testConnection (probe n) (url (credentials r)) (key (credentials r)) ;;
              if negb isConnected then
                toast "Falha na conexão"
                  (Js.or_else (connectionError r) "Não foi possível conectar ao Supabase.")
                  true
              else
                err <- store_call
                         (ProfilesUpdate (Some (url (credentials r)))
                            (Some (key (credentials r))) (Auth.id u))
                         (Db.profiles_update (Auth.uid user)
                            (Some (url (credentials r))) (Some (key (credentials r)))
                            (Auth.id u)) ;;
                match err with
                | Some e => throw e
                | None =>
                    provisionTables (provision n) (url (credentials r)) (key (credentials r)) ;;
                    setHasExistingConfig true ;;
                    toast "Configuração salva!" "Seu Supabase foi conectado com sucesso." false
                end)
             (fun e => toast "Erro ao salvar" (Js.message e) true))
          (setIsSaving false)
  end.

(** [handleDisconnect] *)
Definition handleDisconnect (user : option Auth.User) (r : State) : M State unit :=
  match user with
  | None => ret tt
  | Some u =>
      setIsSaving true ;;
      finally
        (try_catch
           (err <- store_call (ProfilesUpdate None None (Auth.id u))
                     (Db.profiles_update (Auth.uid user) None None (Auth.id u)) ;;
            match err with
            | Some e => throw e
            | None =>
                setCredentials {| url := EmptyString; key := EmptyString |} ;;
                setConnectionStatus disconnected ;;
                setConnectionError None ;;
                setHasExistingConfig false ;;
                toast "Desconectado"
                  "Seu Supabase foi desconectado. Você pode conectar outro." false
            end)
           (fun e => toast "Erro ao desconectar" (Js.message e) true))
        (setIsSaving false)
  end.

(** The render shows [{connectionError && <Alert>{connectionError}</Alert>}]:
    the text of the inline alert, if there is one. *)
Definition connectionAlert (s : State) : option string :=
  if Js.truthy_opt (connectionError s) then connectionError s else None.

(** The callback of the debounced effect, created by a render that saw [r]:
    [if (credentials.url && credentials.key) testConnection(...) else
    { setConnectionStatus('disconnected'); setConnectionError(null) }].  The
    500 ms timer that delays it is not modelled. *)
Definition autoTest (r : State) (n : network_reply) : M State unit :=
  if Js.truthy (url (credentials r)) && Js.truthy (key (credentials r)) then
    testConnection n (url (credentials r)) (key (credentials r)) ;;
    ret tt
  else
    setConnectionStatus disconnected ;;
    setConnectionError None.

(** The mount effect: [if (!user) return; fetchProfile()]. *)
Definition fetchProfile (user : option Auth.User) : M State unit :=
  match user with
  | None => ret tt
  | Some u =>
      res <- store_peek (Db.profiles_select_pointer (Auth.uid user) (Auth.id u)) ;;
      match Db.data res with
      | Some (Some client_supabase_url, Some client_supabase_key) =>
          if Js.truthy client_supabase_url && Js.truthy client_supabase_key then
            setCredentials {| url := client_supabase_url; key := client_supabase_key |} ;;
            setHasExistingConfig true
          else ret tt
      | _ => ret tt
      end
  end.

(** What the form can have written into a profile: no pointer at all, or a
    URL of the required shape together with a non-empty key. *)
Definition pointer_ok (p : Db.Profiles.row) : bool :=
  match Db.Profiles.client_supabase_url p, Db.Profiles.client_supabase_key p with
  | None, None => true
  | Some u, Some k => Regex.test urlPattern u && Js.truthy k
  | _, _ => false
  end.

(** [connectionStatus === 'connected'] and [connectionStatus === 'connecting'] *)
Definition is_connected (s : State) : bool :=
  match connectionStatus s with
  | connected => true
  | _ => false
  end.

Definition is_connecting (s : State) : bool :=
  match connectionStatus s with
  | connecting => true
  | _ => false
  end.

(** The button under the form. *)
Inductive Action :=
| DisconnectButton (disabled : bool)
| SaveButton (label : string) (disabled : bool).

(** [hasExistingConfig && connectionStatus === 'connected' ? <disconnect> : <save>] *)
Definition action (s : State) : Action :=
  if hasExistingConfig s && is_connected s then
    DisconnectButton (isSaving s)
  else
    SaveButton (if hasExistingConfig s then "Atualizar Conexão" else "Salvar e Conectar")
      (isSaving s || is_connecting s).

(** [disabled] of the two inputs. *)
Definition inputsDisabled (s : State) : bool :=
  hasExistingConfig s && is_connected s.

End ClientSupabaseConfig.

(** ** [src/pages/Configuracao.tsx] *)

Module Configuracao.

Record MetaCredentials := {
  pixel_id : string;
  page_id : string;
  access_token : string
}.

(** The [useState] cells of the page. *)
Record State := {
  credentials : MetaCredentials;
  showToken : bool;
  isSaving : bool;
  isTesting : bool;
  webhookUrl : option string;
  copied : bool;
  hasExistingCredentials : bool
}.

Definition initial : State :=
  {| credentials :=
       {| pixel_id := EmptyString; page_id := EmptyString; access_token := EmptyString |};
     showToken := false;
     isSaving := false;
     isTesting := false;
     webhookUrl := None;
     copied := false;
     hasExistingCredentials := false |}.

Definition with_credentials (c : MetaCredentials) (s : State) : State :=
  {| credentials := c; showToken := showToken s; isSaving := isSaving s;
     isTesting := isTesting s; webhookUrl := webhookUrl s; copied := copied s;
     hasExistingCredentials := hasExistingCredentials s |}.

Definition setCredentials (c : MetaCredentials) : M State unit :=
  set_state (with_credentials c).

Definition with_isSaving (b : bool) (s : State) : State :=
  {| credentials := credentials s; showToken := showToken s; isSaving := b;
     isTesting := isTesting s; webhookUrl := webhookUrl s; copied := copied s;
     hasExistingCredentials := hasExistingCredentials s |}.

Definition setIsSaving (b : bool) : M State unit :=
  set_state (with_isSaving b).

Definition with_hasExistingCredentials (b : bool) (s : State) : State :=
  {| credentials := credentials s; showToken := showToken s; isSaving := isSaving s;
     isTesting := isTesting s; webhookUrl := webhookUrl s; copied := copied s;
     hasExistingCredentials := b |}.

Definition setHasExistingCredentials (b : bool) : M State unit :=
  set_state (with_hasExistingCredentials b).

(** [fetchCredentials] of the mount effect, behind the effect's [if (!user) return]. *)
Definition fetchCredentials (user : option Auth.User) : M State unit :=
  match user with
  | None => ret tt
  | Some u =>
      res <- store_read (MetaCredentialsSelect (Auth.id u))
               (Db.meta_credentials_select (Auth.uid user) (Auth.id u)) ;;
      match Db.data res with
      | Some row =>
          setCredentials
            {| pixel_id := Db.MetaCredentials.pixel_id row;
               page_id := Js.or_else (Db.MetaCredentials.page_id row) EmptyString;
               access_token := Db.MetaCredentials.access_token row |} ;;
          setHasExistingCredentials true
      | None => ret tt
      end
  end.

(** The row a save writes for [u]:
    [{ user_id: user.id, pixel_id, page_id: page_id || null, access_token }]. *)
Definition row_of (u : Auth.User) (c : MetaCredentials) : Db.MetaCredentials.row :=
  {| Db.MetaCredentials.user_id := Auth.id u;
     Db.MetaCredentials.pixel_id := pixel_id c;
     Db.MetaCredentials.page_id := Js.or_null (page_id c);
     Db.MetaCredentials.access_token := access_token c |}.

(** [handleSave], created by a render that saw [user] and the state [r]. *)
Definition handleSave (user : option Auth.User) (r : State) : M State unit :=
  match user with
  | None => ret tt
  | Some u =>
      if negb (Js.truthy (pixel_id (credentials r)))
         || negb (Js.truthy (access_token (credentials r))) then
        toast "Campos obrigatórios" "Pixel ID e Access Token são obrigatórios." true
      else
        setIsSaving true ;;
        finally
          (try_catch
             ((if hasExistingCredentials r then
                 err <- store_call
                          (MetaCredentialsUpdate (pixel_id (credentials r))
                             (Js.or_null (page_id (credentials r)))
                             (access_token (credentials r)) (Auth.id u))
                          (Db.meta_credentials_update (Auth.uid user)
                             (pixel_id (credentials r))
                             (Js.or_null (page_id (credentials r)))
                             (access_token (credentials r)) (Auth.id u)) ;;
                 match err with
                 | Some e => throw e
                 | None => ret tt
                 end
               else
                 err <- store_call (MetaCredentialsInsert (row_of u (credentials r)))
                          (Db.meta_credentials_insert (Auth.uid user)
                             (row_of u (credentials r))) ;;
                 match err with
                 | Some e => throw e
                 | None => setHasExistingCredentials true
                 end) ;;
              toast "Salvo com sucesso!" "Suas credenciais foram atualizadas." false)
             (fun e => toast "Erro ao salvar" (Js.message e) true))
          (setIsSaving false)
  end.

(** The Save button pressed [k] times in a row, each press running the handler
    of the latest render. *)
Fixpoint press_save (user : option Auth.User) (k : nat) : M State unit :=
  match k with
  | 0 => ret tt
  | S k' => latest (handleSave user) ;; press_save user k'
  end.

(** A visit of the page: the mount effect loads what is stored, the user
    types the credentials [c] into the form and presses Save [k] times. *)
Definition visit (user : option Auth.User) (c : MetaCredentials) (k : nat) : M State unit :=
  fetchCredentials user ;;
  setCredentials c ;;
  press_save user k.

Definition with_webhookUrl (v : option string) (s : State) : State :=
  {| credentials := credentials s; showToken := showToken s; isSaving := isSaving s;
     isTesting := isTesting s; webhookUrl := v; copied := copied s;
     hasExistingCredentials := hasExistingCredentials s |}.

Definition setWebhookUrl (v : option string) : M State unit :=
  set_state (with_webhookUrl v).

Definition with_isTesting (b : bool) (s : State) : State :=
  {| credentials := credentials s; showToken := showToken s; isSaving := isSaving s;
     isTesting := b; webhookUrl := webhookUrl s; copied := copied s;
     hasExistingCredentials := hasExistingCredentials s |}.

Definition setIsTesting (b : bool) : M State unit :=
  set_state (with_isTesting b).

(** [fetchWebhook] of the mount effect, behind the effect's [if (!user) return]. *)
Definition fetchWebhook (user : option Auth.User) : M State unit :=
  match user with
  | None => ret tt
  | Some u =>
      res <- store_peek (Db.webhook_urls_select_own (Auth.uid user) (Auth.id u)) ;;
      match Db.data res with
      | Some webhook_url => setWebhookUrl (Some webhook_url)
      | None => ret tt
      end
  end.

(** The body of a response without [ok], as the handler reads it in
    [const error = await response.json(); error.error?.message]:
    [response.json()] rejects with [e] (the body is not JSON); the body is
    [null], and reading [error.error] throws the engine's [TypeError]; or the
    body is any other JSON value, of which the handler sees
    [error.error?.message]: the text [new Error] makes of it, or nothing
    ([error] absent or [null], [message] absent or falsy, a body that is not
    an object). *)
Inductive graph_body :=
| BodyUnreadable (e : Js.Error)
| BodyNull (type_error : Js.Error)
| BodyValue (error_message : option string).

(** How the [fetch] of the Meta Graph API ends: a response with [ok] set, a
    response without it, or a rejected promise. *)
Inductive graph_reply :=
| ResponseOk
| ResponseNotOk (body : graph_body)
| FetchRejected (e : Js.Error).

(** [throw new Error(error.error?.message || 'Credenciais inválidas')] after
    [await response.json()], with what reading the body throws on the way. *)
Definition body_error (body : graph_body) : Js.Error :=
  match body with
  | BodyUnreadable e => e
  | BodyNull type_error => type_error
  | BodyValue error_message =>
      {| Js.message := Js.or_else error_message "Credenciais inválidas" |}
  end.

(** The address [handleTestConnection] fetches. *)
Definition graph_url (c : MetaCredentials) : string :=
  "https://graph.facebook.com/v18.0/" ++ pixel_id c ++ "?access_token=" ++ access_token c.

(** [handleTestConnection], created by a render that saw the state [r]; the
    network is the function [fetch] from the address to how the request ends. *)
Definition handleTestConnection (r : State) (fetch : string -> graph_reply) : M State unit :=
  if negb (Js.truthy (pixel_id (credentials r)))
     || negb (Js.truthy (access_token (credentials r))) then
    toast "Campos obrigatórios" "Preencha o Pixel ID e Access Token para testar." true
  else
    setIsTesting true ;;
    finally
      (try_catch
         match fetch (graph_url (credentials r)) with
         | ResponseOk =>
             toast "Conexão bem-sucedida!" "Suas credenciais estão válidas." false
         | ResponseNotOk body => throw (body_error body)
         | FetchRejected e => throw e
         end
         (fun e => toast "Falha na conexão" (Js.message e) true))
      (setIsTesting false).

End Configuracao.

(** ** [src/pages/AdminWebhooks.tsx] *)

Module AdminWebhooks.

Module Profile.
Record t := { id : string; email : option string }.
End Profile.

Module WebhookUrl.
Record t := {
  id : string;
  user_id : string;
  webhook_url : string;
  created_at : option nat;
  profiles : option Profile.t
}.
End WebhookUrl.

(** The [useState] cells of the page. *)
Record State := {
  profiles : list Profile.t;
  webhooks : list WebhookUrl.t;
  selectedUserId : string;
  webhookUrl : string;
  isSaving : bool;
  isLoading : bool
}.

Definition initial : State :=
  {| profiles := []; webhooks := []; selectedUserId := EmptyString;
     webhookUrl := EmptyString; isSaving := false; isLoading := true |}.

Definition with_profiles (p : list Profile.t) (s : State) : State :=
  {| profiles := p; webhooks := webhooks s; selectedUserId := selectedUserId s;
     webhookUrl := webhookUrl s; isSaving := isSaving s; isLoading := isLoading s |}.

Definition setProfiles (p : list Profile.t) : M State unit :=
  set_state (with_profiles p).

(** [setWebhooks(f)] with a functional update [f]. *)
Definition with_webhooks (f : list WebhookUrl.t -> list WebhookUrl.t) (s : State) : State :=
  {| profiles := profiles s; webhooks := f (webhooks s);
     selectedUserId := selectedUserId s; webhookUrl := webhookUrl s;
     isSaving := isSaving s; isLoading := isLoading s |}.

Definition setWebhooks (f : list WebhookUrl.t -> list WebhookUrl.t) : M State unit :=
  set_state (with_webhooks f).

Definition with_selectedUserId (v : string) (s : State) : State :=
  {| profiles := profiles s; webhooks := webhooks s; selectedUserId := v;
     webhookUrl := webhookUrl s; isSaving := isSaving s; isLoading := isLoading s |}.

Definition setSelectedUserId (v : string) : M State unit :=
  set_state (with_selectedUserId v).

Definition with_webhookUrl (v : string) (s : State) : State :=
  {| profiles := profiles s; webhooks := webhooks s; selectedUserId := selectedUserId s;
     webhookUrl := v; isSaving := isSaving s; isLoading := isLoading s |}.

Definition setWebhookUrl (v : string) : M State unit :=
  set_state (with_webhookUrl v).

Definition with_isSaving (b : bool) (s : State) : State :=
  {| profiles := profiles s; webhooks := webhooks s; selectedUserId := selectedUserId s;
     webhookUrl := webhookUrl s; isSaving := b; isLoading := isLoading s |}.

Definition setIsSaving (b : bool) : M State unit :=
  set_state (with_isSaving b).

Definition with_isLoading (b : bool) (s : State) : State :=
  {| profiles := profiles s; webhooks := webhooks s; selectedUserId := selectedUserId s;
     webhookUrl := webhookUrl s; isSaving := isSaving s; isLoading := b |}.

Definition setIsLoading (b : bool) : M State unit :=
  set_state (with_isLoading b).

(** What [useAdmin()] returns. *)
Record UseAdmin := { isAdmin : bool; loading : bool }.

(** Modelled from the spec: the [useAdmin] hook ([src/hooks/useAdmin] is not
    among the sources).  By the spec the admin view is gated on
    [has_role(caller, admin)]; the hook reports [loading] until that role
    lookup has [resolved], and [isAdmin] only once it has and the role is
    held. *)
Definition useAdmin (d : Db.t) (uid : option Db.uuid) (resolved : bool) : UseAdmin :=
  {| isAdmin := resolved && Db.has_role d uid (Some Db.admin);
     loading := negb resolved |}.

(** The columns [select('id, email')] asks for. *)
Definition to_profile (p : Db.Profiles.row) : Profile.t :=
  {| Profile.id := Db.Profiles.id p; Profile.email := Db.Profiles.email p |}.

(** [{ ...webhook, profiles: profile }] *)
Definition with_profile (w : Db.WebhookUrls.row) (profile : option Profile.t) : WebhookUrl.t :=
  {| WebhookUrl.id := Db.WebhookUrls.id w;
     WebhookUrl.user_id := Db.WebhookUrls.user_id w;
     WebhookUrl.webhook_url := Db.WebhookUrls.webhook_url w;
     WebhookUrl.created_at := Db.WebhookUrls.created_at w;
     WebhookUrl.profiles := profile |}.

(** The mount effect: [if (!isAdmin) return; fetchData()].  [uid] is the
    session of the primary store's client. *)
Definition fetchData (h : UseAdmin) (uid : option Db.uuid) : M State unit :=
  if negb (isAdmin h) then ret tt
  else
    finally
      (try_catch
         (p <- store_read ProfilesSelectAll (Db.profiles_select_all uid) ;;
          let profilesData := option_map (map to_profile) (Db.data p) in
          match profilesData with
          | Some ps => setProfiles ps
          | None => ret tt
          end ;;
          w <- store_read WebhookUrlsSelectAll (Db.webhook_urls_select_all uid) ;;
          match Db.data w with
          | Some webhooksData =>
              setWebhooks (fun _ =>
                map (fun webhook =>
                       with_profile webhook
                         match profilesData with
                         | Some ps =>
                             find (fun p => String.eqb (Profile.id p)
                                              (Db.WebhookUrls.user_id webhook)) ps
                         | None => None
                         end)
                    webhooksData)
          | None => ret tt
          end)
         (fun e => emit (ConsoleError "Error fetching data:")))
      (setIsLoading false).

(** [handleAddWebhook], created by a render that saw the state [r]; [fresh]
    and [now] are the id and the time the store gives an inserted row. *)
Definition handleAddWebhook (uid : option Db.uuid) (r : State)
    (fresh : Db.uuid) (now : nat) : M State unit :=
  if negb (Js.truthy (selectedUserId r)) || negb (Js.truthy (webhookUrl r)) then
    toast "Campos obrigatórios" "Selecione um usuário e insira a URL do webhook." true
  else
    match find (fun w => String.eqb (WebhookUrl.user_id w) (selectedUserId r)) (webhooks r) with
    | Some existingWebhook =>
        toast "Usuário já possui webhook"
          "Este usuário já tem um webhook cadastrado. Delete o existente primeiro." true
    | None =>
        setIsSaving true ;;
        finally
          (try_catch
             (res <- store_call (WebhookUrlsInsert (selectedUserId r) (webhookUrl r) true)
                       (Db.webhook_urls_insert uid (selectedUserId r) (webhookUrl r) true
                          fresh now) ;;
              match res with
              | inl e => throw e
              | inr data =>
                  let profile :=
                    find (fun p => String.eqb (Profile.id p) (selectedUserId r)) (profiles r) in
                  setWebhooks (fun prev => with_profile data profile :: prev) ;;
                  setSelectedUserId EmptyString ;;
                  setWebhookUrl EmptyString ;;
                  toast "Webhook adicionado!" "O webhook foi cadastrado com sucesso." false
              end)
             (fun e => toast "Erro ao adicionar" (Js.message e) true))
          (setIsSaving false)
    end.

(** [handleDeleteWebhook(webhookId)] *)
Definition handleDeleteWebhook (uid : option Db.uuid) (webhookId : string) : M State unit :=
  try_catch
    (err <- store_call (WebhookUrlsDelete webhookId) (Db.webhook_urls_delete uid webhookId) ;;
     match err with
     | Some e => throw e
     | None =>
         setWebhooks (filter (fun w => negb (String.eqb (WebhookUrl.id w) webhookId))) ;;
         toast "Webhook removido!" "O webhook foi removido com sucesso." false
     end)
    (fun e => toast "Erro ao remover" (Js.message e) true).

(** What the component returns. *)
Inductive View :=
| Spinner
| Navigate (to : string) (replace : bool)
| Page.

(** [if (adminLoading) return <spinner>; if (!isAdmin) return <Navigate
    to="/dashboard" replace />; return <page>] *)
Definition render (h : UseAdmin) : View :=
  if loading h then Spinner
  else if negb (isAdmin h) then Navigate "/dashboard" true
  else Page.

(** The listing the page holds is in step with the store when every stored
    webhook row is listed, under its id and its user. *)
Definition in_step (r : State) (d : Db.t) : Prop :=
  forall row, In row (Db.webhook_urls d) ->
    exists w, In w (webhooks r) /\
              WebhookUrl.id w = Db.WebhookUrls.id row /\
              WebhookUrl.user_id w = Db.WebhookUrls.user_id row.

(** The first cell of a listing row: [webhook.profiles?.email || 'Usuário desconhecido']. *)
Definition user_label (w : WebhookUrl.t) : string :=
  Js.or_else
    match WebhookUrl.profiles w with
    | Some p => Profile.email p
    | None => None
    end
    "Usuário desconhecido".

End AdminWebhooks.

(** ** [src/components/Layout.tsx] *)

Module Layout.

Record NavItem := {
  href : string;
  label : string;
  adminOnly : bool
}.

Definition navItems : list NavItem :=
  [ {| href := "/dashboard"; label := "Dashboard"; adminOnly := false |};
    {| href := "/configuracao"; label := "Configuração"; adminOnly := false |};
    {| href := "/admin/webhooks"; label := "Admin"; adminOnly := true |} ].

(** [navItems.filter(item => !item.adminOnly || isAdmin)] *)
Definition filteredNavItems (isAdmin : bool) : list NavItem :=
  filter (fun item => negb (adminOnly item) || isAdmin) navItems.

End Layout.

(** ** The earlier revision of the pointer form

    One of the repository's files is an earlier revision of
    [ClientSupabaseConfig]: there the prober throws instead of recording a
    status, and a separate button runs it. *)

Module ClientSupabaseConfigV1.

Record ClientSupabaseCredentials := { url : string; key : string }.

Record State := {
  credentials : ClientSupabaseCredentials;
  showKey : bool;
  isSaving : bool;
  isTesting : bool;
  isConnected : bool;
  hasExistingConfig : bool
}.

Definition initial : State :=
  {| credentials := {| url := EmptyString; key := EmptyString |};
     showKey := false; isSaving := false; isTesting := false;
     isConnected := false; hasExistingConfig := false |}.

Definition with_credentials (c : ClientSupabaseCredentials) (s : State) : State :=
  {| credentials := c; showKey := showKey s; isSaving := isSaving s;
     isTesting := isTesting s; isConnected := isConnected s;
     hasExistingConfig := hasExistingConfig s |}.

Definition setCredentials (c : ClientSupabaseCredentials) : M State unit :=
  set_state (with_credentials c).

Definition with_isSaving (b : bool) (s : State) : State :=
  {| credentials := credentials s; showKey := showKey s; isSaving := b;
     isTesting := isTesting s; isConnected := isConnected s;
     hasExistingConfig := hasExistingConfig s |}.

Definition setIsSaving (b : bool) : M State unit :=
  set_state (with_isSaving b).

Definition with_isTesting (b : bool) (s : State) : State :=
  {| credentials := credentials s; showKey := showKey s; isSaving := isSaving s;
     isTesting := b; isConnected := isConnected s;
     hasExistingConfig := hasExistingConfig s |}.

Definition setIsTesting (b : bool) : M State unit :=
  set_state (with_isTesting b).

Definition with_isConnected (b : bool) (s : State) : State :=
  {| credentials := credentials s; showKey := showKey s; isSaving := isSaving s;
     isTesting := isTesting s; isConnected := b;
     hasExistingConfig := hasExistingConfig s |}.

Definition setIsConnected (b : bool) : M State unit :=
  set_state (with_isConnected b).

Definition with_hasExistingConfig (b : bool) (s : State) : State :=
  {| credentials := credentials s; showKey := showKey s; isSaving := isSaving s;
     isTesting := isTesting s; isConnected := isConnected s;
     hasExistingConfig := b |}.

Definition setHasExistingConfig (b : bool) : M State unit :=
  set_state (with_hasExistingConfig b).

(** [testConnection()], created by a render that saw the state [r]; [n] is
    how the probe query ends, if it is issued.  Both [throw]s of the [try]
    block land in its own [catch]. *)
Definition testConnection (r : State) (n : network_reply) : M State bool :=
  if negb (Js.truthy (url (credentials r))) || negb (Js.truthy (key (credentials r))) then
    toast "Campos obrigatórios" "Preencha a URL e a chave do Supabase." true ;;
    ret false
  else
    try_catch
      (if negb (Regex.test ClientSupabaseConfig.urlPattern (url (credentials r))) then
         throw {| Js.message := "Formato de URL inválido. Use: https://xxxxx.supabase.co" |}
       else
         err <- client_query (url (credentials r)) (key (credentials r))
                  "_test_connection_" n ;;
         if match err with
            | Some e => Js.includes (Js.message e) "Invalid API key"
            | None => false
            end
         then throw {| Js.message := "Chave de API inválida" |}
         else ret true)
      (fun e =>
         if Js.includes (Js.message e) "Invalid API key"
            || Js.includes (Js.message e) "Formato de URL"
         then throw e
         else ret true).

(** [handleTestConnection] *)
Definition handleTestConnection (r : State) (n : network_reply) : M State unit :=
  setIsTesting true ;;
  finally
    (try_catch
       (testConnection r n ;;
        toast "Conexão bem-sucedida!" "Seu Supabase está acessível." false ;;
        setIsConnected true)
       (fun e =>
          toast "Falha na conexão" (Js.message e) true ;;
          setIsConnected false))
    (setIsTesting false).

(** [provisionTables()]: it creates a client and sends nothing through it. *)
Definition provisionTables (r : State) : M State bool :=
  emit (CreateClient (url (credentials r)) (key (credentials r))) ;;
  emit (ConsoleLog "Client Supabase connected successfully") ;;
  ret true.

(** [handleSave]: the value [testConnection] returns is not looked at. *)
Definition handleSave (user : option Auth.User) (r : State) (n : network_reply) : M State unit :=
  match user with
  | None => ret tt
  | Some u =>
      if negb (Js.truthy (url (credentials r))) || negb (Js.truthy (key (credentials r))) then
        toast "Campos obrigatórios" "Preencha a URL e a chave do Supabase." true
      else
        setIsSaving true ;;
        finally
          (try_catch
             (testConnection r n ;;
              err <- store_call
                       (ProfilesUpdate (Some (url (credentials r)))
                          (Some (key (credentials r))) (Auth.id u))
                       (Db.profiles_update (Auth.uid user)
                          (Some (url (credentials r))) (Some (key (credentials r)))
                          (Auth.id u)) ;;
              match err with
              | Some e => throw e
              | None =>
                  provisionTables r ;;
                  setHasExistingConfig true ;;
                  setIsConnected true ;;
                  toast "Configuração salva!" "Seu Supabase foi conectado com sucesso." false
              end)
             (fun e => toast "Erro ao salvar" (Js.message e) true))
          (setIsSaving false)
  end.

End ClientSupabaseConfigV1.

(** ** Concrete stores and states used in the examples *)

Module Example.

Definition empty_db : Db.t :=
  {| Db.user_roles := []; Db.profiles := [];
     Db.meta_credentials := []; Db.webhook_urls := [] |}.

Definition alice : Auth.User := {| Auth.id := "alice" |}.

(** A store in which [root] is an admin and [alice] is not, and [alice] has a
    profile, a Meta credential and a webhook. *)
Definition small_db : Db.t :=
  {| Db.user_roles :=
       [ {| Db.UserRoles.id := "r1"; Db.UserRoles.user_id := "root";
            Db.UserRoles.role := Db.admin; Db.UserRoles.created_at := 1 |};
         {| Db.UserRoles.id := "r2"; Db.UserRoles.user_id := "alice";
            Db.UserRoles.role := Db.user; Db.UserRoles.created_at := 2 |} ];
     Db.profiles :=
       [ {| Db.Profiles.id := "root"; Db.Profiles.email := Some "root@example.com";
            Db.Profiles.client_supabase_url := None;
            Db.Profiles.client_supabase_key := None |};
         {| Db.Profiles.id := "alice"; Db.Profiles.email := Some "alice@example.com";
            Db.Profiles.client_supabase_url := Some "https://abc123.supabase.co";
            Db.Profiles.client_supabase_key := Some "validlookingkey" |} ];
     Db.meta_credentials :=
       [ {| Db.MetaCredentials.user_id := "alice";
            Db.MetaCredentials.pixel_id := "1234567890";
            Db.MetaCredentials.page_id := None;
            Db.MetaCredentials.access_token := "EAAB" |} ];
     Db.webhook_urls :=
       [ {| Db.WebhookUrls.id := "w1"; Db.WebhookUrls.user_id := "alice";
            Db.WebhookUrls.webhook_url := "https://hook.example.com/alice";
            Db.WebhookUrls.created_at := Some 3;
            Db.WebhookUrls.created_by_admin := true |} ] |}.

(** [alice] has typed a well-formed URL and a key into the pointer form. *)
Definition typed_pointer : ClientSupabaseConfig.State :=
  ClientSupabaseConfig.with_credentials
    {| ClientSupabaseConfig.url := "https://abc123.supabase.co";
       ClientSupabaseConfig.key := "validlookingkey" |}
    ClientSupabaseConfig.initial.

(** The external store rejects the key. *)
Definition invalid_key : ClientSupabaseConfig.Network :=
  {| ClientSupabaseConfig.probe := Resolved (Some {| Js.message := "Invalid API key" |});
     ClientSupabaseConfig.provision := Resolved None |}.

(** The pointer form a moment after [alice] has corrected a malformed URL: the
    fields hold the well-formed pair, the debounced effect has not run again,
    and the status and the message are still those of the malformed URL. *)
Definition corrected_url : ClientSupabaseConfig.State :=
  ClientSupabaseConfig.with_connectionStatus ClientSupabaseConfig.error
    (ClientSupabaseConfig.with_connectionError
       (Some ClientSupabaseConfig.url_format_message) typed_pointer).

(** The credential form with the Pixel ID left empty. *)
Definition no_pixel : Configuracao.State :=
  Configuracao.with_credentials
    {| Configuracao.pixel_id := EmptyString;
       Configuracao.page_id := EmptyString;
       Configuracao.access_token := "EAAB" |}
    Configuracao.initial.

Definition new_credentials : Configuracao.MetaCredentials :=
  {| Configuracao.pixel_id := "42";
     Configuracao.page_id := EmptyString;
     Configuracao.access_token := "tok" |}.

(** The credential form filled in while it does not know of a stored row: the
    lookup of the mount effect has not answered yet, or has failed. *)
Definition filled_before_lookup : Configuracao.State :=
  Configuracao.with_credentials new_credentials Configuracao.initial.

Definition alice_webhook : AdminWebhooks.WebhookUrl.t :=
  {| AdminWebhooks.WebhookUrl.id := "w1";
     AdminWebhooks.WebhookUrl.user_id := "alice";
     AdminWebhooks.WebhookUrl.webhook_url := "https://hook.example.com/alice";
     AdminWebhooks.WebhookUrl.created_at := Some 3;
     AdminWebhooks.WebhookUrl.profiles :=
       Some {| AdminWebhooks.Profile.id := "alice";
               AdminWebhooks.Profile.email := Some "alice@example.com" |} |}.

Definition loaded_profiles : list AdminWebhooks.Profile.t :=
  [ {| AdminWebhooks.Profile.id := "alice";
       AdminWebhooks.Profile.email := Some "alice@example.com" |};
    {| AdminWebhooks.Profile.id := "root";
       AdminWebhooks.Profile.email := Some "root@example.com" |} ].

(** The admin page with [alice]'s webhook listed and [alice] selected again,
    with the given text in the URL field. *)
Definition alice_selected (webhookUrl : string) : AdminWebhooks.State :=
  {| AdminWebhooks.profiles := loaded_profiles;
     AdminWebhooks.webhooks := [alice_webhook];
     AdminWebhooks.selectedUserId := "alice";
     AdminWebhooks.webhookUrl := webhookUrl;
     AdminWebhooks.isSaving := false;
     AdminWebhooks.isLoading := false |}.

(** The admin page whose listing does not show [alice]'s stored webhook (the
    profiles have arrived, the webhook rows have not, or the row was created
    from another session): [alice] is selected and a URL typed. *)
Definition listing_out_of_date : AdminWebhooks.State :=
  {| AdminWebhooks.profiles := loaded_profiles;
     AdminWebhooks.webhooks := [];
     AdminWebhooks.selectedUserId := "alice";
     AdminWebhooks.webhookUrl := "https://hook.example.com/x";
     AdminWebhooks.isSaving := false;
     AdminWebhooks.isLoading := true |}.

(** The admin page with [alice]'s webhook listed, [root] (who has none)
    selected and a URL typed. *)
Definition root_selected : AdminWebhooks.State :=
  {| AdminWebhooks.profiles := loaded_profiles;
     AdminWebhooks.webhooks := [alice_webhook];
     AdminWebhooks.selectedUserId := "root";
     AdminWebhooks.webhookUrl := "https://hook.example.com/x";
     AdminWebhooks.isSaving := false;
     AdminWebhooks.isLoading := false |}.

(** The earlier revision's form with a well-formed URL and a key typed. *)
Definition typed_pointer_v1 : ClientSupabaseConfigV1.State :=
  ClientSupabaseConfigV1.with_credentials
    {| ClientSupabaseConfigV1.url := "https://abc123.supabase.co";
       ClientSupabaseConfigV1.key := "validlookingkey" |}
    ClientSupabaseConfigV1.initial.

End Example.

(** * Properties *)

(** ** Strings *)

Lemma append_eq_nil (s1 s2 : string) :
  (s1 ++ s2)%string = EmptyString -> s1 = EmptyString /\ s2 = EmptyString.
Proof.
  destruct s1; simpl; intro H; [now split | discriminate].
Qed.

(** ** Regular expressions: [test] decides the language *)

Lemma lang_cat_inv (r1 r2 : Regex.regex) (s : string) :
  Regex.lang (Regex.Cat r1 r2) s ->
  exists s1 s2, s = (s1 ++ s2)%string /\ Regex.lang r1 s1 /\ Regex.lang r2 s2.
Proof.
  intro H. inversion H; subst. eauto.
Qed.

Lemma lang_alt_inv (r1 r2 : Regex.regex) (s : string) :
  Regex.lang (Regex.Alt r1 r2) s -> Regex.lang r1 s \/ Regex.lang r2 s.
Proof.
  intro H. inversion H; subst; auto.
Qed.

Lemma nullable_lang (r : Regex.regex) :
  Regex.nullable r = true <-> Regex.lang r EmptyString.
Proof.
  induction r as [| | c | p | r1 IH1 r2 IH2 | r1 IH1 r2 IH2 | r IH]; simpl.
  - split; [discriminate | intro H; inversion H].
  - split; [intros _; constructor | reflexivity].
  - split; [discriminate | intro H; inversion H].
  - split; [discriminate | intro H; inversion H].
  - rewrite andb_true_iff, IH1, IH2. split.
    + intros [H1 H2]. exact (Regex.lang_cat _ _ _ _ H1 H2).
    + intro H. apply lang_cat_inv in H. destruct H as (s1 & s2 & E & H1 & H2).
      symmetry in E. apply append_eq_nil in E. destruct E; subst. now split.
  - rewrite orb_true_iff, IH1, IH2. split.
    + intros [H | H]; [now apply Regex.lang_alt_l | now apply Regex.lang_alt_r].
    + apply lang_alt_inv.
  - split; [intros _; constructor | reflexivity].
Qed.

Lemma star_step (a : ascii) (r : Regex.regex)
    (IH : forall s, Regex.lang r (String a s) -> Regex.lang (Regex.deriv a r) s)
    (r0 : Regex.regex) (s0 : string) :
  Regex.lang r0 s0 ->
  forall s, r0 = Regex.Star r -> s0 = String a s ->
  Regex.lang (Regex.Cat (Regex.deriv a r) (Regex.Star r)) s.
Proof.
  induction 1 as [| | | | | | r' | r' s1 s2 H1 _ H2 IH2]; intros t Er Es;
    try discriminate.
  injection Er as ->.
  destruct s1 as [|b s1]; simpl in Es.
  - now apply IH2.
  - injection Es as -> <-.
    apply Regex.lang_cat; [now apply IH | assumption].
Qed.

Lemma deriv_cat_lang (a : ascii) (r1 r2 : Regex.regex)
    (IH1 : forall s, Regex.lang (Regex.deriv a r1) s -> Regex.lang r1 (String a s))
    (s : string) :
  Regex.lang (Regex.Cat (Regex.deriv a r1) r2) s ->
  Regex.lang (Regex.Cat r1 r2) (String a s).
Proof.
  intro H. apply lang_cat_inv in H. destruct H as (s1 & s2 & -> & H1 & H2).
  apply IH1 in H1. exact (Regex.lang_cat _ _ _ _ H1 H2).
Qed.

Lemma deriv_lang (a : ascii) (r : Regex.regex) :
  forall s, Regex.lang (Regex.deriv a r) s <-> Regex.lang r (String a s).
Proof.
  induction r as [| | c | p | r1 IH1 r2 IH2 | r1 IH1 r2 IH2 | r IH]; intro s; simpl.
  - split; intro H; inversion H.
  - split; intro H; inversion H.
  - destruct (Ascii.eqb a c) eqn:E.
    + apply Ascii.eqb_eq in E. subst c. split; intro H; inversion H; subst; constructor.
    + split; intro H; inversion H; subst.
      rewrite Ascii.eqb_refl in E. discriminate.
  - destruct (p a) eqn:E.
    + split; intro H; inversion H; subst; now constructor.
    + split; intro H; inversion H; subst. congruence.
  - split.
    + intro H. destruct (Regex.nullable r1) eqn:N.
      * apply lang_alt_inv in H. destruct H as [H | H].
        -- apply deriv_cat_lang; [apply IH1 | assumption].
        -- apply nullable_lang in N. apply IH2 in H.
           exact (Regex.lang_cat _ _ _ _ N H).
      * apply deriv_cat_lang; [apply IH1 | assumption].
    + intro H. apply lang_cat_inv in H. destruct H as (s1 & s2 & E & H1 & H2).
      destruct s1 as [|b s1]; simpl in E.
      * subst s2. pose proof (proj2 (nullable_lang r1) H1) as N. rewrite N.
        apply Regex.lang_alt_r. now apply IH2.
      * injection E as <- ->.
        assert (Hc : Regex.lang (Regex.Cat (Regex.deriv a r1) r2) (s1 ++ s2)).
        { apply Regex.lang_cat; [now apply IH1 | assumption]. }
        destruct (Regex.nullable r1); [now apply Regex.lang_alt_l | assumption].
  - split; intro H.
    + apply lang_alt_inv in H. destruct H as [H | H];
        [apply Regex.lang_alt_l; now apply IH1 | apply Regex.lang_alt_r; now apply IH2].
    + apply lang_alt_inv in H. destruct H as [H | H];
        [apply Regex.lang_alt_l; now apply IH1 | apply Regex.lang_alt_r; now apply IH2].
  - split; intro H.
    + apply lang_cat_inv in H. destruct H as (s1 & s2 & -> & H1 & H2).
      apply IH in H1. exact (Regex.lang_star_cons _ _ _ H1 H2).
    + eapply star_step; [| exact H | reflexivity | reflexivity].
      intros s' H'. now apply IH.
Qed.

Lemma test_lang (s : string) :
  forall r, Regex.test r s = true <-> Regex.lang r s.
Proof.
  induction s as [|a s IH]; intro r; simpl.
  - apply nullable_lang.
  - rewrite IH. apply deriv_lang.
Qed.

Lemma lang_Str (t s : string) : Regex.lang (Regex.Str t) s <-> s = t.
Proof.
  revert s. induction t as [|c t IH]; intro s; simpl.
  - split; intro H; [now inversion H | subst; constructor].
  - split; intro H.
    + apply lang_cat_inv in H. destruct H as (s1 & s2 & -> & H1 & H2).
      apply IH in H2. inversion H1; subst. reflexivity.
    + subst s. change (String c t) with (String c EmptyString ++ t)%string.
      apply Regex.lang_cat; [constructor | now apply IH].
Qed.

Lemma lang_star_cls_sound (p : ascii -> bool) (r : Regex.regex) (s : string) :
  Regex.lang r s -> r = Regex.Star (Regex.Cls p) -> Regex.all_chars p s = true.
Proof.
  induction 1 as [| | | | | | r' | r' s1 s2 H1 _ H2 IH2]; intro E; try discriminate.
  - reflexivity.
  - injection E as ->. inversion H1; subst. simpl.
    rewrite IH2 by reflexivity. now rewrite andb_true_r.
Qed.

Lemma lang_star_cls (p : ascii -> bool) (s : string) :
  Regex.lang (Regex.Star (Regex.Cls p)) s <-> Regex.all_chars p s = true.
Proof.
  split.
  - intro H. now apply (lang_star_cls_sound p _ _ H).
  - induction s as [|c s IH]; simpl; intro H.
    + constructor.
    + apply andb_true_iff in H. destruct H as [Hc Hs].
      change (String c s) with (String c EmptyString ++ s)%string.
      apply Regex.lang_star_cons; [now constructor | now apply IH].
Qed.

(** What [urlPattern.test] accepts: [https://], then a non-empty label of
    lowercase letters, digits and hyphens, then [.supabase.co], and nothing
    else. *)
Lemma urlPattern_test_iff (url : string) :
  Regex.test ClientSupabaseConfig.urlPattern url = true <->
  exists label,
    label <> EmptyString /\
    Regex.all_chars Regex.lower_alnum_or_hyphen label = true /\
    url = ("https://" ++ label ++ ".supabase.co")%string.
Proof.
  rewrite test_lang. unfold ClientSupabaseConfig.urlPattern, Regex.Plus. split.
  - intro H.
    apply lang_cat_inv in H. destruct H as (s1 & s2 & -> & H1 & H).
    apply lang_Str in H1. subst s1.
    apply lang_cat_inv in H. destruct H as (s3 & s4 & -> & H & H4).
    apply lang_Str in H4. subst s4.
    apply lang_cat_inv in H. destruct H as (s5 & s6 & -> & H5 & H6).
    inversion H5 as [| | ? c Hc | | | | |]; subst.
    apply lang_star_cls in H6.
    exists (String c s6). repeat split.
    + discriminate.
    + simpl. now rewrite Hc, H6.
  - intros (label & Hne & Hall & ->).
    apply Regex.lang_cat; [now apply lang_Str |].
    apply Regex.lang_cat; [| now apply lang_Str].
    destruct label as [|c label]; [now contradiction Hne |].
    simpl in Hall. apply andb_true_iff in Hall. destruct Hall as [Hc Hl].
    change (String c label) with (String c EmptyString ++ label)%string.
    apply Regex.lang_cat; [now constructor | now apply lang_star_cls].
Qed.

(** ** Role policy *)

Lemma app_role_eqb_eq (a b : Db.app_role) : Db.app_role_eqb a b = true <-> a = b.
Proof.
  destruct a, b; simpl; split; intro H; try reflexivity; discriminate.
Qed.

(** [has_role] is true exactly when some row of [user_roles] carries the given
    user and role; a NULL argument matches no row. *)
Lemma has_role_true_iff (d : Db.t) (u : option Db.uuid) (r : option Db.app_role) :
  Db.has_role d u r = true <->
  exists row, In row (Db.user_roles d) /\
              Some (Db.UserRoles.user_id row) = u /\ Some (Db.UserRoles.role row) = r.
Proof.
  unfold Db.has_role. rewrite existsb_exists.
  split; intros (row & Hin & H); exists row; split; try assumption.
  - destruct u as [u|], r as [r|]; simpl in H; try discriminate;
      try (destruct (String.eqb _ _); discriminate);
      try (destruct (Db.app_role_eqb _ _); discriminate).
    destruct (String.eqb (Db.UserRoles.user_id row) u) eqn:Eu;
      destruct (Db.app_role_eqb (Db.UserRoles.role row) r) eqn:Er; try discriminate.
    apply String.eqb_eq in Eu. apply app_role_eqb_eq in Er. now subst.
  - destruct H as [<- <-]. simpl. rewrite String.eqb_refl.
    now rewrite (proj2 (app_role_eqb_eq _ _) eq_refl).
Qed.

(** C2. [has_role(user_id, role)] returns false whenever no row of
    [user_roles] matches the pair.  The function is total with a boolean
    result for every store and every argument, NULL included, so the absence
    of a role is an ordinary [false] and there is no outcome in which the
    lookup raises. *)
Theorem has_role_default_deny (d : Db.t) (u : option Db.uuid) (r : option Db.app_role) :
  (forall row, In row (Db.user_roles d) ->
               ~ (Some (Db.UserRoles.user_id row) = u /\ Some (Db.UserRoles.role row) = r)) ->
  Db.has_role d u r = false.
Proof.
  intro H. destruct (Db.has_role d u r) eqn:E; [| reflexivity].
  apply has_role_true_iff in E. destruct E as (row & Hin & Hm).
  now destruct (H row Hin).
Qed.

Lemma has_role_default_deny_witness :
  Db.has_role Example.small_db (Some "alice") (Some Db.admin) = false.
Proof.
  apply has_role_default_deny.
  intros row Hin [Hu Hr]. simpl in Hin.
  destruct Hin as [<- | [<- | []]]; simpl in *; discriminate.
Defined.

(** A NULL caller (no session) holds no role. *)
Lemma has_role_null_user (d : Db.t) (r : option Db.app_role) :
  Db.has_role d None r = false.
Proof.
  destruct (Db.has_role d None r) eqn:E; [| reflexivity].
  apply has_role_true_iff in E. destruct E as (row & _ & H & _). discriminate.
Qed.

(** ** Row-level policies on [webhook_urls] and the admin view *)

Lemma In_insert_sorted {A} (le : A -> A -> bool) (x y : A) (l : list A) :
  In y (Db.insert_sorted le x l) <-> y = x \/ In y l.
Proof.
  induction l as [|z l IH]; simpl.
  - intuition congruence.
  - destruct (le x z); simpl; [intuition congruence |].
    rewrite IH. intuition congruence.
Qed.

(** Ordering only permutes. *)
Lemma In_order_by {A} (le : A -> A -> bool) (y : A) (l : list A) :
  In y (Db.order_by le l) <-> In y l.
Proof.
  unfold Db.order_by. induction l as [|x l IH]; simpl; [reflexivity |].
  rewrite In_insert_sorted, IH. intuition congruence.
Qed.

Lemma filter_all (A : Type) (f : A -> bool) (l : list A) :
  (forall x, In x l -> f x = true) -> filter f l = l.
Proof.
  induction l as [|x l IH]; simpl; intro H; [reflexivity |].
  rewrite (H x (or_introl eq_refl)). f_equal. apply IH. auto.
Qed.

(** Without the admin role the SELECT policy shows a caller own rows only. *)
Lemma select_using_non_admin (d : Db.t) (uid : option Db.uuid) (w : Db.WebhookUrls.row) :
  Db.has_role d uid (Some Db.admin) = false ->
  Db.webhook_urls_select_using d uid w = true ->
  uid = Some (Db.WebhookUrls.user_id w).
Proof.
  unfold Db.webhook_urls_select_using. intros -> H.
  destruct uid as [u|]; simpl in H; [| discriminate].
  destruct (String.eqb u (Db.WebhookUrls.user_id w)) eqn:E; [| discriminate].
  apply String.eqb_eq in E. now subst.
Qed.

Lemma insert_non_admin (d : Db.t) (uid : option Db.uuid)
    (user_id : Db.uuid) (webhook_url : string) (created_by_admin : bool)
    (fresh : Db.uuid) (now : nat) :
  Db.has_role d uid (Some Db.admin) = false ->
  Db.webhook_urls_insert uid user_id webhook_url created_by_admin fresh now d =
  (inl (Db.rls_violation "webhook_urls"), d).
Proof.
  intro H. unfold Db.webhook_urls_insert, Db.webhook_urls_insert_check.
  now rewrite H.
Qed.

Lemma delete_non_admin (d : Db.t) (uid : option Db.uuid) (id : Db.uuid) :
  Db.has_role d uid (Some Db.admin) = false ->
  Db.webhook_urls_delete uid id d = (None, d).
Proof.
  intro H. unfold Db.webhook_urls_delete, Db.webhook_urls_delete_using.
  rewrite H. simpl. rewrite filter_all.
  - now destruct d.
  - intros x _. now rewrite andb_false_r.
Qed.

(** C1. A caller without the admin role never gets the admin webhook page: the
    component renders the redirect to [/dashboard] as soon as the role lookup
    has resolved (a spinner until then, never an error view), and its mount
    effect does not query the store.  The store itself shows such a caller no
    webhook row of another user, rejects every insert of a webhook row and
    deletes no webhook row. *)
Theorem non_admin_has_no_admin_webhooks (d : Db.t) (uid : option Db.uuid) :
  Db.has_role d uid (Some Db.admin) = false ->
  (forall resolved,
      AdminWebhooks.render (AdminWebhooks.useAdmin d uid resolved) =
      if resolved then AdminWebhooks.Navigate "/dashboard" true else AdminWebhooks.Spinner)
  /\ (forall resolved w,
         AdminWebhooks.fetchData (AdminWebhooks.useAdmin d uid resolved) uid w
         = (Returned tt, w))
  /\ (forall rows w,
         Db.data (Db.webhook_urls_select_all uid d) = Some rows ->
         In w rows -> uid = Some (Db.WebhookUrls.user_id w))
  /\ (forall user_id webhook_url created_by_admin fresh now,
         exists e,
           Db.webhook_urls_insert uid user_id webhook_url created_by_admin fresh now d
           = (inl e, d))
  /\ (forall id, snd (Db.webhook_urls_delete uid id d) = d).
Proof.
  intro H. repeat split.
  - intros [|]; unfold AdminWebhooks.render, AdminWebhooks.useAdmin; simpl;
      [now rewrite H | reflexivity].
  - intros resolved w. unfold AdminWebhooks.fetchData, AdminWebhooks.useAdmin. simpl.
    rewrite H, andb_false_r. reflexivity.
  - intros rows w E Hin. unfold Db.webhook_urls_select_all in E. simpl in E.
    injection E as <-. apply In_order_by in Hin. apply filter_In in Hin.
    destruct Hin as [_ Hp]. now apply (select_using_non_admin d).
  - intros. eexists. now apply insert_non_admin.
  - intro id. now rewrite delete_non_admin.
Qed.

Lemma non_admin_has_no_admin_webhooks_witness :
  AdminWebhooks.render
    (AdminWebhooks.useAdmin Example.small_db (Some "alice") true)
  = AdminWebhooks.Navigate "/dashboard" true.
Proof.
  apply (proj1 (non_admin_has_no_admin_webhooks Example.small_db (Some "alice") eq_refl) true).
Defined.

(** Even if the handlers of the admin page ran under a session without the
    admin role, the store would stay as it is. *)
Lemma non_admin_handlers_leave_store (d : Db.t) (uid : option Db.uuid)
    (r : AdminWebhooks.State) (fresh : Db.uuid) (now : nat) (id : string) :
  Db.has_role d uid (Some Db.admin) = false ->
  db (snd (run (AdminWebhooks.handleAddWebhook uid r fresh now) r d)) = d /\
  db (snd (run (AdminWebhooks.handleDeleteWebhook uid id) r d)) = d.
Proof.
  intro H. split.
  - unfold run, AdminWebhooks.handleAddWebhook.
    destruct (negb (Js.truthy (AdminWebhooks.selectedUserId r))
              || negb (Js.truthy (AdminWebhooks.webhookUrl r))); [reflexivity |].
    destruct (find _ _); [reflexivity |].
    unfold bind, finally, try_catch, store_call, AdminWebhooks.setIsSaving, set_state.
    cbn [db]. now rewrite insert_non_admin.
  - unfold run, AdminWebhooks.handleDeleteWebhook, try_catch, bind, store_call.
    cbn [db]. now rewrite delete_non_admin.
Qed.

(** ** Connection prober *)

Section Prober.

Import ClientSupabaseConfig.

Variables (n : network_reply) (url key : string) (w : world State).

(** An empty field: the prober resets the status and does nothing else. *)
Lemma testConnection_empty :
  Js.truthy url = false \/ Js.truthy key = false ->
  testConnection n url key w =
  (Returned false,
   {| state := with_connectionStatus disconnected (state w);
      db := db w; trace := trace w |}).
Proof.
  intro H. unfold testConnection.
  assert (E : negb (Js.truthy url) || negb (Js.truthy key) = true)
    by (destruct H as [-> | ->]; [reflexivity | apply orb_true_r]).
  now rewrite E.
Qed.

(** A malformed URL: the prober records the format error and stops before
    any client is created. *)
Lemma testConnection_bad_url :
  Js.truthy url = true -> Js.truthy key = true ->
  Regex.test urlPattern url = false ->
  testConnection n url key w =
  (Returned false,
   {| state := with_connectionStatus error
                 (with_connectionError (Some url_format_message) (state w));
      db := db w; trace := trace w |}).
Proof.
  intros Hu Hk Ht. unfold testConnection. now rewrite Hu, Hk, Ht.
Qed.

(** C3. Once the probe query is issued (both fields non-empty, URL well
    formed), its reply decides the status: an error, returned or thrown, whose
    message contains [Invalid API key] gives status [error] with the
    invalid-key message; every other error, a missing table included, gives
    [connected]; and no error gives [connected]. *)
Theorem probe_reply_classification :
  Js.truthy url = true -> Js.truthy key = true ->
  Regex.test urlPattern url = true ->
  let res := testConnection n url key w in
  (forall e, n = Resolved (Some e) \/ n = Rejected e ->
             is_invalid_api_key e = true ->
             fst res = Returned false /\
             connectionStatus (state (snd res)) = error /\
             connectionError (state (snd res)) = Some invalid_key_message)
  /\ (forall e, n = Resolved (Some e) \/ n = Rejected e ->
                is_invalid_api_key e = false ->
                fst res = Returned true /\
                connectionStatus (state (snd res)) = connected /\
                connectionError (state (snd res)) = None)
  /\ (n = Resolved None ->
      fst res = Returned true /\
      connectionStatus (state (snd res)) = connected /\
      connectionError (state (snd res)) = None).
Proof.
  intros Hu Hk Ht. unfold testConnection. rewrite Hu, Hk, Ht. simpl.
  repeat split; intros;
    repeat match goal with
           | H : _ \/ _ |- _ => destruct H
           end;
    subst n; unfold try_catch, bind, client_query; simpl;
    try match goal with
        | H : is_invalid_api_key _ = _ |- _ => rewrite H
        end;
    reflexivity.
Qed.

(** When the probe query is issued, exactly one transient client is created
    and one query is sent through it. *)
Lemma testConnection_probe_trace :
  Js.truthy url = true -> Js.truthy key = true ->
  Regex.test urlPattern url = true ->
  trace (snd (testConnection n url key w)) =
  (trace w ++ [CreateClient url key; ClientQuery "_test_connection_"])%list.
Proof.
  intros Hu Hk Ht. unfold testConnection. rewrite Hu, Hk, Ht. simpl.
  unfold try_catch, bind, client_query. simpl.
  destruct n as [[e|]|e]; simpl; try destruct (is_invalid_api_key e); reflexivity.
Qed.

(** C4. The prober is handed the two fields by the debounced effect and by
    [handleSave], and both check first that neither field is empty.  For every
    such pair whose URL does not match the pattern, the prober returns false
    with status [error] and the user-facing URL-format message, which the
    inline alert shows, and it attempts no network call: the trace is as it
    was, so no transient client is created and no probe query is issued, and
    the store is untouched. *)
Theorem url_mismatch_is_format_error :
  Js.truthy url = true -> Js.truthy key = true ->
  Regex.test urlPattern url = false ->
  let res := testConnection n url key w in
  fst res = Returned false
  /\ connectionStatus (state (snd res)) = error
  /\ connectionError (state (snd res)) = Some url_format_message
  /\ connectionAlert (state (snd res)) = Some url_format_message
  /\ trace (snd res) = trace w
  /\ (forall e, In e (trace (snd res)) -> is_network_call e = true -> In e (trace w))
  /\ db (snd res) = db w.
Proof.
  intros Hu Hk Ht. rewrite testConnection_bad_url by assumption.
  cbn [fst snd state db trace].
  split; [reflexivity |]. split; [reflexivity |]. split; [reflexivity |].
  split; [reflexivity |]. split; [reflexivity |].
  split; [intros e He _; exact He | reflexivity].
Qed.

End Prober.

Lemma probe_reply_classification_witness :
  ClientSupabaseConfig.connectionStatus
    (state (snd (run (ClientSupabaseConfig.testConnection
                        (Resolved (Some {| Js.message := "relation does not exist" |}))
                        "https://abc123.supabase.co" "validlookingkey")
                   ClientSupabaseConfig.initial Example.empty_db)))
  = ClientSupabaseConfig.connected.
Proof.
  refine (proj1 (proj2 (proj1 (proj2
    (probe_reply_classification _ "https://abc123.supabase.co" "validlookingkey" _
       eq_refl eq_refl eq_refl)) _ (or_introl eq_refl) _))).
  reflexivity.
Defined.

Lemma url_mismatch_is_format_error_witness :
  let res := run (ClientSupabaseConfig.testConnection (Resolved None)
                    "http://abc123.supabase.co" "validlookingkey")
               ClientSupabaseConfig.initial Example.empty_db in
  fst res = Returned false /\
  ClientSupabaseConfig.connectionStatus (state (snd res)) = ClientSupabaseConfig.error /\
  ClientSupabaseConfig.connectionError (state (snd res))
  = Some ClientSupabaseConfig.url_format_message /\
  trace (snd res) = [].
Proof.
  pose proof (url_mismatch_is_format_error (Resolved None)
                "http://abc123.supabase.co" "validlookingkey"
                {| state := ClientSupabaseConfig.initial; db := Example.empty_db; trace := [] |}
                eq_refl eq_refl eq_refl) as (Hret & Hstatus & Herror & _ & Htrace & _).
  split; [exact Hret |]. split; [exact Hstatus |]. split; [exact Herror | exact Htrace].
Defined.

(** The two callers of the prober skip it when a field is empty: the
    debounced effect resets the status itself, and [handleSave] stops at its
    required-fields toast. *)
Lemma prober_callers_need_both_fields (r : ClientSupabaseConfig.State) :
  Js.truthy (ClientSupabaseConfig.url (ClientSupabaseConfig.credentials r)) = false \/
  Js.truthy (ClientSupabaseConfig.key (ClientSupabaseConfig.credentials r)) = false ->
  (forall n, ClientSupabaseConfig.autoTest r n =
             (ClientSupabaseConfig.setConnectionStatus ClientSupabaseConfig.disconnected ;;
              ClientSupabaseConfig.setConnectionError None)%handler)
  /\ (forall u n, ClientSupabaseConfig.handleSave (Some u) r n =
                  toast "Campos obrigatórios" "Preencha a URL e a chave do Supabase." true).
Proof.
  intro H. unfold ClientSupabaseConfig.autoTest, ClientSupabaseConfig.handleSave.
  destruct H as [-> | ->]; rewrite ?andb_false_r, ?orb_true_r; cbn [andb negb orb];
    split; reflexivity.
Qed.

(** ** External-database pointer: save and disconnect *)

(** The prober catches whatever the probe throws: it always returns. *)
Lemma testConnection_returns (n : network_reply) (url key : string)
    (w : world ClientSupabaseConfig.State) :
  exists b, fst (ClientSupabaseConfig.testConnection n url key w) = Returned b.
Proof.
  unfold ClientSupabaseConfig.testConnection.
  destruct (negb (Js.truthy url) || negb (Js.truthy key)); [now eexists |].
  unfold try_catch, bind, client_query.
  destruct (Regex.test ClientSupabaseConfig.urlPattern url); simpl; [| now eexists].
  destruct n as [[e|]|e]; simpl;
    try destruct (ClientSupabaseConfig.is_invalid_api_key e); now eexists.
Qed.

Ltac save_cases user r n :=
  unfold run, ClientSupabaseConfig.handleSave, ClientSupabaseConfig.testConnection;
  destruct user as [signed_in|];
  [ destruct (Js.truthy (ClientSupabaseConfig.url (ClientSupabaseConfig.credentials r))) eqn:Hu;
    destruct (Js.truthy (ClientSupabaseConfig.key (ClientSupabaseConfig.credentials r))) eqn:Hk;
    destruct (Regex.test ClientSupabaseConfig.urlPattern
                (ClientSupabaseConfig.url (ClientSupabaseConfig.credentials r))) eqn:Ht;
    destruct (ClientSupabaseConfig.probe n) as [[reply_err|]|reply_err];
    try destruct (ClientSupabaseConfig.is_invalid_api_key reply_err) eqn:Hi
  | ];
  unfold finally, try_catch, bind, client_query, toast, emit,
    ClientSupabaseConfig.setIsSaving, ClientSupabaseConfig.setConnectionStatus,
    ClientSupabaseConfig.setConnectionError, set_state, ret;
  cbn [negb orb state db trace fst snd app];
  try match goal with
      | Hi : ClientSupabaseConfig.is_invalid_api_key _ = _ |- _ => rewrite Hi
      end;
  cbn [negb orb state db trace fst snd app].

Section SavePointer.

Import ClientSupabaseConfig.

Variables (user : option Auth.User) (r : State) (n : Network) (d : Db.t).

Let res := run (handleSave user r n) r d.
Let pr := run (testConnection (probe n) (url (credentials r)) (key (credentials r))) r d.

(** The save of a pointer [(url, key)] is gated by the prober: it reaches the
    primary store only when the prober, run on that pair, returns true with
    status [connected].  When the prober fails, no store call is issued and the
    store is unchanged; and when it fails inside the save of a signed-in user
    with both fields filled in, the message the prober recorded is what the
    component holds and shows in its inline alert. *)
Lemma save_pointer_gated_by_probe :
  (forall q, In (StoreCall q) (trace (snd res)) ->
             fst pr = Returned true /\
             connectionStatus (state (snd pr)) = connected)
  /\ (fst pr = Returned false ->
      (forall e, In e (trace (snd res)) -> is_store_call e = false) /\
      db (snd res) = d)
  /\ (user <> None ->
      Js.truthy (url (credentials r)) = true ->
      Js.truthy (key (credentials r)) = true ->
      fst pr = Returned false ->
      exists msg,
        connectionError (state (snd pr)) = Some msg /\
        connectionError (state (snd res)) = Some msg /\
        connectionAlert (state (snd res)) = Some msg).
Proof.
  subst res pr. repeat split.
  - revert H. save_cases user r n; simpl; intro H;
      repeat match goal with
             | H : _ \/ _ |- _ => destruct H
             | H : False |- _ => destruct H
             end;
      try discriminate; reflexivity.
  - revert H. save_cases user r n; simpl; intro H;
      repeat match goal with
             | H : _ \/ _ |- _ => destruct H
             | H : False |- _ => destruct H
             end;
      try discriminate; reflexivity.
  - intros e He. revert H He. save_cases user r n; simpl; intros H He;
      try discriminate;
      repeat match goal with
             | H : _ \/ _ |- _ => destruct H
             | H : False |- _ => destruct H
             end;
      subst; reflexivity.
  - revert H. save_cases user r n; simpl; intro H; try discriminate; reflexivity.
  - intros Hn Hu' Hk' H. revert H.
    save_cases user r n; try congruence; simpl; intro H; try discriminate;
      eexists; repeat split; reflexivity.
Qed.

End SavePointer.

(** What the failure toast of [handleSave] says: its description is the
    [connectionError] the render had captured, or the generic text when that
    was empty; the message the prober has just recorded reaches the user
    through the inline alert. *)
Lemma save_pointer_failure_toast (u : Auth.User) (r : ClientSupabaseConfig.State)
    (n : ClientSupabaseConfig.Network) (d : Db.t) :
  Js.truthy (ClientSupabaseConfig.url (ClientSupabaseConfig.credentials r)) = true ->
  Js.truthy (ClientSupabaseConfig.key (ClientSupabaseConfig.credentials r)) = true ->
  fst (run (ClientSupabaseConfig.testConnection (ClientSupabaseConfig.probe n)
              (ClientSupabaseConfig.url (ClientSupabaseConfig.credentials r))
              (ClientSupabaseConfig.key (ClientSupabaseConfig.credentials r))) r d)
  = Returned false ->
  exists probe_trace,
    (forall e, In e probe_trace -> is_network_call e = true) /\
    trace (snd (run (ClientSupabaseConfig.handleSave (Some u) r n) r d)) =
    (probe_trace ++
     [Toast "Falha na conexão"
        (Js.or_else (ClientSupabaseConfig.connectionError r)
           "Não foi possível conectar ao Supabase.") true])%list.
Proof.
  intros Hu' Hk'. pose (user := Some u).
  change (Some u) with user. assert (Huser : user <> None) by discriminate.
  clearbody user. revert Huser.
  save_cases user r n; try congruence; simpl; intros _ H; try discriminate;
    first
      [ exists []; split; [intros e [] | reflexivity]
      | eexists [CreateClient _ _; ClientQuery _]; split;
        [intros e [<- | [<- | []]]; reflexivity | reflexivity] ].
Qed.

Lemma save_pointer_gated_by_probe_witness :
  exists msg,
    ClientSupabaseConfig.connectionError
      (state (snd (run (ClientSupabaseConfig.testConnection
                          (ClientSupabaseConfig.probe Example.invalid_key)
                          "https://abc123.supabase.co" "validlookingkey")
                     Example.typed_pointer Example.small_db))) = Some msg /\
    ClientSupabaseConfig.connectionError
      (state (snd (run (ClientSupabaseConfig.handleSave (Some Example.alice)
                          Example.typed_pointer Example.invalid_key)
                     Example.typed_pointer Example.small_db))) = Some msg /\
    ClientSupabaseConfig.connectionAlert
      (state (snd (run (ClientSupabaseConfig.handleSave (Some Example.alice)
                          Example.typed_pointer Example.invalid_key)
                     Example.typed_pointer Example.small_db))) = Some msg.
Proof.
  apply (proj2 (proj2 (save_pointer_gated_by_probe (Some Example.alice)
                         Example.typed_pointer Example.invalid_key Example.small_db)));
    [discriminate | reflexivity | reflexivity | reflexivity].
Defined.

(** C6, at the input where it fails.  [alice] saves a well-formed pointer whose
    key the external store rejects.  The save is blocked as the claim says: no
    store call, the store unchanged.  But the failure toast does not carry the
    prober's message: [handleSave] reads [connectionError] from the render
    that created it, not the value the prober has just set.  With no message
    at that render the toast shows the generic text; with the message of an
    earlier malformed URL still in place it shows that one, although the URL is
    well formed now.  In both cases the prober's message is
    [invalid_key_message]. *)
Lemma save_pointer_toast_misses_probe_message :
  let url := "https://abc123.supabase.co" in
  let key := "validlookingkey" in
  let failed r :=
    run (ClientSupabaseConfig.testConnection
           (ClientSupabaseConfig.probe Example.invalid_key) url key) r Example.small_db in
  let saved r :=
    run (ClientSupabaseConfig.handleSave (Some Example.alice) r Example.invalid_key)
      r Example.small_db in
  (fst (failed Example.typed_pointer) = Returned false
   /\ ClientSupabaseConfig.connectionError (state (snd (failed Example.typed_pointer)))
      = Some ClientSupabaseConfig.invalid_key_message
   /\ trace (snd (saved Example.typed_pointer)) =
      [CreateClient url key; ClientQuery "_test_connection_";
       Toast "Falha na conexão" "Não foi possível conectar ao Supabase." true]
   /\ db (snd (saved Example.typed_pointer)) = Example.small_db)
  /\ (fst (failed Example.corrected_url) = Returned false
      /\ ClientSupabaseConfig.connectionError (state (snd (failed Example.corrected_url)))
         = Some ClientSupabaseConfig.invalid_key_message
      /\ trace (snd (saved Example.corrected_url)) =
         [CreateClient url key; ClientQuery "_test_connection_";
          Toast "Falha na conexão" ClientSupabaseConfig.url_format_message true]
      /\ db (snd (saved Example.corrected_url)) = Example.small_db)
  /\ ClientSupabaseConfig.invalid_key_message <> "Não foi possível conectar ao Supabase."
  /\ ClientSupabaseConfig.invalid_key_message <> ClientSupabaseConfig.url_format_message.
Proof.
  cbv zeta. split; [repeat split | split; [repeat split | split; discriminate]].
Qed.

(** The profile update touches no other table and keeps every profile row in
    place; it rewrites the two pointer columns of the caller's own row. *)
Lemma profiles_update_own (u : Db.uuid) (url key : option string) (d : Db.t) :
  let d' := snd (Db.profiles_update (Some u) url key u d) in
  fst (Db.profiles_update (Some u) url key u d) = None
  /\ (forall p, In p (Db.profiles d') -> Db.Profiles.id p = u ->
                Db.Profiles.client_supabase_url p = url /\
                Db.Profiles.client_supabase_key p = key)
  /\ (forall p, In p (Db.profiles d) -> Db.Profiles.id p <> u -> In p (Db.profiles d'))
  /\ map Db.Profiles.id (Db.profiles d') = map Db.Profiles.id (Db.profiles d)
  /\ Db.meta_credentials d' = Db.meta_credentials d
  /\ Db.webhook_urls d' = Db.webhook_urls d
  /\ Db.user_roles d' = Db.user_roles d.
Proof.
  simpl.
  assert (Hown : forall p, In p (Db.profiles (snd (Db.profiles_update (Some u) url key u d))) ->
                           Db.Profiles.id p = u ->
                           Db.Profiles.client_supabase_url p = url /\
                           Db.Profiles.client_supabase_key p = key).
  { simpl. intros p Hin Hid. apply in_map_iff in Hin. destruct Hin as (p0 & E & _).
    destruct (String.eqb (Db.Profiles.id p0) u) eqn:Ep; simpl in E.
    - unfold Db.owner_using in E. simpl in E.
      apply String.eqb_eq in Ep. rewrite Ep, String.eqb_refl in E. simpl in E.
      now subst p.
    - subst p0. rewrite Hid, String.eqb_refl in Ep. discriminate. }
  split; [reflexivity |]. split; [exact Hown |].
  split; [| split; [| repeat split]].
  - intros p Hin Hid. apply in_map_iff. exists p. split; [| assumption].
    destruct (String.eqb (Db.Profiles.id p) u) eqn:Ep; [| reflexivity].
    apply String.eqb_eq in Ep. contradiction.
  - rewrite map_map. apply map_ext. intro p.
    now destruct (String.eqb (Db.Profiles.id p) u && Db.owner_using (Some u) (Db.Profiles.id p)).
Qed.

(** C8. A disconnect by a signed-in user issues one store call, the update of
    that user's profile: afterwards both pointer columns of the profile are
    NULL, every profile row is still there, other users' profiles are as they
    were, and the [meta_credentials] and [webhook_urls] tables are untouched. *)
Theorem disconnect_clears_pointer_only (u : Auth.User)
    (r : ClientSupabaseConfig.State) (d : Db.t) :
  let w' := snd (run (ClientSupabaseConfig.handleDisconnect (Some u) r) r d) in
  (forall p, In p (Db.profiles (db w')) -> Db.Profiles.id p = Auth.id u ->
             Db.Profiles.client_supabase_url p = None /\
             Db.Profiles.client_supabase_key p = None)
  /\ map Db.Profiles.id (Db.profiles (db w')) = map Db.Profiles.id (Db.profiles d)
  /\ (forall p, In p (Db.profiles d) -> Db.Profiles.id p <> Auth.id u ->
                In p (Db.profiles (db w')))
  /\ Db.meta_credentials (db w') = Db.meta_credentials d
  /\ Db.webhook_urls (db w') = Db.webhook_urls d
  /\ filter is_store_call (trace w') = [StoreCall (ProfilesUpdate None None (Auth.id u))].
Proof.
  pose proof (profiles_update_own (Auth.id u) None None d) as (_ & H1 & H2 & H3 & H4 & H5 & _).
  simpl. split; [exact H1 |]. split; [exact H3 |]. split; [exact H2 |].
  split; [exact H4 |]. split; [exact H5 | reflexivity].
Qed.

(** ** No signed-in user *)

(** C10. Without a signed-in user the save and the disconnect of the pointer
    form and the save of the Meta credential form return at once: the state of
    the component, the store and the trace of effects are exactly as before. *)
Theorem handlers_return_without_user :
  (forall r n w, ClientSupabaseConfig.handleSave None r n w = (Returned tt, w))
  /\ (forall r w, ClientSupabaseConfig.handleDisconnect None r w = (Returned tt, w))
  /\ (forall r w, Configuracao.handleSave None r w = (Returned tt, w)).
Proof.
  repeat split.
Qed.

(** ** Meta credentials: required fields *)

(** C7. The credential page is mounted for a signed-in user only, and its
    save runs for that user.  For every such save where the Pixel ID or the
    access token is the empty string, the save is rejected with the
    required-fields message: that toast is its one effect, no store call is
    made, and the store, with the stored credential row in it, and the form
    are exactly as before. *)
Theorem signed_in_empty_credential_save_rejected (u : Auth.User)
    (r : Configuracao.State) (d : Db.t) :
  Js.truthy (Configuracao.pixel_id (Configuracao.credentials r)) = false \/
  Js.truthy (Configuracao.access_token (Configuracao.credentials r)) = false ->
  let res := run (Configuracao.handleSave (Some u) r) r d in
  fst res = Returned tt
  /\ trace (snd res) =
     [Toast "Campos obrigatórios" "Pixel ID e Access Token são obrigatórios." true]
  /\ (forall e, In e (trace (snd res)) -> is_store_call e = false)
  /\ db (snd res) = d
  /\ Db.meta_credentials_select (Some (Auth.id u)) (Auth.id u) (db (snd res))
     = Db.meta_credentials_select (Some (Auth.id u)) (Auth.id u) d
  /\ state (snd res) = r.
Proof.
  intro H. unfold run, Configuracao.handleSave.
  assert (E : negb (Js.truthy (Configuracao.pixel_id (Configuracao.credentials r)))
              || negb (Js.truthy (Configuracao.access_token (Configuracao.credentials r)))
              = true)
    by (destruct H as [-> | ->]; [reflexivity | apply orb_true_r]).
  rewrite E. cbn [toast emit fst snd state db trace app].
  split; [reflexivity |]. split; [reflexivity |].
  split; [intros e [<- | []]; reflexivity |].
  split; [reflexivity |]. split; reflexivity.
Qed.

Lemma signed_in_empty_credential_save_rejected_witness :
  let res := run (Configuracao.handleSave (Some Example.alice) Example.no_pixel)
               Example.no_pixel Example.small_db in
  db (snd res) = Example.small_db /\
  trace (snd res) =
  [Toast "Campos obrigatórios" "Pixel ID e Access Token são obrigatórios." true].
Proof.
  pose proof (signed_in_empty_credential_save_rejected Example.alice Example.no_pixel
                Example.small_db (or_introl eq_refl)) as (_ & Htoast & _ & Hdb & _).
  split; [exact Hdb | exact Htoast].
Defined.

(** ** Meta credentials: upsert *)

Section Upsert.

Variable i : Db.uuid.

Lemma owned_visible (m : Db.MetaCredentials.row) :
  String.eqb (Db.MetaCredentials.user_id m) i
  && Db.owner_using (Some i) (Db.MetaCredentials.user_id m) = Db.owned_by i m.
Proof.
  unfold Db.owned_by, Db.owner_using. simpl.
  rewrite (String.eqb_sym i). now destruct (String.eqb _ i).
Qed.

(** Under the uniqueness constraint a user has at most one row. *)
Lemma unique_owned_rows (l : list Db.MetaCredentials.row) :
  NoDup (map Db.MetaCredentials.user_id l) ->
  filter (Db.owned_by i) l = [] \/ exists m, filter (Db.owned_by i) l = [m].
Proof.
  induction l as [|m l IH]; simpl; intro H; [now left |].
  inversion H as [|? ? Hnotin Hnd]; subst.
  destruct (Db.owned_by i m) eqn:E.
  - right. exists m. f_equal.
    apply String.eqb_eq in E.
    assert (Hnone : forall x, In x l -> Db.owned_by i x = false).
    { intros x Hx. unfold Db.owned_by. destruct (String.eqb _ i) eqn:Ex; [| reflexivity].
      apply String.eqb_eq in Ex. exfalso. apply Hnotin.
      rewrite E, <- Ex. now apply in_map. }
    clear -Hnone. induction l as [|x l IH]; simpl; [reflexivity |].
    rewrite (Hnone x (or_introl eq_refl)). apply IH. intros y Hy. apply Hnone. now right.
  - now apply IH.
Qed.

Lemma existsb_owned (l : list Db.MetaCredentials.row) :
  existsb (Db.owned_by i) l =
  match filter (Db.owned_by i) l with [] => false | _ :: _ => true end.
Proof.
  induction l as [|m l IH]; simpl; [reflexivity |].
  destruct (Db.owned_by i m); simpl; [reflexivity | exact IH].
Qed.

Lemma no_owned_row_not_in (l : list Db.MetaCredentials.row) :
  filter (Db.owned_by i) l = [] -> ~ In i (map Db.MetaCredentials.user_id l).
Proof.
  induction l as [|m l IH]; simpl; intros H Hin; [exact Hin |].
  destruct (Db.owned_by i m) eqn:E; [discriminate |].
  destruct Hin as [Hin | Hin]; [| now apply IH].
  unfold Db.owned_by in E. rewrite Hin, String.eqb_refl in E. discriminate.
Qed.

(** Appending a row for a user who had none keeps the constraint. *)
Lemma unique_after_insert (l : list Db.MetaCredentials.row) (m : Db.MetaCredentials.row) :
  Db.MetaCredentials.user_id m = i ->
  filter (Db.owned_by i) l = [] ->
  NoDup (map Db.MetaCredentials.user_id l) ->
  NoDup (map Db.MetaCredentials.user_id (l ++ [m])).
Proof.
  intros Hm Hnone. apply no_owned_row_not_in in Hnone. revert Hnone.
  induction l as [|x l IH]; simpl; intros Hnotin Hnd.
  - rewrite Hm. constructor; [intros [] | constructor].
  - inversion Hnd as [|? ? Hx Hl]; subst. constructor.
    + rewrite map_app, in_app_iff. simpl. intros [H | [H | []]]; [now apply Hx |].
      apply Hnotin. left. congruence.
    + apply IH; [| assumption]. intro H. apply Hnotin. now right.
Qed.

Variables (pixel_id : string) (page_id : option string) (access_token : string).

Lemma meta_credentials_set_spec (m : Db.MetaCredentials.row) :
  Db.meta_credentials_set (Some i) pixel_id page_id access_token i m =
  if Db.owned_by i m then (Db.MetaCredentials.Build_row i pixel_id page_id access_token) else m.
Proof.
  unfold Db.meta_credentials_set. rewrite owned_visible. unfold Db.owned_by.
  destruct (String.eqb _ i) eqn:E; [| reflexivity].
  apply String.eqb_eq in E. now rewrite E.
Qed.

Lemma owned_saved_row : Db.owned_by i (Db.MetaCredentials.Build_row i pixel_id page_id access_token) = true.
Proof.
  unfold Db.owned_by. simpl. apply String.eqb_refl.
Qed.

(** An update rewrites the user's rows in place. *)
Lemma filter_owned_set (l : list Db.MetaCredentials.row) :
  filter (Db.owned_by i)
    (map (Db.meta_credentials_set (Some i) pixel_id page_id access_token i) l) =
  map (fun _ => (Db.MetaCredentials.Build_row i pixel_id page_id access_token)) (filter (Db.owned_by i) l).
Proof.
  induction l as [|m l IH]; simpl; [reflexivity |].
  rewrite meta_credentials_set_spec. destruct (Db.owned_by i m) eqn:E.
  - rewrite owned_saved_row. simpl. now rewrite IH.
  - rewrite E. exact IH.
Qed.

Lemma map_user_id_set (l : list Db.MetaCredentials.row) :
  map Db.MetaCredentials.user_id
    (map (Db.meta_credentials_set (Some i) pixel_id page_id access_token i) l) =
  map Db.MetaCredentials.user_id l.
Proof.
  rewrite map_map. apply map_ext. intro m. unfold Db.meta_credentials_set.
  now destruct (String.eqb _ i && _).
Qed.

(** Updating again with the same values changes nothing. *)
Lemma meta_credentials_set_idem (l : list Db.MetaCredentials.row) :
  map (Db.meta_credentials_set (Some i) pixel_id page_id access_token i)
    (map (Db.meta_credentials_set (Some i) pixel_id page_id access_token i) l) =
  map (Db.meta_credentials_set (Some i) pixel_id page_id access_token i) l.
Proof.
  rewrite map_map. apply map_ext. intro m. rewrite !meta_credentials_set_spec.
  destruct (Db.owned_by i m) eqn:E; [now rewrite owned_saved_row | now rewrite E].
Qed.

Lemma meta_credentials_set_foreign (l : list Db.MetaCredentials.row) :
  filter (Db.owned_by i) l = [] ->
  map (Db.meta_credentials_set (Some i) pixel_id page_id access_token i) l = l.
Proof.
  induction l as [|m l IH]; simpl; [reflexivity |].
  rewrite meta_credentials_set_spec. destruct (Db.owned_by i m) eqn:E; [discriminate |].
  intro H. now rewrite IH.
Qed.

End Upsert.


Section SaveCredentials.

Import Configuracao.

Variable u : Auth.User.

Lemma select_own_rows (d : Db.t) :
  Db.meta_credentials_select (Some (Auth.id u)) (Auth.id u) d =
  Db.maybeSingle (filter (Db.owned_by (Auth.id u)) (Db.meta_credentials d)).
Proof.
  unfold Db.meta_credentials_select. f_equal. apply filter_ext.
  intro m. apply owned_visible.
Qed.

Lemma insert_first_row (c : MetaCredentials) (d : Db.t) :
  filter (Db.owned_by (Auth.id u)) (Db.meta_credentials d) = [] ->
  Db.meta_credentials_insert (Some (Auth.id u)) (row_of u c) d =
  (None,
   {| Db.user_roles := Db.user_roles d;
      Db.profiles := Db.profiles d;
      Db.meta_credentials := Db.meta_credentials d ++ [row_of u c];
      Db.webhook_urls := Db.webhook_urls d |}).
Proof.
  intro H. unfold Db.meta_credentials_insert.
  replace (Db.owner_using (Some (Auth.id u)) (Db.MetaCredentials.user_id (row_of u c)))
    with true by (unfold Db.owner_using; simpl; now rewrite String.eqb_refl).
  simpl negb. cbv iota. unfold Db.violates_user_id_unique.
  change (Db.MetaCredentials.user_id (row_of u c)) with (Auth.id u).
  now rewrite existsb_owned, H.
Qed.

(** The mount effect when nothing is stored for the user: the form stays as
    it is. *)
Lemma fetchCredentials_none (w : world State) :
  filter (Db.owned_by (Auth.id u)) (Db.meta_credentials (db w)) = [] ->
  fetchCredentials (Some u) w =
  (Returned tt,
   {| state := state w; db := db w;
      trace := trace w ++ [StoreCall (MetaCredentialsSelect (Auth.id u))] |}).
Proof.
  intro E. unfold fetchCredentials, bind, store_read, store_call. simpl.
  now rewrite select_own_rows, E.
Qed.

(** The mount effect when one row is stored for the user: the form is filled
    from it and remembers that it exists. *)
Lemma fetchCredentials_one (w : world State) (m : Db.MetaCredentials.row) :
  filter (Db.owned_by (Auth.id u)) (Db.meta_credentials (db w)) = [m] ->
  fetchCredentials (Some u) w =
  (Returned tt,
   {| state :=
        with_hasExistingCredentials true
          (with_credentials
             {| pixel_id := Db.MetaCredentials.pixel_id m;
                page_id := Js.or_else (Db.MetaCredentials.page_id m) EmptyString;
                access_token := Db.MetaCredentials.access_token m |}
             (state w));
      db := db w;
      trace := trace w ++ [StoreCall (MetaCredentialsSelect (Auth.id u))] |}).
Proof.
  intro E. unfold fetchCredentials, bind, store_read, store_call. simpl.
  now rewrite select_own_rows, E.
Qed.

(** The first save of valid credentials from a form that knows of no stored
    row, when there is none: one insert. *)
Lemma handleSave_inserts (r : State) (w : world State) :
  Js.truthy (pixel_id (credentials r)) = true ->
  Js.truthy (access_token (credentials r)) = true ->
  hasExistingCredentials r = false ->
  filter (Db.owned_by (Auth.id u)) (Db.meta_credentials (db w)) = [] ->
  handleSave (Some u) r w =
  (Returned tt,
   {| state := with_isSaving false
                 (with_hasExistingCredentials true (with_isSaving true (state w)));
      db := {| Db.user_roles := Db.user_roles (db w);
               Db.profiles := Db.profiles (db w);
               Db.meta_credentials := Db.meta_credentials (db w) ++ [row_of u (credentials r)];
               Db.webhook_urls := Db.webhook_urls (db w) |};
      trace := trace w ++
               [StoreCall (MetaCredentialsInsert (row_of u (credentials r)));
                Toast "Salvo com sucesso!" "Suas credenciais foram atualizadas." false] |}).
Proof.
  intros Hp Ht He Hnone. unfold handleSave. rewrite Hp, Ht, He. simpl.
  unfold finally, try_catch, bind, store_call, setIsSaving, set_state. cbn [db state trace].
  rewrite (insert_first_row _ _ Hnone). cbn. now rewrite <- app_assoc.
Qed.

(** A save of valid credentials from a form that knows of a stored row: one
    update. *)
Lemma handleSave_updates (r : State) (w : world State) :
  Js.truthy (pixel_id (credentials r)) = true ->
  Js.truthy (access_token (credentials r)) = true ->
  hasExistingCredentials r = true ->
  handleSave (Some u) r w =
  (Returned tt,
   {| state := with_isSaving false (with_isSaving true (state w));
      db := snd (Db.meta_credentials_update (Some (Auth.id u))
                   (pixel_id (credentials r)) (Js.or_null (page_id (credentials r)))
                   (access_token (credentials r)) (Auth.id u) (db w));
      trace := trace w ++
               [StoreCall (MetaCredentialsUpdate (pixel_id (credentials r))
                             (Js.or_null (page_id (credentials r)))
                             (access_token (credentials r)) (Auth.id u));
                Toast "Salvo com sucesso!" "Suas credenciais foram atualizadas." false] |}).
Proof.
  intros Hp Ht He. unfold handleSave. rewrite Hp, Ht, He. cbn.
  now rewrite <- app_assoc.
Qed.

Variables (c : MetaCredentials) (d : Db.t).

Hypothesis unique : NoDup (map Db.MetaCredentials.user_id (Db.meta_credentials d)).
Hypothesis pixel_given : Js.truthy (pixel_id c) = true.
Hypothesis token_given : Js.truthy (access_token c) = true.

(** A visit of the page.  With the store's one-row-per-user constraint in
    force, a signed-in user who opens the page, enters valid credentials once
    the lookup of the mount effect has answered, and saves twice ends up with
    exactly one [meta_credentials] row, holding the values just saved.  The
    second save is an update in place: it leaves the store as the first save
    left it, and the constraint still holds. *)
Lemma save_twice_keeps_one_row :
  let once := snd (run (visit (Some u) c 1) initial d) in
  let twice := snd (run (visit (Some u) c 2) initial d) in
  filter (Db.owned_by (Auth.id u)) (Db.meta_credentials (db twice)) = [row_of u c]
  /\ db twice = db once
  /\ (exists first,
         filter is_store_call (trace twice) =
         [StoreCall (MetaCredentialsSelect (Auth.id u));
          StoreCall first;
          StoreCall (MetaCredentialsUpdate (pixel_id c) (Js.or_null (page_id c))
                       (access_token c) (Auth.id u))])
  /\ NoDup (map Db.MetaCredentials.user_id (Db.meta_credentials (db twice))).
Proof.
  unfold run, visit, press_save.
  destruct (unique_owned_rows (Auth.id u) _ unique) as [E | [m E]].
  - cbv beta iota delta [bind latest setCredentials set_state ret].
    rewrite fetchCredentials_none by exact E.
    cbv beta iota delta [state db trace].
    rewrite handleSave_inserts
      by first [exact pixel_given | exact token_given | reflexivity | exact E].
    cbv beta iota delta [state db trace].
    rewrite handleSave_updates
      by first [exact pixel_given | exact token_given | reflexivity].
    cbv beta iota delta [state db trace fst snd].
    cbn [credentials with_isSaving with_hasExistingCredentials with_credentials].
    unfold Db.meta_credentials_update.
    cbn [Db.meta_credentials Db.user_roles Db.profiles Db.webhook_urls].
    assert (Hsame :
              map (Db.meta_credentials_set (Some (Auth.id u)) (pixel_id c)
                     (Js.or_null (page_id c)) (access_token c) (Auth.id u))
                  (Db.meta_credentials d ++ [row_of u c])
              = (Db.meta_credentials d ++ [row_of u c])%list).
    { rewrite map_app, meta_credentials_set_foreign by exact E. simpl.
      rewrite meta_credentials_set_spec.
      unfold row_of at 1. now rewrite owned_saved_row. }
    rewrite Hsame. split; [| split; [| split]].
    + rewrite filter_app, E. simpl. unfold row_of at 1. now rewrite owned_saved_row.
    + reflexivity.
    + eexists. reflexivity.
    + now apply (unique_after_insert (Auth.id u)).
  - cbv beta iota delta [bind latest setCredentials set_state ret].
    rewrite (fetchCredentials_one _ m) by exact E.
    cbv beta iota delta [state db trace].
    rewrite handleSave_updates
      by first [exact pixel_given | exact token_given | reflexivity].
    cbv beta iota delta [state db trace].
    rewrite handleSave_updates
      by first [exact pixel_given | exact token_given | reflexivity].
    cbv beta iota delta [state db trace fst snd].
    cbn [credentials with_isSaving with_hasExistingCredentials with_credentials].
    unfold Db.meta_credentials_update.
    cbn [Db.meta_credentials Db.user_roles Db.profiles Db.webhook_urls].
    rewrite meta_credentials_set_idem. split; [| split; [| split]].
    + rewrite filter_owned_set, E. reflexivity.
    + reflexivity.
    + eexists. reflexivity.
    + now rewrite map_user_id_set.
Qed.

End SaveCredentials.

Lemma save_twice_keeps_one_row_witness :
  filter (Db.owned_by "alice")
    (Db.meta_credentials
       (db (snd (run (Configuracao.visit (Some Example.alice) Example.new_credentials 2)
                   Configuracao.initial Example.empty_db))))
  = [Configuracao.row_of Example.alice Example.new_credentials].
Proof.
  apply (save_twice_keeps_one_row Example.alice Example.new_credentials Example.empty_db);
    [constructor | reflexivity | reflexivity].
Defined.

(** C9, as the code has it.  Take a signed-in user, a store that keeps at most
    one [meta_credentials] row per user, and a form with valid credentials
    that is in step with the store: its [hasExistingCredentials] flag is set
    exactly when the store holds a row of the user.  Saving twice leaves
    exactly one row for the user, holding the saved values.  The second save
    is an update in place: it leaves the store as the first save left it, and
    the constraint still holds. *)
Theorem save_twice_in_step_keeps_one_row (u : Auth.User) (r : Configuracao.State)
    (d : Db.t) :
  NoDup (map Db.MetaCredentials.user_id (Db.meta_credentials d)) ->
  Js.truthy (Configuracao.pixel_id (Configuracao.credentials r)) = true ->
  Js.truthy (Configuracao.access_token (Configuracao.credentials r)) = true ->
  (Configuracao.hasExistingCredentials r = true <->
   filter (Db.owned_by (Auth.id u)) (Db.meta_credentials d) <> []) ->
  let once := snd (run (Configuracao.press_save (Some u) 1) r d) in
  let twice := snd (run (Configuracao.press_save (Some u) 2) r d) in
  filter (Db.owned_by (Auth.id u)) (Db.meta_credentials (db twice))
  = [Configuracao.row_of u (Configuracao.credentials r)]
  /\ db twice = db once
  /\ (exists first,
         filter is_store_call (trace twice) =
         [StoreCall first;
          StoreCall (MetaCredentialsUpdate
                       (Configuracao.pixel_id (Configuracao.credentials r))
                       (Js.or_null (Configuracao.page_id (Configuracao.credentials r)))
                       (Configuracao.access_token (Configuracao.credentials r))
                       (Auth.id u))])
  /\ Configuracao.credentials (state twice) = Configuracao.credentials r
  /\ NoDup (map Db.MetaCredentials.user_id (Db.meta_credentials (db twice))).
Proof.
  intros Hnd Hp Ht Hstep.
  unfold run, Configuracao.press_save.
  cbv beta iota delta [bind latest ret state].
  destruct (unique_owned_rows (Auth.id u) _ Hnd) as [E | [m E]].
  - assert (He : Configuracao.hasExistingCredentials r = false).
    { destruct (Configuracao.hasExistingCredentials r); [| reflexivity].
      now destruct (proj1 Hstep eq_refl). }
    rewrite handleSave_inserts by first [assumption | exact E].
    cbv beta iota delta [state db trace].
    rewrite handleSave_updates by first [assumption | reflexivity].
    cbv beta iota delta [state db trace fst snd].
    cbn [Configuracao.credentials Configuracao.with_isSaving
           Configuracao.with_hasExistingCredentials].
    unfold Db.meta_credentials_update.
    cbn [Db.meta_credentials Db.user_roles Db.profiles Db.webhook_urls].
    assert (Hsame :
              map (Db.meta_credentials_set (Some (Auth.id u))
                     (Configuracao.pixel_id (Configuracao.credentials r))
                     (Js.or_null (Configuracao.page_id (Configuracao.credentials r)))
                     (Configuracao.access_token (Configuracao.credentials r)) (Auth.id u))
                  (Db.meta_credentials d ++ [Configuracao.row_of u (Configuracao.credentials r)])
              = (Db.meta_credentials d
                 ++ [Configuracao.row_of u (Configuracao.credentials r)])%list).
    { rewrite map_app, meta_credentials_set_foreign by exact E. simpl.
      rewrite meta_credentials_set_spec.
      unfold Configuracao.row_of at 1. now rewrite owned_saved_row. }
    rewrite Hsame. split; [| split; [| split; [| split]]].
    + rewrite filter_app, E. simpl. unfold Configuracao.row_of at 1.
      now rewrite owned_saved_row.
    + reflexivity.
    + eexists. reflexivity.
    + reflexivity.
    + now apply (unique_after_insert (Auth.id u)).
  - assert (He : Configuracao.hasExistingCredentials r = true)
      by (apply Hstep; rewrite E; discriminate).
    rewrite handleSave_updates by assumption.
    cbv beta iota delta [state db trace].
    rewrite handleSave_updates by assumption.
    cbv beta iota delta [state db trace fst snd].
    cbn [Configuracao.credentials Configuracao.with_isSaving
           Configuracao.with_hasExistingCredentials].
    unfold Db.meta_credentials_update.
    cbn [Db.meta_credentials Db.user_roles Db.profiles Db.webhook_urls].
    rewrite meta_credentials_set_idem. split; [| split; [| split; [| split]]].
    + rewrite filter_owned_set, E. reflexivity.
    + reflexivity.
    + eexists. reflexivity.
    + reflexivity.
    + now rewrite map_user_id_set.
Qed.

Lemma save_twice_in_step_keeps_one_row_witness :
  let r := Configuracao.with_hasExistingCredentials true Example.filled_before_lookup in
  let twice := snd (run (Configuracao.press_save (Some Example.alice) 2) r Example.small_db) in
  filter (Db.owned_by "alice") (Db.meta_credentials (db twice))
  = [Configuracao.row_of Example.alice Example.new_credentials]
  /\ db twice
     = db (snd (run (Configuracao.press_save (Some Example.alice) 1) r Example.small_db)).
Proof.
  pose proof (save_twice_in_step_keeps_one_row Example.alice
                (Configuracao.with_hasExistingCredentials true Example.filled_before_lookup)
                Example.small_db) as H.
  destruct H as (Hrow & Hsame & _).
  - repeat constructor. intros [].
  - reflexivity.
  - reflexivity.
  - split; [intros _; discriminate | reflexivity].
  - split; [exact Hrow | exact Hsame].
Defined.

(** C9 as stated fails when the form does not know of the stored row.  [alice]
    has a credential row, the form is filled with valid new credentials while
    [hasExistingCredentials] is still false, and she saves twice: each save
    attempts an insert, the store refuses both, and her one row still holds
    the old values, not the saved ones.  The second save is not an update. *)
Lemma save_twice_before_lookup_keeps_old_row :
  let r := Example.filled_before_lookup in
  let twice := snd (run (Configuracao.press_save (Some Example.alice) 2) r Example.small_db) in
  Js.truthy (Configuracao.pixel_id (Configuracao.credentials r)) = true
  /\ Js.truthy (Configuracao.access_token (Configuracao.credentials r)) = true
  /\ NoDup (map Db.MetaCredentials.user_id (Db.meta_credentials Example.small_db))
  /\ filter (Db.owned_by "alice") (Db.meta_credentials (db twice))
     = [ {| Db.MetaCredentials.user_id := "alice";
            Db.MetaCredentials.pixel_id := "1234567890";
            Db.MetaCredentials.page_id := None;
            Db.MetaCredentials.access_token := "EAAB" |} ]
  /\ filter (Db.owned_by "alice") (Db.meta_credentials (db twice))
     <> [Configuracao.row_of Example.alice (Configuracao.credentials r)]
  /\ filter is_store_call (trace twice)
     = [StoreCall (MetaCredentialsInsert
                     (Configuracao.row_of Example.alice Example.new_credentials));
        StoreCall (MetaCredentialsInsert
                     (Configuracao.row_of Example.alice Example.new_credentials))].
Proof.
  cbv zeta. split; [reflexivity |]. split; [reflexivity |].
  split; [repeat constructor; intros [] |].
  split; [reflexivity |]. split; [discriminate | reflexivity].
Qed.

(** ** Admin webhook manager: one webhook per user *)

(** C5, as the code has it.  When a user is selected, a URL is entered and the
    listing the page holds already has a webhook of that user, the create
    operation stops with the already-exists toast: no store call is issued,
    the store and the component state are as before. *)
Theorem add_webhook_rejects_listed_user (uid : option Db.uuid)
    (r : AdminWebhooks.State) (fresh : Db.uuid) (now : nat) (d : Db.t) :
  Js.truthy (AdminWebhooks.selectedUserId r) = true ->
  Js.truthy (AdminWebhooks.webhookUrl r) = true ->
  (exists w, In w (AdminWebhooks.webhooks r) /\
             AdminWebhooks.WebhookUrl.user_id w = AdminWebhooks.selectedUserId r) ->
  run (AdminWebhooks.handleAddWebhook uid r fresh now) r d =
  (Returned tt,
   {| state := r; db := d;
      trace := [Toast "Usuário já possui webhook"
                  "Este usuário já tem um webhook cadastrado. Delete o existente primeiro."
                  true] |}).
Proof.
  intros Hs Hw (w & Hin & Hu). unfold run, AdminWebhooks.handleAddWebhook.
  rewrite Hs, Hw. simpl.
  destruct (find _ (AdminWebhooks.webhooks r)) eqn:E; [reflexivity |].
  apply (find_none _ _ E) in Hin. rewrite Hu, String.eqb_refl in Hin. discriminate.
Qed.

Lemma add_webhook_rejects_listed_user_witness :
  run (AdminWebhooks.handleAddWebhook (Some "root")
         (Example.alice_selected "https://hook.example.com/x") "w2" 4)
    (Example.alice_selected "https://hook.example.com/x") Example.small_db =
  (Returned tt,
   {| state := Example.alice_selected "https://hook.example.com/x";
      db := Example.small_db;
      trace := [Toast "Usuário já possui webhook"
                  "Este usuário já tem um webhook cadastrado. Delete o existente primeiro."
                  true] |}).
Proof.
  apply add_webhook_rejects_listed_user; [reflexivity | reflexivity |].
  exists Example.alice_webhook. split; [now left | reflexivity].
Defined.

(** C5 as stated fails in two ways, both with an admin session and a user who
    already has a webhook row in the store.  With the URL field empty the
    operation is rejected with the required-fields message, not the
    already-exists one.  And when the listing held by the page does not show
    the stored row, the operation is not rejected at all: the insert goes
    through and the user has two rows. *)
Lemma add_webhook_for_user_with_stored_row :
  let rejected :=
    snd (run (AdminWebhooks.handleAddWebhook (Some "root")
                (Example.alice_selected EmptyString) "w2" 4)
           (Example.alice_selected EmptyString) Example.small_db) in
  let accepted :=
    snd (run (AdminWebhooks.handleAddWebhook (Some "root")
                Example.listing_out_of_date "w2" 4)
           Example.listing_out_of_date Example.small_db) in
  Db.has_role Example.small_db (Some "root") (Some Db.admin) = true /\
  map Db.WebhookUrls.id
    (filter (fun w => String.eqb (Db.WebhookUrls.user_id w) "alice")
       (Db.webhook_urls Example.small_db)) = ["w1"] /\
  trace rejected =
  [Toast "Campos obrigatórios" "Selecione um usuário e insira a URL do webhook." true] /\
  trace accepted =
  [StoreCall (WebhookUrlsInsert "alice" "https://hook.example.com/x" true);
   Toast "Webhook adicionado!" "O webhook foi cadastrado com sucesso." false] /\
  map Db.WebhookUrls.id
    (filter (fun w => String.eqb (Db.WebhookUrls.user_id w) "alice")
       (Db.webhook_urls (db accepted))) = ["w1"; "w2"].
Proof.
  repeat split.
Qed.

(** * Further properties of the code *)

(** ** Connection prober: what it leaves behind *)

(** Whatever the fields and whatever the external store answers, the prober
    returns a boolean (it never throws), the status it leaves is settled
    (never [connecting]) and it is [connected] exactly when it returned true.
    It only adds network calls to the trace and changes nothing but the status
    and the error message: the store, the fields and the other flags are as
    before. *)
Theorem testConnection_settles (n : network_reply) (url key : string)
    (w : world ClientSupabaseConfig.State) :
  let res := ClientSupabaseConfig.testConnection n url key w in
  (exists b, fst res = Returned b /\
             (b = true <->
              ClientSupabaseConfig.connectionStatus (state (snd res))
              = ClientSupabaseConfig.connected))
  /\ ClientSupabaseConfig.connectionStatus (state (snd res))
     <> ClientSupabaseConfig.connecting
  /\ db (snd res) = db w
  /\ (exists added, trace (snd res) = (trace w ++ added)%list /\
                    forall e, In e added -> is_network_call e = true)
  /\ ClientSupabaseConfig.credentials (state (snd res))
     = ClientSupabaseConfig.credentials (state w)
  /\ ClientSupabaseConfig.isSaving (state (snd res))
     = ClientSupabaseConfig.isSaving (state w)
  /\ ClientSupabaseConfig.showKey (state (snd res))
     = ClientSupabaseConfig.showKey (state w)
  /\ ClientSupabaseConfig.hasExistingConfig (state (snd res))
     = ClientSupabaseConfig.hasExistingConfig (state w).
Proof.
  unfold ClientSupabaseConfig.testConnection.
  destruct (Js.truthy url); destruct (Js.truthy key);
    destruct (Regex.test ClientSupabaseConfig.urlPattern url);
    destruct n as [[e|]|e];
    try destruct (ClientSupabaseConfig.is_invalid_api_key e) eqn:Hi;
    unfold try_catch, bind, client_query, ClientSupabaseConfig.setConnectionStatus,
      ClientSupabaseConfig.setConnectionError, set_state, ret;
    cbn [negb orb state db trace fst snd];
    try rewrite Hi; cbn [negb orb state db trace fst snd];
    (split; [eexists; split; [reflexivity | split; intro; try discriminate; reflexivity] |]);
    (split; [discriminate |]);
    (split; [reflexivity |]);
    (split; [| repeat split]);
    first [ exists []; split; [now rewrite app_nil_r | intros x []]
          | eexists [CreateClient _ _; ClientQuery _]; split;
            [reflexivity | intros x [<- | [<- | []]]; reflexivity] ].
Qed.

(** After the callback of the debounced effect the status line and the inline
    alert agree, whatever they showed before: the status is [disconnected]
    exactly when a field is empty, it is [error] exactly when an error message
    is set, and it is never left at [connecting].  The callback does not touch
    the store, and with an empty field it makes no network call. *)
Theorem autoTest_status_and_alert_agree (r : ClientSupabaseConfig.State)
    (n : network_reply) (w : world ClientSupabaseConfig.State) :
  let res := ClientSupabaseConfig.autoTest r n w in
  fst res = Returned tt
  /\ (ClientSupabaseConfig.connectionStatus (state (snd res))
      = ClientSupabaseConfig.disconnected <->
      Js.truthy (ClientSupabaseConfig.url (ClientSupabaseConfig.credentials r)) = false \/
      Js.truthy (ClientSupabaseConfig.key (ClientSupabaseConfig.credentials r)) = false)
  /\ (ClientSupabaseConfig.connectionStatus (state (snd res))
      = ClientSupabaseConfig.error <->
      ClientSupabaseConfig.connectionError (state (snd res)) <> None)
  /\ ClientSupabaseConfig.connectionStatus (state (snd res))
     <> ClientSupabaseConfig.connecting
  /\ db (snd res) = db w
  /\ (Js.truthy (ClientSupabaseConfig.url (ClientSupabaseConfig.credentials r)) = false \/
      Js.truthy (ClientSupabaseConfig.key (ClientSupabaseConfig.credentials r)) = false ->
      trace (snd res) = trace w).
Proof.
  unfold ClientSupabaseConfig.autoTest, ClientSupabaseConfig.testConnection.
  destruct (Js.truthy (ClientSupabaseConfig.url (ClientSupabaseConfig.credentials r)));
    destruct (Js.truthy (ClientSupabaseConfig.key (ClientSupabaseConfig.credentials r)));
    destruct (Regex.test ClientSupabaseConfig.urlPattern
                (ClientSupabaseConfig.url (ClientSupabaseConfig.credentials r)));
    destruct n as [[e|]|e];
    try destruct (ClientSupabaseConfig.is_invalid_api_key e) eqn:Hi;
    unfold try_catch, bind, client_query, ClientSupabaseConfig.setConnectionStatus,
      ClientSupabaseConfig.setConnectionError, set_state, ret;
    cbn [negb orb andb state db trace fst snd];
    try rewrite Hi; cbn [negb orb andb state db trace fst snd];
    cbn [ClientSupabaseConfig.connectionStatus ClientSupabaseConfig.connectionError
           ClientSupabaseConfig.with_connectionStatus
           ClientSupabaseConfig.with_connectionError];
    repeat match goal with
           | |- _ /\ _ => split
           | |- _ <-> _ => split
           end;
    try reflexivity; try discriminate; intros;
    repeat match goal with
           | H : _ \/ _ |- _ => destruct H
           end;
    try discriminate; try congruence; auto.
Qed.

(** ** External-database pointer: a save that goes through *)

Section SavePointerThrough.

Import ClientSupabaseConfig.

Variables (u : Auth.User) (r : State) (n : Network) (d : Db.t).

(** The prober answers true only for non-empty fields and a well-formed URL. *)
Lemma probe_true_inputs (w : world State) (url key : string) (m : network_reply) :
  fst (testConnection m url key w) = Returned true ->
  Js.truthy url = true /\ Js.truthy key = true /\ Regex.test urlPattern url = true.
Proof.
  unfold testConnection.
  destruct (Js.truthy url); destruct (Js.truthy key);
    destruct (Regex.test urlPattern url); simpl; intro H;
    try discriminate; now repeat split.
Qed.

(** The world a save leaves when the prober has answered true. *)
Lemma save_pointer_connected_world :
  fst (run (testConnection (probe n) (url (credentials r)) (key (credentials r))) r d)
  = Returned true ->
  exists st tr,
    run (handleSave (Some u) r n) r d =
    (Returned tt,
     {| state := st;
        db := snd (Db.profiles_update (Some (Auth.id u))
                     (Some (url (credentials r))) (Some (key (credentials r)))
                     (Auth.id u) d);
        trace := tr |})
    /\ hasExistingConfig st = true
    /\ isSaving st = false
    /\ connectionStatus st = connected
    /\ connectionError st = None
    /\ credentials st = credentials r
    /\ filter is_store_call tr =
       [StoreCall (ProfilesUpdate (Some (url (credentials r)))
                     (Some (key (credentials r))) (Auth.id u))]
    /\ last tr (ConsoleLog EmptyString) =
       Toast "Configuração salva!" "Seu Supabase foi conectado com sucesso." false.
Proof.
  intro H. destruct (probe_true_inputs _ _ _ _ H) as (Hu & Hk & Ht).
  revert H. unfold run, handleSave, testConnection. rewrite Hu, Hk, Ht.
  unfold provisionTables.
  destruct (probe n) as [[e|]|e];
    try destruct (is_invalid_api_key e) eqn:Hi;
    unfold finally, try_catch, bind, client_query, store_call, toast, emit,
      setIsSaving, setConnectionStatus, setConnectionError, setHasExistingConfig,
      set_state, ret;
    cbn [negb orb state db trace fst snd Db.profiles_update];
    try rewrite Hi; cbn [negb orb state db trace fst snd Db.profiles_update];
    intro H; try discriminate;
    destruct (provision n) as [[e'|]|e'];
    try destruct (negb (Js.includes (Js.message e') "does not exist"));
    cbn [negb orb state db trace fst snd app];
    (eexists; eexists; split; [reflexivity |]);
    repeat split.
Qed.

End SavePointerThrough.

(** A save whose probe succeeds writes the pointer into the saver's own
    profile and nowhere else, and the form ends up connected: the success
    toast is the last effect, the saving flag is released, and the view offers
    the disconnect button over locked inputs.  This holds however the
    provisioning check that follows the write ends. *)
Theorem save_pointer_goes_through (u : Auth.User) (r : ClientSupabaseConfig.State)
    (n : ClientSupabaseConfig.Network) (d : Db.t) :
  fst (run (ClientSupabaseConfig.testConnection (ClientSupabaseConfig.probe n)
              (ClientSupabaseConfig.url (ClientSupabaseConfig.credentials r))
              (ClientSupabaseConfig.key (ClientSupabaseConfig.credentials r))) r d)
  = Returned true ->
  let res := run (ClientSupabaseConfig.handleSave (Some u) r n) r d in
  fst res = Returned tt
  /\ (forall p, In p (Db.profiles (db (snd res))) -> Db.Profiles.id p = Auth.id u ->
                Db.Profiles.client_supabase_url p
                = Some (ClientSupabaseConfig.url (ClientSupabaseConfig.credentials r)) /\
                Db.Profiles.client_supabase_key p
                = Some (ClientSupabaseConfig.key (ClientSupabaseConfig.credentials r)))
  /\ (forall p, In p (Db.profiles d) -> Db.Profiles.id p <> Auth.id u ->
                In p (Db.profiles (db (snd res))))
  /\ map Db.Profiles.id (Db.profiles (db (snd res))) = map Db.Profiles.id (Db.profiles d)
  /\ Db.meta_credentials (db (snd res)) = Db.meta_credentials d
  /\ Db.webhook_urls (db (snd res)) = Db.webhook_urls d
  /\ last (trace (snd res)) (ConsoleLog EmptyString)
     = Toast "Configuração salva!" "Seu Supabase foi conectado com sucesso." false
  /\ ClientSupabaseConfig.action (state (snd res))
     = ClientSupabaseConfig.DisconnectButton false
  /\ ClientSupabaseConfig.inputsDisabled (state (snd res)) = true.
Proof.
  intro H.
  destruct (save_pointer_connected_world u r n d H)
    as (st & tr & E & He & Hs & Hc & _ & _ & _ & Hl).
  pose proof (profiles_update_own (Auth.id u)
                (Some (ClientSupabaseConfig.url (ClientSupabaseConfig.credentials r)))
                (Some (ClientSupabaseConfig.key (ClientSupabaseConfig.credentials r))) d)
    as (_ & H1 & H2 & H3 & H4 & H5 & _).
  cbv zeta. rewrite E. cbn [fst snd db state trace].
  split; [reflexivity |]. split; [exact H1 |]. split; [exact H2 |].
  split; [exact H3 |]. split; [exact H4 |]. split; [exact H5 |].
  split; [exact Hl |].
  unfold ClientSupabaseConfig.action, ClientSupabaseConfig.inputsDisabled,
    ClientSupabaseConfig.is_connected.
  rewrite He, Hc, Hs. now split.
Qed.

Lemma save_pointer_goes_through_witness :
  let res := run (ClientSupabaseConfig.handleSave (Some Example.alice)
                    Example.typed_pointer
                    {| ClientSupabaseConfig.probe :=
                         Resolved (Some {| Js.message := "relation does not exist" |});
                       ClientSupabaseConfig.provision := Rejected {| Js.message := "offline" |} |})
               Example.typed_pointer Example.small_db in
  ClientSupabaseConfig.action (state (snd res)) = ClientSupabaseConfig.DisconnectButton false
  /\ ClientSupabaseConfig.inputsDisabled (state (snd res)) = true.
Proof.
  apply (save_pointer_goes_through Example.alice Example.typed_pointer
           {| ClientSupabaseConfig.probe :=
                Resolved (Some {| Js.message := "relation does not exist" |});
              ClientSupabaseConfig.provision := Rejected {| Js.message := "offline" |} |}
           Example.small_db eq_refl).
Defined.

Lemma save_pointer_failure_toast_witness :
  exists probe_trace,
    (forall e, In e probe_trace -> is_network_call e = true) /\
    trace (snd (run (ClientSupabaseConfig.handleSave (Some Example.alice)
                       Example.typed_pointer Example.invalid_key)
                  Example.typed_pointer Example.small_db)) =
    (probe_trace ++
     [Toast "Falha na conexão"
        (Js.or_else (ClientSupabaseConfig.connectionError Example.typed_pointer)
           "Não foi possível conectar ao Supabase.") true])%list.
Proof.
  apply (save_pointer_failure_toast Example.alice Example.typed_pointer
           Example.invalid_key Example.small_db); reflexivity.
Defined.

(** ** External-database pointer: composing save, disconnect and reload *)

(** Rows a profile update leaves alone are the old rows; the rows it rewrites
    carry the new pointer. *)
Lemma profiles_update_rows (uid : option Db.uuid) (url key : option string)
    (id : Db.uuid) (d : Db.t) (p : Db.Profiles.row) :
  In p (Db.profiles (snd (Db.profiles_update uid url key id d))) ->
  In p (Db.profiles d) \/
  (Db.Profiles.client_supabase_url p = url /\ Db.Profiles.client_supabase_key p = key).
Proof.
  simpl. intro H. apply in_map_iff in H. destruct H as (p0 & E & Hin).
  destruct (String.eqb (Db.Profiles.id p0) id && Db.owner_using uid (Db.Profiles.id p0)).
  - right. now subst p.
  - left. now subst p.
Qed.

(** Clearing the pointer after any update of it is the same as clearing it
    at once. *)
Lemma profiles_update_then_clear (uid : option Db.uuid) (url key : option string)
    (id : Db.uuid) (d : Db.t) :
  snd (Db.profiles_update uid None None id (snd (Db.profiles_update uid url key id d)))
  = snd (Db.profiles_update uid None None id d).
Proof.
  simpl. f_equal. rewrite map_map. apply map_ext. intro p.
  destruct (String.eqb (Db.Profiles.id p) id && Db.owner_using uid (Db.Profiles.id p)) eqn:E;
    simpl; now rewrite E.
Qed.

(** The store a save of the pointer leaves: the old one, or the old one with
    the saver's pointer written. *)
Lemma save_pointer_store (user : option Auth.User) (r : ClientSupabaseConfig.State)
    (n : ClientSupabaseConfig.Network) (d : Db.t) :
  fst (run (ClientSupabaseConfig.handleSave user r n) r d) = Returned tt /\
  (db (snd (run (ClientSupabaseConfig.handleSave user r n) r d)) = d \/
   exists u, user = Some u /\
     fst (run (ClientSupabaseConfig.testConnection (ClientSupabaseConfig.probe n)
                 (ClientSupabaseConfig.url (ClientSupabaseConfig.credentials r))
                 (ClientSupabaseConfig.key (ClientSupabaseConfig.credentials r))) r d)
     = Returned true /\
     db (snd (run (ClientSupabaseConfig.handleSave user r n) r d)) =
     snd (Db.profiles_update (Some (Auth.id u))
            (Some (ClientSupabaseConfig.url (ClientSupabaseConfig.credentials r)))
            (Some (ClientSupabaseConfig.key (ClientSupabaseConfig.credentials r)))
            (Auth.id u) d)).
Proof.
  destruct user as [u|]; [| split; [reflexivity | now left]].
  destruct (testConnection_returns (ClientSupabaseConfig.probe n)
              (ClientSupabaseConfig.url (ClientSupabaseConfig.credentials r))
              (ClientSupabaseConfig.key (ClientSupabaseConfig.credentials r))
              {| state := r; db := d; trace := [] |}) as [[|] Hb].
  - destruct (save_pointer_connected_world u r n d Hb) as (st & tr & E & _).
    rewrite E. split; [reflexivity |]. right. exists u. now repeat split.
  - pose (user := Some u). change (Some u) with user.
    assert (Huser : user <> None) by discriminate. clearbody user.
    revert Hb Huser. unfold run at 1.
    save_cases user r n; simpl; intros Hb Huser; try discriminate;
      try (now contradiction Huser); split; try reflexivity; now left.
Qed.

(** The world a disconnect of a signed-in user leaves, from any world. *)
Lemma handleDisconnect_world (u : Auth.User) (r : ClientSupabaseConfig.State)
    (w : world ClientSupabaseConfig.State) :
  ClientSupabaseConfig.handleDisconnect (Some u) r w =
  (Returned tt,
   {| state :=
        ClientSupabaseConfig.with_isSaving false
          (ClientSupabaseConfig.with_hasExistingConfig false
             (ClientSupabaseConfig.with_connectionError None
                (ClientSupabaseConfig.with_connectionStatus ClientSupabaseConfig.disconnected
                   (ClientSupabaseConfig.with_credentials
                      {| ClientSupabaseConfig.url := EmptyString;
                         ClientSupabaseConfig.key := EmptyString |}
                      (ClientSupabaseConfig.with_isSaving true (state w))))));
      db := snd (Db.profiles_update (Some (Auth.id u)) None None (Auth.id u) (db w));
      trace := trace w ++
               [StoreCall (ProfilesUpdate None None (Auth.id u));
                Toast "Desconectado"
                  "Seu Supabase foi desconectado. Você pode conectar outro." false] |}).
Proof.
  unfold ClientSupabaseConfig.handleDisconnect. cbn. now rewrite <- app_assoc.
Qed.

(** Clearing a pointer that is not set changes nothing. *)
Lemma profiles_clear_unset (i : Db.uuid) (d : Db.t) :
  (forall p, In p (Db.profiles d) -> Db.Profiles.id p = i ->
             Db.Profiles.client_supabase_url p = None /\
             Db.Profiles.client_supabase_key p = None) ->
  snd (Db.profiles_update (Some i) None None i d) = d.
Proof.
  intro H. simpl. destruct d as [roles profs metas hooks]. simpl in *. f_equal.
  induction profs as [|p l IH]; simpl; [reflexivity |].
  rewrite IH by (intros q Hq; apply H; now right). f_equal.
  destruct (String.eqb (Db.Profiles.id p) i) eqn:E; simpl; [| reflexivity].
  apply String.eqb_eq in E.
  destruct (H p (or_introl eq_refl) E) as [Hu Hk].
  destruct (Db.owner_using (Some i) (Db.Profiles.id p)); [| reflexivity].
  destruct p as [pid pemail purl pkey]. simpl in *. now subst.
Qed.

(** Save followed by disconnect: whatever the save did, the store ends up as
    if the user had only disconnected, the form is empty again and offers a
    fresh save over editable inputs.  If the user had no pointer before, the
    store is exactly as it was. *)
Theorem save_then_disconnect_restores (u : Auth.User) (r : ClientSupabaseConfig.State)
    (n : ClientSupabaseConfig.Network) (d : Db.t) :
  let both :=
    run (ClientSupabaseConfig.handleSave (Some u) r n ;;
         latest (ClientSupabaseConfig.handleDisconnect (Some u))) r d in
  let only := run (ClientSupabaseConfig.handleDisconnect (Some u) r) r d in
  fst both = Returned tt
  /\ db (snd both) = db (snd only)
  /\ ClientSupabaseConfig.credentials (state (snd both))
     = {| ClientSupabaseConfig.url := EmptyString; ClientSupabaseConfig.key := EmptyString |}
  /\ ClientSupabaseConfig.action (state (snd both))
     = ClientSupabaseConfig.SaveButton "Salvar e Conectar" false
  /\ ClientSupabaseConfig.inputsDisabled (state (snd both)) = false
  /\ ((forall p, In p (Db.profiles d) -> Db.Profiles.id p = Auth.id u ->
                 Db.Profiles.client_supabase_url p = None /\
                 Db.Profiles.client_supabase_key p = None) ->
      db (snd both) = d).
Proof.
  cbv zeta. unfold run, bind, latest.
  destruct (save_pointer_store (Some u) r n d) as [Hret Hdb].
  unfold run in Hret, Hdb.
  destruct (ClientSupabaseConfig.handleSave (Some u) r n
              {| state := r; db := d; trace := [] |}) as [[[]|e] w1];
    simpl in Hret; [| discriminate].
  rewrite !handleDisconnect_world. cbn [fst snd db state trace].
  assert (E : snd (Db.profiles_update (Some (Auth.id u)) None None (Auth.id u) (db w1))
              = snd (Db.profiles_update (Some (Auth.id u)) None None (Auth.id u) d)).
  { simpl in Hdb. destruct Hdb as [-> | (u' & Hu & _ & ->)]; [reflexivity |].
    injection Hu as <-. apply profiles_update_then_clear. }
  split; [reflexivity |]. split; [exact E |]. split; [reflexivity |].
  split; [reflexivity |]. split; [reflexivity |].
  intro H. rewrite E. now apply profiles_clear_unset.
Qed.

(** The shape of the stored pointers is an invariant of the form: if every
    profile has either no pointer or a well-formed URL with a non-empty key,
    that is still so after a save and after a disconnect, whoever runs them
    and whatever the external store answers. *)
Theorem pointer_shape_kept (user : option Auth.User) (r : ClientSupabaseConfig.State)
    (n : ClientSupabaseConfig.Network) (d : Db.t) :
  (forall p, In p (Db.profiles d) -> ClientSupabaseConfig.pointer_ok p = true) ->
  (forall p, In p (Db.profiles (db (snd (run (ClientSupabaseConfig.handleSave user r n) r d)))) ->
             ClientSupabaseConfig.pointer_ok p = true)
  /\ (forall p, In p (Db.profiles
                        (db (snd (run (ClientSupabaseConfig.handleDisconnect user r) r d)))) ->
                ClientSupabaseConfig.pointer_ok p = true).
Proof.
  intro Hok. split; intros p Hin.
  - destruct (save_pointer_store user r n d) as [_ [E | (u & _ & Hp & E)]];
      rewrite E in Hin; [now apply Hok |].
    apply profiles_update_rows in Hin. destruct Hin as [Hin | [Hu Hk]]; [now apply Hok |].
    apply probe_true_inputs in Hp. destruct Hp as (_ & Hk' & Ht).
    unfold ClientSupabaseConfig.pointer_ok. now rewrite Hu, Hk, Ht, Hk'.
  - destruct user as [u|]; [| now apply Hok].
    unfold run in Hin. rewrite handleDisconnect_world in Hin. cbn [snd db] in Hin.
    apply profiles_update_rows in Hin. destruct Hin as [Hin | [Hu Hk]]; [now apply Hok |].
    unfold ClientSupabaseConfig.pointer_ok. now rewrite Hu, Hk.
Qed.

Lemma pointer_shape_kept_witness :
  forallb ClientSupabaseConfig.pointer_ok
    (Db.profiles
       (db (snd (run (ClientSupabaseConfig.handleSave (Some Example.alice)
                       Example.typed_pointer Example.invalid_key)
                   Example.typed_pointer Example.small_db)))) = true.
Proof.
  apply forallb_forall.
  refine (proj1 (pointer_shape_kept (Some Example.alice) Example.typed_pointer
                   Example.invalid_key Example.small_db _)).
  intros p [<- | [<- | []]]; reflexivity.
Defined.

(** A user's own profile row always passes the SELECT policies. *)
Lemma own_profile_visible (d : Db.t) (i : Db.uuid) (p : Db.Profiles.row) :
  String.eqb (Db.Profiles.id p) i && Db.profiles_select_using d (Some i) p
  = String.eqb (Db.Profiles.id p) i.
Proof.
  destruct (String.eqb (Db.Profiles.id p) i) eqn:E; [| reflexivity].
  apply String.eqb_eq in E. unfold Db.profiles_select_using, Db.owner_using. simpl.
  now rewrite E, String.eqb_refl.
Qed.

Lemma no_own_profile (i : Db.uuid) (l : list Db.Profiles.row) :
  ~ In i (map Db.Profiles.id l) ->
  filter (fun p => String.eqb (Db.Profiles.id p) i) l = [].
Proof.
  induction l as [|p l IH]; simpl; intro H; [reflexivity |].
  destruct (String.eqb (Db.Profiles.id p) i) eqn:E.
  - apply String.eqb_eq in E. exfalso. apply H. now left.
  - apply IH. intro Hin. apply H. now right.
Qed.

(** With ids unique, a user who has a profile has exactly one. *)
Lemma one_own_profile (i : Db.uuid) (l : list Db.Profiles.row) :
  NoDup (map Db.Profiles.id l) -> In i (map Db.Profiles.id l) ->
  exists p, filter (fun p => String.eqb (Db.Profiles.id p) i) l = [p] /\
            Db.Profiles.id p = i.
Proof.
  induction l as [|p l IH]; simpl; intros Hnd Hin; [destruct Hin |].
  inversion Hnd as [|? ? Hnotin Hnd']; subst.
  destruct (String.eqb (Db.Profiles.id p) i) eqn:E.
  - apply String.eqb_eq in E. exists p. split; [| exact E].
    f_equal. apply no_own_profile. now rewrite <- E.
  - destruct Hin as [Hin | Hin].
    + rewrite Hin, String.eqb_refl in E. discriminate.
    + now apply IH.
Qed.

(** Reading back the pointer of one's own, unique profile after an update of
    it gives what the update wrote. *)
Lemma select_pointer_after_update (i : Db.uuid) (url key : option string) (d : Db.t) :
  NoDup (map Db.Profiles.id (Db.profiles d)) ->
  In i (map Db.Profiles.id (Db.profiles d)) ->
  Db.profiles_select_pointer (Some i) i (snd (Db.profiles_update (Some i) url key i d))
  = Db.ok (url, key).
Proof.
  intros Hnd Hin. unfold Db.profiles_select_pointer.
  rewrite (filter_ext _ _ (own_profile_visible _ i)).
  cbn [snd Db.profiles_update Db.profiles].
  assert (Hf : forall l,
             filter (fun p => String.eqb (Db.Profiles.id p) i)
               (map (fun p =>
                       if String.eqb (Db.Profiles.id p) i
                          && Db.owner_using (Some i) (Db.Profiles.id p)
                       then {| Db.Profiles.id := Db.Profiles.id p;
                               Db.Profiles.email := Db.Profiles.email p;
                               Db.Profiles.client_supabase_url := url;
                               Db.Profiles.client_supabase_key := key |}
                       else p) l)
             = map (fun p => {| Db.Profiles.id := Db.Profiles.id p;
                                Db.Profiles.email := Db.Profiles.email p;
                                Db.Profiles.client_supabase_url := url;
                                Db.Profiles.client_supabase_key := key |})
                 (filter (fun p => String.eqb (Db.Profiles.id p) i) l)).
  { induction l as [|p l IH]; [reflexivity |].
    cbn [map filter]. destruct (String.eqb (Db.Profiles.id p) i) eqn:E.
    - assert (O : Db.owner_using (Some i) (Db.Profiles.id p) = true).
      { apply String.eqb_eq in E. unfold Db.owner_using. simpl.
        now rewrite E, String.eqb_refl. }
      rewrite O. cbn [andb Db.Profiles.id map]. rewrite E. f_equal. exact IH.
    - cbn [andb]. rewrite E. exact IH. }
  rewrite Hf. destruct (one_own_profile i _ Hnd Hin) as (p & -> & _). reflexivity.
Qed.

Lemma profiles_update_ids (uid : option Db.uuid) (url key : option string)
    (id : Db.uuid) (d : Db.t) :
  map Db.Profiles.id (Db.profiles (snd (Db.profiles_update uid url key id d)))
  = map Db.Profiles.id (Db.profiles d).
Proof.
  simpl. rewrite map_map. apply map_ext. intro p.
  now destruct (String.eqb (Db.Profiles.id p) id && Db.owner_using uid (Db.Profiles.id p)).
Qed.

(** Save and reload: for a user with a profile (profile ids being unique), a
    pointer saved through the form is what the mount effect of a freshly
    opened form loads, and the form then knows a configuration exists.  After
    a disconnect the freshly opened form stays empty. *)
Theorem saved_pointer_is_reloaded (u : Auth.User) (r : ClientSupabaseConfig.State)
    (n : ClientSupabaseConfig.Network) (d : Db.t) :
  NoDup (map Db.Profiles.id (Db.profiles d)) ->
  In (Auth.id u) (map Db.Profiles.id (Db.profiles d)) ->
  fst (run (ClientSupabaseConfig.testConnection (ClientSupabaseConfig.probe n)
              (ClientSupabaseConfig.url (ClientSupabaseConfig.credentials r))
              (ClientSupabaseConfig.key (ClientSupabaseConfig.credentials r))) r d)
  = Returned true ->
  let saved := db (snd (run (ClientSupabaseConfig.handleSave (Some u) r n) r d)) in
  let cleared := db (snd (run (ClientSupabaseConfig.handleDisconnect (Some u) r) r saved)) in
  run (ClientSupabaseConfig.fetchProfile (Some u)) ClientSupabaseConfig.initial saved
  = (Returned tt,
     {| state := ClientSupabaseConfig.with_hasExistingConfig true
                   (ClientSupabaseConfig.with_credentials
                      (ClientSupabaseConfig.credentials r) ClientSupabaseConfig.initial);
        db := saved; trace := [] |})
  /\ run (ClientSupabaseConfig.fetchProfile (Some u)) ClientSupabaseConfig.initial cleared
     = (Returned tt,
        {| state := ClientSupabaseConfig.initial; db := cleared; trace := [] |}).
Proof.
  intros Hnd Hin Hp.
  destruct (save_pointer_connected_world u r n d Hp) as (st & tr & E & _).
  destruct (probe_true_inputs _ _ _ _ Hp) as (Hu & Hk & _).
  cbv zeta. rewrite E. cbn [snd db].
  split.
  - unfold run, ClientSupabaseConfig.fetchProfile, bind, store_peek. cbn [db Auth.uid option_map].
    rewrite select_pointer_after_update by assumption.
    cbn [Db.data Db.ok]. rewrite Hu, Hk. cbn.
    now destruct (ClientSupabaseConfig.credentials r).
  - unfold run at 2. rewrite handleDisconnect_world. cbn [snd db].
    unfold run, ClientSupabaseConfig.fetchProfile, bind, store_peek. cbn [db Auth.uid option_map].
    rewrite select_pointer_after_update
      by (rewrite profiles_update_ids; assumption).
    reflexivity.
Qed.

Lemma saved_pointer_is_reloaded_witness :
  ClientSupabaseConfig.credentials
    (state (snd (run (ClientSupabaseConfig.fetchProfile (Some Example.alice))
                   ClientSupabaseConfig.initial
                   (db (snd (run (ClientSupabaseConfig.handleSave (Some Example.alice)
                                    Example.typed_pointer
                                    {| ClientSupabaseConfig.probe := Resolved None;
                                       ClientSupabaseConfig.provision := Resolved None |})
                               Example.typed_pointer Example.small_db))))))
  = ClientSupabaseConfig.credentials Example.typed_pointer.
Proof.
  refine (f_equal (fun x => ClientSupabaseConfig.credentials (state (snd x)))
            (proj1 (saved_pointer_is_reloaded Example.alice Example.typed_pointer
                      {| ClientSupabaseConfig.probe := Resolved None;
                         ClientSupabaseConfig.provision := Resolved None |}
                      Example.small_db _ _ eq_refl))).
  - repeat constructor; simpl; intuition discriminate.
  - simpl. auto.
Defined.

(** ** Credential page: the webhook line and the Meta test *)

(** A user's own webhook rows always pass the SELECT policy. *)
Lemma own_webhook_visible (d : Db.t) (i : Db.uuid) (x : Db.WebhookUrls.row) :
  String.eqb (Db.WebhookUrls.user_id x) i && Db.webhook_urls_select_using d (Some i) x
  = String.eqb (Db.WebhookUrls.user_id x) i.
Proof.
  destruct (String.eqb (Db.WebhookUrls.user_id x) i) eqn:E; [| reflexivity].
  apply String.eqb_eq in E. unfold Db.webhook_urls_select_using. simpl.
  now rewrite E, String.eqb_refl.
Qed.

(** The page shows a webhook URL only when the store holds exactly one
    webhook row of the signed-in user: with one row its URL is loaded, with
    none nothing changes, and with two or more (the store does not forbid
    them) the lookup fails quietly and nothing changes either.  Rows of other
    users never matter, whatever the roles of the caller. *)
Theorem fetchWebhook_needs_exactly_one_row (u : Auth.User) (w : world Configuracao.State) :
  Configuracao.fetchWebhook (Some u) w =
  (Returned tt,
   match filter (fun x => String.eqb (Db.WebhookUrls.user_id x) (Auth.id u))
           (Db.webhook_urls (db w)) with
   | [x] => {| state := Configuracao.with_webhookUrl
                          (Some (Db.WebhookUrls.webhook_url x)) (state w);
               db := db w; trace := trace w |}
   | _ => w
   end).
Proof.
  unfold Configuracao.fetchWebhook, bind, store_peek, Db.webhook_urls_select_own.
  cbn [db Auth.uid option_map].
  rewrite (filter_ext _ _ (own_webhook_visible (db w) (Auth.id u))).
  destruct (filter _ (Db.webhook_urls (db w))) as [|x [|y l]]; simpl.
  - now destruct w.
  - reflexivity.
  - now destruct w.
Qed.

(** The Meta test never touches the store or the stored-credential flag, and
    it needs no signed-in user.  With an empty Pixel ID or token no request is
    made: the outcome is the required-fields toast whatever the network would
    answer.  Otherwise the one request goes to the Graph address built from
    the two fields, the testing flag is released at the end, and the single
    toast is decided by how the request ends: success for a response with
    [ok]; for a response without it whose body is a JSON value other than
    [null], Meta's [error.message], or the fallback text when that is absent
    or empty; for a [null] body the message of the [TypeError] that reading
    [error.error] throws, not the fallback text; and for a body that cannot be
    read or a request that fails, the message of that error. *)
Theorem handleTestConnection_outcomes (r : Configuracao.State)
    (fetch : string -> Configuracao.graph_reply) (d : Db.t) :
  let res := run (Configuracao.handleTestConnection r fetch) r d in
  fst res = Returned tt
  /\ db (snd res) = d
  /\ Configuracao.credentials (state (snd res)) = Configuracao.credentials r
  /\ Configuracao.hasExistingCredentials (state (snd res))
     = Configuracao.hasExistingCredentials r
  /\ (Js.truthy (Configuracao.pixel_id (Configuracao.credentials r)) = false \/
      Js.truthy (Configuracao.access_token (Configuracao.credentials r)) = false ->
      snd res =
      {| state := r; db := d;
         trace := [Toast "Campos obrigatórios"
                     "Preencha o Pixel ID e Access Token para testar." true] |})
  /\ (Js.truthy (Configuracao.pixel_id (Configuracao.credentials r)) = true ->
      Js.truthy (Configuracao.access_token (Configuracao.credentials r)) = true ->
      Configuracao.isTesting (state (snd res)) = false /\
      trace (snd res) =
      [match fetch (Configuracao.graph_url (Configuracao.credentials r)) with
       | Configuracao.ResponseOk =>
           Toast "Conexão bem-sucedida!" "Suas credenciais estão válidas." false
       | Configuracao.ResponseNotOk (Configuracao.BodyValue error_message) =>
           Toast "Falha na conexão" (Js.or_else error_message "Credenciais inválidas") true
       | Configuracao.ResponseNotOk (Configuracao.BodyNull type_error) =>
           Toast "Falha na conexão" (Js.message type_error) true
       | Configuracao.ResponseNotOk (Configuracao.BodyUnreadable e) =>
           Toast "Falha na conexão" (Js.message e) true
       | Configuracao.FetchRejected e =>
           Toast "Falha na conexão" (Js.message e) true
       end]).
Proof.
  unfold run, Configuracao.handleTestConnection.
  destruct (Js.truthy (Configuracao.pixel_id (Configuracao.credentials r)));
    destruct (Js.truthy (Configuracao.access_token (Configuracao.credentials r)));
    cbn [negb orb];
    try (cbn; repeat split; intros; try reflexivity;
         repeat match goal with
                | H : _ \/ _ |- _ => destruct H
                end; discriminate).
  destruct (fetch (Configuracao.graph_url (Configuracao.credentials r))) as [|[e|e|m]|e];
    cbn; repeat split; intros [H | H]; discriminate.
Qed.

(** ** Meta credentials: out of step, frame, repetition, reload *)

Section MoreSaveCredentials.

Import Configuracao.

Variable u : Auth.User.

(** When the form does not know of the row the store already holds for the
    user, a save tries an insert: the store refuses it with an error [e] and
    stays as it was, the error toast's description is the message of [e],
    whatever its text, and the form still does not know of the row. *)
Theorem save_out_of_step_is_refused (r : State) (d : Db.t) :
  Js.truthy (pixel_id (credentials r)) = true ->
  Js.truthy (access_token (credentials r)) = true ->
  hasExistingCredentials r = false ->
  filter (Db.owned_by (Auth.id u)) (Db.meta_credentials d) <> [] ->
  exists e,
    Db.meta_credentials_insert (Auth.uid (Some u)) (row_of u (credentials r)) d
    = (Some e, d)
    /\ run (handleSave (Some u) r) r d =
       (Returned tt,
        {| state := with_isSaving false (with_isSaving true r);
           db := d;
           trace := [StoreCall (MetaCredentialsInsert (row_of u (credentials r)));
                     Toast "Erro ao salvar" (Js.message e) true] |}).
Proof.
  intros Hp Ht He Hrow.
  assert (Hins : Db.meta_credentials_insert (Auth.uid (Some u)) (row_of u (credentials r)) d
                 = (Some (Db.unique_violation Db.user_id_unique_name), d)).
  { unfold Db.meta_credentials_insert.
    replace (Db.owner_using (Auth.uid (Some u))
               (Db.MetaCredentials.user_id (row_of u (credentials r))))
      with true by (unfold Db.owner_using; simpl; now rewrite String.eqb_refl).
    cbn [negb]. unfold Db.violates_user_id_unique.
    change (Db.MetaCredentials.user_id (row_of u (credentials r))) with (Auth.id u).
    rewrite existsb_owned.
    destruct (filter (Db.owned_by (Auth.id u)) (Db.meta_credentials d));
      [now contradiction Hrow | reflexivity]. }
  eexists. split; [exact Hins |].
  unfold run, handleSave. rewrite Hp, Ht, He.
  cbn [negb orb].
  unfold finally, try_catch, bind, store_call, setIsSaving, set_state. cbn [db state trace].
  rewrite Hins. reflexivity.
Qed.

(** An update leaves the rows of other users in place. *)
Lemma foreign_rows_after_set (pixel : string) (page : option string) (token : string)
    (l : list Db.MetaCredentials.row) :
  filter (fun m => negb (Db.owned_by (Auth.id u) m))
    (map (Db.meta_credentials_set (Some (Auth.id u)) pixel page token (Auth.id u)) l)
  = filter (fun m => negb (Db.owned_by (Auth.id u) m)) l.
Proof.
  induction l as [|m l IH]; simpl; [reflexivity |].
  rewrite meta_credentials_set_spec. destruct (Db.owned_by (Auth.id u) m) eqn:E.
  - rewrite owned_saved_row. simpl. exact IH.
  - rewrite E. simpl. now rewrite IH.
Qed.

(** A save never throws and concerns the saver's own credential row only:
    the rows of other users keep their values and their order, and the other
    three tables are untouched, whatever the state of the form. *)
Theorem save_credentials_frame (r : State) (d : Db.t) :
  let res := run (handleSave (Some u) r) r d in
  fst res = Returned tt
  /\ filter (fun m => negb (Db.owned_by (Auth.id u) m)) (Db.meta_credentials (db (snd res)))
     = filter (fun m => negb (Db.owned_by (Auth.id u) m)) (Db.meta_credentials d)
  /\ Db.profiles (db (snd res)) = Db.profiles d
  /\ Db.webhook_urls (db (snd res)) = Db.webhook_urls d
  /\ Db.user_roles (db (snd res)) = Db.user_roles d
  /\ (isSaving (state (snd res)) = false \/
      snd res =
      {| state := r; db := d;
         trace := [Toast "Campos obrigatórios" "Pixel ID e Access Token são obrigatórios."
                     true] |}).
Proof.
  unfold run, handleSave.
  destruct (Js.truthy (pixel_id (credentials r)));
    destruct (Js.truthy (access_token (credentials r)));
    cbn [negb orb]; try (cbn; repeat split; right; reflexivity).
  destruct (hasExistingCredentials r).
  - cbn. repeat split; [apply foreign_rows_after_set | now left].
  - unfold finally, try_catch, bind, store_call, setIsSaving, set_state. cbn [db state trace].
    unfold Db.meta_credentials_insert.
    destruct (negb (Db.owner_using (Auth.uid (Some u))
                      (Db.MetaCredentials.user_id (row_of u (credentials r)))));
      [cbn; repeat split; now left |].
    destruct (Db.violates_user_id_unique (row_of u (credentials r)) d);
      cbn; repeat split; try (now left).
    rewrite filter_app. simpl.
    replace (Db.owned_by (Auth.id u) (row_of u (credentials r))) with true
      by (unfold Db.owned_by; simpl; now rewrite String.eqb_refl).
    simpl. now rewrite app_nil_r.
Qed.

End MoreSaveCredentials.

Lemma or_else_or_null (s : string) : Js.or_else (Js.or_null s) EmptyString = s.
Proof.
  unfold Js.or_null, Js.or_else. destruct s as [|a s]; reflexivity.
Qed.

Section RepeatedSaves.

Import Configuracao.

Variables (u : Auth.User) (c : MetaCredentials) (d : Db.t).

Hypothesis unique : NoDup (map Db.MetaCredentials.user_id (Db.meta_credentials d)).
Hypothesis pixel_given : Js.truthy (pixel_id c) = true.
Hypothesis token_given : Js.truthy (access_token c) = true.

(** The world after the page is opened, [c] is typed and Save is pressed
    once: the form knows of the row, the store holds exactly the saved row
    for the user, and saving the same values again would not change it. *)
Lemma first_save_world :
  exists w1,
    run (visit (Some u) c 1) initial d = (Returned tt, w1)
    /\ hasExistingCredentials (state w1) = true
    /\ credentials (state w1) = c
    /\ filter (Db.owned_by (Auth.id u)) (Db.meta_credentials (db w1)) = [row_of u c]
    /\ snd (Db.meta_credentials_update (Some (Auth.id u)) (pixel_id c)
              (Js.or_null (page_id c)) (access_token c) (Auth.id u) (db w1)) = db w1.
Proof.
  unfold run, visit, press_save.
  destruct (unique_owned_rows (Auth.id u) _ unique) as [E | [m E]].
  - cbv beta iota delta [bind latest setCredentials set_state ret].
    rewrite fetchCredentials_none by exact E.
    cbv beta iota delta [state db trace].
    rewrite handleSave_inserts
      by first [exact pixel_given | exact token_given | reflexivity | exact E].
    eexists. split; [reflexivity |].
    cbn [state db credentials with_isSaving with_hasExistingCredentials with_credentials
           hasExistingCredentials initial].
    split; [reflexivity |]. split; [reflexivity |].
    unfold Db.meta_credentials_update.
    cbn [snd Db.meta_credentials Db.user_roles Db.profiles Db.webhook_urls].
    split.
    + rewrite filter_app, E. simpl. unfold row_of at 1. now rewrite owned_saved_row.
    + f_equal. rewrite map_app, meta_credentials_set_foreign by exact E. simpl.
      rewrite meta_credentials_set_spec. unfold row_of at 1. now rewrite owned_saved_row.
  - cbv beta iota delta [bind latest setCredentials set_state ret].
    rewrite (fetchCredentials_one _ _ m) by exact E.
    cbv beta iota delta [state db trace].
    rewrite handleSave_updates
      by first [exact pixel_given | exact token_given | reflexivity].
    eexists. split; [reflexivity |].
    cbn [state db credentials with_isSaving with_hasExistingCredentials with_credentials
           hasExistingCredentials initial].
    split; [reflexivity |]. split; [reflexivity |].
    unfold Db.meta_credentials_update.
    cbn [snd Db.meta_credentials Db.user_roles Db.profiles Db.webhook_urls].
    split.
    + rewrite filter_owned_set, E. reflexivity.
    + f_equal. apply meta_credentials_set_idem.
Qed.

(** From a form that knows of the row and holds [c], in a store that saving
    [c] does not change, any number of further saves leaves the store alone. *)
Lemma further_saves_keep_store (k : nat) :
  forall w,
    hasExistingCredentials (state w) = true ->
    credentials (state w) = c ->
    snd (Db.meta_credentials_update (Some (Auth.id u)) (pixel_id c)
           (Js.or_null (page_id c)) (access_token c) (Auth.id u) (db w)) = db w ->
    fst (press_save (Some u) k w) = Returned tt /\
    db (snd (press_save (Some u) k w)) = db w.
Proof.
  induction k as [|k IH]; intros w He Hc Hfix; [now split |].
  cbn [press_save]. unfold bind, latest.
  rewrite handleSave_updates
    by first [rewrite Hc; exact pixel_given | rewrite Hc; exact token_given | exact He].
  rewrite Hc.
  destruct (IH {| state := with_isSaving false (with_isSaving true (state w));
                  db := snd (Db.meta_credentials_update (Some (Auth.id u)) (pixel_id c)
                               (Js.or_null (page_id c)) (access_token c) (Auth.id u) (db w));
                  trace := trace w ++
                     [StoreCall (MetaCredentialsUpdate (pixel_id c) (Js.or_null (page_id c))
                                   (access_token c) (Auth.id u));
                      Toast "Salvo com sucesso!" "Suas credenciais foram atualizadas." false] |})
    as [Hr Hd].
  - exact He.
  - exact Hc.
  - cbn [db]. now rewrite !Hfix.
  - split; [exact Hr |]. rewrite Hd. cbn [db]. exact Hfix.
Qed.

(** Saving is idempotent for any number of presses: opening the page, typing
    valid credentials and pressing Save [k + 1] times leaves the store exactly
    as one press does, with a single row for the user holding the typed
    values. *)
Theorem repeated_saves_equal_one (k : nat) :
  fst (run (visit (Some u) c (S k)) initial d) = Returned tt
  /\ db (snd (run (visit (Some u) c (S k)) initial d))
     = db (snd (run (visit (Some u) c 1) initial d))
  /\ filter (Db.owned_by (Auth.id u))
       (Db.meta_credentials (db (snd (run (visit (Some u) c (S k)) initial d))))
     = [row_of u c].
Proof.
  destruct first_save_world as (w1 & E1 & He & Hc & Hrow & Hfix).
  rewrite E1. cbn [snd].
  assert (E : run (visit (Some u) c (S k)) initial d = press_save (Some u) k w1).
  { revert E1. unfold run, visit. cbn [press_save]. unfold bind.
    destruct (fetchCredentials (Some u) _) as [[[]|e0] w0]; [| discriminate].
    destruct (setCredentials c w0) as [[[]|e0'] w0']; [| discriminate].
    destruct (latest (handleSave (Some u)) w0') as [[[]|e1] w1']; [| discriminate].
    unfold ret. intro H. injection H as <-. reflexivity. }
  rewrite E.
  destruct (further_saves_keep_store k w1 He Hc Hfix) as [Hr Hd].
  split; [exact Hr |]. split; [exact Hd |]. now rewrite Hd.
Qed.

(** Save and reload: after the first save, a freshly opened page loads
    exactly the credentials that were typed (an empty Page ID goes through
    NULL and comes back empty) and knows that they are stored. *)
Theorem saved_credentials_are_reloaded :
  let stored := db (snd (run (visit (Some u) c 1) initial d)) in
  state (snd (run (fetchCredentials (Some u)) initial stored))
  = with_hasExistingCredentials true (with_credentials c initial).
Proof.
  destruct first_save_world as (w1 & E1 & _ & _ & Hrow & _).
  cbv zeta. rewrite E1. cbn [snd]. unfold run.
  rewrite (fetchCredentials_one u _ (row_of u c)) by exact Hrow.
  cbn [snd state]. unfold row_of. cbn [Db.MetaCredentials.pixel_id
    Db.MetaCredentials.page_id Db.MetaCredentials.access_token].
  rewrite or_else_or_null. now destruct c.
Qed.

End RepeatedSaves.

Lemma repeated_saves_equal_one_witness :
  db (snd (run (Configuracao.visit (Some Example.alice) Example.new_credentials 5)
             Configuracao.initial Example.small_db))
  = db (snd (run (Configuracao.visit (Some Example.alice) Example.new_credentials 1)
               Configuracao.initial Example.small_db)).
Proof.
  refine (proj1 (proj2 (repeated_saves_equal_one Example.alice Example.new_credentials
                          Example.small_db _ eq_refl eq_refl 4))).
  repeat constructor. simpl. intuition.
Defined.

Lemma saved_credentials_are_reloaded_witness :
  state (snd (run (Configuracao.fetchCredentials (Some Example.alice)) Configuracao.initial
                (db (snd (run (Configuracao.visit (Some Example.alice)
                                 Example.new_credentials 1)
                            Configuracao.initial Example.empty_db)))))
  = Configuracao.with_hasExistingCredentials true
      (Configuracao.with_credentials Example.new_credentials Configuracao.initial).
Proof.
  refine (saved_credentials_are_reloaded Example.alice Example.new_credentials
            Example.empty_db _ eq_refl eq_refl).
  constructor.
Defined.

Lemma save_out_of_step_is_refused_witness :
  exists e,
    Db.meta_credentials_insert (Some "alice")
      (Configuracao.row_of Example.alice Example.new_credentials) Example.small_db
    = (Some e, Example.small_db)
    /\ run (Configuracao.handleSave (Some Example.alice)
              (Configuracao.with_credentials Example.new_credentials Configuracao.initial))
         (Configuracao.with_credentials Example.new_credentials Configuracao.initial)
         Example.small_db =
       (Returned tt,
        {| state := Configuracao.with_isSaving false
                      (Configuracao.with_isSaving true
                         (Configuracao.with_credentials Example.new_credentials
                            Configuracao.initial));
           db := Example.small_db;
           trace := [StoreCall (MetaCredentialsInsert
                                  (Configuracao.row_of Example.alice Example.new_credentials));
                     Toast "Erro ao salvar" (Js.message e) true] |}).
Proof.
  refine (save_out_of_step_is_refused Example.alice
            (Configuracao.with_credentials Example.new_credentials Configuracao.initial)
            Example.small_db eq_refl eq_refl eq_refl _).
  discriminate.
Defined.

(** ** Admin webhook manager: the listing *)

Lemma insert_sorted_perm {A} (le : A -> A -> bool) (x : A) (l : list A) :
  Permutation (Db.insert_sorted le x l) (x :: l).
Proof.
  induction l as [|y l IH]; simpl; [reflexivity |].
  destruct (le x y); [reflexivity |].
  rewrite IH. apply perm_swap.
Qed.

Lemma order_by_perm {A} (le : A -> A -> bool) (l : list A) :
  Permutation (Db.order_by le l) l.
Proof.
  unfold Db.order_by. induction l as [|x l IH]; simpl; [reflexivity |].
  rewrite insert_sorted_perm. now constructor.
Qed.

Section Ordering.

Context {A : Type} (le : A -> A -> bool).

Hypothesis le_total : forall a b, le a b = true \/ le b a = true.
Hypothesis le_trans : forall a b c, le a b = true -> le b c = true -> le a c = true.

Lemma insert_sorted_sorted (x : A) (l : list A) :
  StronglySorted (fun a b => le a b = true) l ->
  StronglySorted (fun a b => le a b = true) (Db.insert_sorted le x l).
Proof.
  induction 1 as [|y l Hs IH Hall]; simpl.
  - repeat constructor.
  - destruct (le x y) eqn:E.
    + constructor; [now constructor |].
      constructor; [exact E |].
      rewrite Forall_forall in *. intros z Hz. apply (le_trans _ y); auto.
    + constructor; [exact IH |].
      rewrite Forall_forall in *. intros z Hz.
      apply In_insert_sorted in Hz. destruct Hz as [-> | Hz]; [| auto].
      destruct (le_total x y) as [H | H]; [congruence | exact H].
Qed.

Lemma order_by_sorted (l : list A) :
  StronglySorted (fun a b => le a b = true) (Db.order_by le l).
Proof.
  unfold Db.order_by. induction l as [|x l IH]; simpl; [constructor |].
  now apply insert_sorted_sorted.
Qed.

End Ordering.

Lemma created_at_desc_total (a b : Db.WebhookUrls.row) :
  Db.created_at_desc a b = true \/ Db.created_at_desc b a = true.
Proof.
  unfold Db.created_at_desc.
  destruct (Db.WebhookUrls.created_at a) as [x|], (Db.WebhookUrls.created_at b) as [y|];
    auto.
  destruct (Nat.leb_spec y x); [now left | right]. apply Nat.leb_le. lia.
Qed.

Lemma created_at_desc_trans (a b c : Db.WebhookUrls.row) :
  Db.created_at_desc a b = true -> Db.created_at_desc b c = true ->
  Db.created_at_desc a c = true.
Proof.
  unfold Db.created_at_desc.
  destruct (Db.WebhookUrls.created_at a) as [x|], (Db.WebhookUrls.created_at b) as [y|],
    (Db.WebhookUrls.created_at c) as [z|]; auto; try discriminate.
  rewrite !Nat.leb_le. lia.
Qed.

Lemma admin_sees_every_webhook (d : Db.t) (uid : option Db.uuid) :
  Db.has_role d uid (Some Db.admin) = true ->
  filter (Db.webhook_urls_select_using d uid) (Db.webhook_urls d) = Db.webhook_urls d.
Proof.
  intro H. apply filter_all. intros x _. unfold Db.webhook_urls_select_using. rewrite H.
  now destruct (Db.sql_eq String.eqb uid (Some (Db.WebhookUrls.user_id x))) as [[|]|].
Qed.

Lemma admin_sees_every_profile (d : Db.t) (uid : option Db.uuid) :
  Db.has_role d uid (Some Db.admin) = true ->
  filter (Db.profiles_select_using d uid) (Db.profiles d) = Db.profiles d.
Proof.
  intro H. apply filter_all. intros x _. unfold Db.profiles_select_using. rewrite H.
  apply orb_true_r.
Qed.

(** What an admin's page holds once the data fetch has run. *)
Lemma fetchData_admin_world (d : Db.t) (uid : option Db.uuid) (h : AdminWebhooks.UseAdmin)
    (r : AdminWebhooks.State) :
  AdminWebhooks.isAdmin h = true ->
  Db.has_role d uid (Some Db.admin) = true ->
  run (AdminWebhooks.fetchData h uid) r d =
  (Returned tt,
   {| state :=
        AdminWebhooks.with_isLoading false
          (AdminWebhooks.with_webhooks
             (fun _ =>
                map (fun webhook =>
                       AdminWebhooks.with_profile webhook
                         (find (fun p => String.eqb (AdminWebhooks.Profile.id p)
                                           (Db.WebhookUrls.user_id webhook))
                            (map AdminWebhooks.to_profile
                               (Db.order_by Db.email_asc (Db.profiles d)))))
                    (Db.order_by Db.created_at_desc (Db.webhook_urls d)))
             (AdminWebhooks.with_profiles
                (map AdminWebhooks.to_profile (Db.order_by Db.email_asc (Db.profiles d)))
                r));
      db := d;
      trace := [StoreCall ProfilesSelectAll; StoreCall WebhookUrlsSelectAll] |}).
Proof.
  intros Hh H. unfold run, AdminWebhooks.fetchData. rewrite Hh. cbn [negb].
  unfold finally, try_catch, bind, store_read, store_call,
    Db.profiles_select_all, Db.webhook_urls_select_all.
  cbv beta iota delta [db state trace].
  rewrite admin_sees_every_profile by exact H.
  cbv beta iota delta [db state trace Db.data Db.ok option_map
                         AdminWebhooks.setProfiles set_state].
  rewrite admin_sees_every_webhook by exact H.
  reflexivity.
Qed.

(** The listing an admin gets: every stored webhook row exactly once, newest
    first (rows without a creation time before the others), each joined with
    the loaded profile of its user; the loaded profiles are the stored ones,
    and the loading flag is cleared.  The fetch never throws and writes
    nothing. *)
Theorem admin_listing_is_sorted_store (d : Db.t) (uid : option Db.uuid)
    (h : AdminWebhooks.UseAdmin) (r : AdminWebhooks.State) :
  AdminWebhooks.isAdmin h = true ->
  Db.has_role d uid (Some Db.admin) = true ->
  let res := run (AdminWebhooks.fetchData h uid) r d in
  fst res = Returned tt
  /\ db (snd res) = d
  /\ AdminWebhooks.isLoading (state (snd res)) = false
  /\ Permutation (AdminWebhooks.profiles (state (snd res)))
       (map AdminWebhooks.to_profile (Db.profiles d))
  /\ exists rows,
       Permutation rows (Db.webhook_urls d)
       /\ StronglySorted (fun a b => Db.created_at_desc a b = true) rows
       /\ AdminWebhooks.webhooks (state (snd res)) =
          map (fun row =>
                 AdminWebhooks.with_profile row
                   (find (fun p => String.eqb (AdminWebhooks.Profile.id p)
                                     (Db.WebhookUrls.user_id row))
                      (AdminWebhooks.profiles (state (snd res)))))
              rows.
Proof.
  intros Hh H. cbv zeta. rewrite (fetchData_admin_world d uid h r Hh H).
  cbn [fst snd db state].
  split; [reflexivity |]. split; [reflexivity |]. split; [reflexivity |].
  split.
  - cbn. apply Permutation_map. apply order_by_perm.
  - exists (Db.order_by Db.created_at_desc (Db.webhook_urls d)).
    split; [apply order_by_perm |].
    split; [apply order_by_sorted;
            [apply created_at_desc_total | apply created_at_desc_trans] |].
    reflexivity.
Qed.

Lemma admin_listing_is_sorted_store_witness :
  AdminWebhooks.isLoading
    (state (snd (run (AdminWebhooks.fetchData
                        {| AdminWebhooks.isAdmin := true; AdminWebhooks.loading := false |}
                        (Some "root"))
                   AdminWebhooks.initial Example.small_db))) = false.
Proof.
  apply (admin_listing_is_sorted_store Example.small_db (Some "root")
           {| AdminWebhooks.isAdmin := true; AdminWebhooks.loading := false |}
           AdminWebhooks.initial eq_refl eq_refl).
Defined.

(** The left join of the listing: a listed webhook carries the profile of its
    own user and of nobody else, it carries one whenever the store has a
    profile with that id, and a webhook whose user has no profile is listed
    all the same, under the placeholder label. *)
Theorem admin_listing_join (d : Db.t) (uid : option Db.uuid)
    (h : AdminWebhooks.UseAdmin) (r : AdminWebhooks.State) (w : AdminWebhooks.WebhookUrl.t) :
  AdminWebhooks.isAdmin h = true ->
  Db.has_role d uid (Some Db.admin) = true ->
  In w (AdminWebhooks.webhooks (state (snd (run (AdminWebhooks.fetchData h uid) r d)))) ->
  (forall p, AdminWebhooks.WebhookUrl.profiles w = Some p ->
             AdminWebhooks.Profile.id p = AdminWebhooks.WebhookUrl.user_id w /\
             In p (map AdminWebhooks.to_profile (Db.profiles d)))
  /\ ((exists p, In p (Db.profiles d) /\
                 Db.Profiles.id p = AdminWebhooks.WebhookUrl.user_id w) ->
      AdminWebhooks.WebhookUrl.profiles w <> None)
  /\ ((forall p, In p (Db.profiles d) ->
                 Db.Profiles.id p <> AdminWebhooks.WebhookUrl.user_id w) ->
      AdminWebhooks.WebhookUrl.profiles w = None /\
      AdminWebhooks.user_label w = "Usuário desconhecido").
Proof.
  intros Hh H. rewrite (fetchData_admin_world d uid h r Hh H). cbn [snd state].
  cbn [AdminWebhooks.webhooks AdminWebhooks.with_isLoading AdminWebhooks.with_webhooks].
  intro Hin. apply in_map_iff in Hin. destruct Hin as (row & <- & _).
  cbn [AdminWebhooks.WebhookUrl.profiles AdminWebhooks.WebhookUrl.user_id
         AdminWebhooks.with_profile].
  set (ps := map AdminWebhooks.to_profile (Db.order_by Db.email_asc (Db.profiles d))).
  assert (Hps : forall p, In p ps <-> In p (map AdminWebhooks.to_profile (Db.profiles d))).
  { intro p. unfold ps. rewrite !in_map_iff.
    split; intros (q & E & Hq); exists q; split; try exact E; now apply In_order_by in Hq
      || now apply In_order_by. }
  split; [| split].
  - intros p Hf. apply find_some in Hf. destruct Hf as [Hp Hid].
    apply String.eqb_eq in Hid. split; [exact Hid | now apply Hps].
  - intros (p & Hp & Hid) Hnone.
    assert (Hf : String.eqb (AdminWebhooks.Profile.id (AdminWebhooks.to_profile p))
                   (Db.WebhookUrls.user_id row) = false).
    { apply (find_none _ _ Hnone). apply Hps. now apply in_map. }
    simpl in Hf. rewrite Hid, String.eqb_refl in Hf. discriminate.
  - intro Hno.
    assert (E : find (fun p => String.eqb (AdminWebhooks.Profile.id p)
                                 (Db.WebhookUrls.user_id row)) ps = None).
    { destruct (find _ ps) as [p|] eqn:Ef; [| reflexivity].
      apply find_some in Ef. destruct Ef as [Hp Hid]. apply String.eqb_eq in Hid.
      apply Hps in Hp. apply in_map_iff in Hp. destruct Hp as (q & <- & Hq).
      now destruct (Hno q Hq). }
    unfold AdminWebhooks.user_label.
    cbn [AdminWebhooks.WebhookUrl.profiles AdminWebhooks.with_profile].
    rewrite E. now split.
Qed.

Lemma admin_listing_join_witness :
  AdminWebhooks.WebhookUrl.profiles Example.alice_webhook <> None.
Proof.
  refine (proj1 (proj2 (admin_listing_join Example.small_db (Some "root")
                          {| AdminWebhooks.isAdmin := true; AdminWebhooks.loading := false |}
                          AdminWebhooks.initial Example.alice_webhook
                          eq_refl eq_refl _)) _).
  - simpl. now left.
  - eexists. split; [right; left; reflexivity | reflexivity].
Defined.

(** ** Admin webhook manager: create and delete *)

Section AdminCreate.

Import AdminWebhooks.

Variables (uid : option Db.uuid) (r : State) (fresh : Db.uuid) (now : nat) (d : Db.t).

Lemma no_listed_row_find :
  (forall w, In w (webhooks r) -> WebhookUrl.user_id w <> selectedUserId r) ->
  find (fun w => String.eqb (WebhookUrl.user_id w) (selectedUserId r)) (webhooks r) = None.
Proof.
  intro H. destruct (find _ (webhooks r)) as [w|] eqn:E; [| reflexivity].
  apply find_some in E. destruct E as [Hin He]. apply String.eqb_eq in He.
  now destruct (H w Hin).
Qed.

(** The world an accepted create leaves. *)
Lemma handleAddWebhook_accepted :
  Db.has_role d uid (Some Db.admin) = true ->
  Js.truthy (selectedUserId r) = true ->
  Js.truthy (webhookUrl r) = true ->
  (forall w, In w (webhooks r) -> WebhookUrl.user_id w <> selectedUserId r) ->
  run (handleAddWebhook uid r fresh now) r d =
  (Returned tt,
   {| state :=
        with_isSaving false
          (with_webhookUrl EmptyString
             (with_selectedUserId EmptyString
                (with_webhooks
                   (cons (with_profile
                            {| Db.WebhookUrls.id := fresh;
                               Db.WebhookUrls.user_id := selectedUserId r;
                               Db.WebhookUrls.webhook_url := webhookUrl r;
                               Db.WebhookUrls.created_at := Some now;
                               Db.WebhookUrls.created_by_admin := true |}
                            (find (fun p => String.eqb (Profile.id p) (selectedUserId r))
                               (profiles r))))
                   (with_isSaving true r))));
      db := {| Db.user_roles := Db.user_roles d;
               Db.profiles := Db.profiles d;
               Db.meta_credentials := Db.meta_credentials d;
               Db.webhook_urls :=
                 Db.webhook_urls d ++
                 [{| Db.WebhookUrls.id := fresh;
                     Db.WebhookUrls.user_id := selectedUserId r;
                     Db.WebhookUrls.webhook_url := webhookUrl r;
                     Db.WebhookUrls.created_at := Some now;
                     Db.WebhookUrls.created_by_admin := true |}] |};
      trace := [StoreCall (WebhookUrlsInsert (selectedUserId r) (webhookUrl r) true);
                Toast "Webhook adicionado!" "O webhook foi cadastrado com sucesso." false] |}).
Proof.
  intros Ha Hs Hu Hno. unfold run, handleAddWebhook.
  rewrite Hs, Hu, (no_listed_row_find Hno). cbn [negb orb].
  unfold finally, try_catch, bind, store_call, setIsSaving, set_state. cbn [db state trace].
  unfold Db.webhook_urls_insert, Db.webhook_urls_insert_check, Db.webhook_urls_select_using.
  rewrite Ha. cbn [Db.holds negb].
  replace (Db.holds (Db.sql_or _ (Some true))) with true
    by (now destruct (Db.sql_eq String.eqb uid _) as [[|]|]).
  reflexivity.
Qed.

(** An admin's create for a user who is not in the listing inserts one row
    into the store, for the selected user, with the typed URL and flagged as
    created by an admin; the new webhook goes to the top of the listing, the
    two form fields are cleared and the saving flag is released. *)
Theorem add_webhook_inserts_on_top :
  Db.has_role d uid (Some Db.admin) = true ->
  Js.truthy (selectedUserId r) = true ->
  Js.truthy (webhookUrl r) = true ->
  (forall w, In w (webhooks r) -> WebhookUrl.user_id w <> selectedUserId r) ->
  let res := run (handleAddWebhook uid r fresh now) r d in
  fst res = Returned tt
  /\ (exists row,
         Db.webhook_urls (db (snd res)) = (Db.webhook_urls d ++ [row])%list
         /\ Db.WebhookUrls.user_id row = selectedUserId r
         /\ Db.WebhookUrls.webhook_url row = webhookUrl r
         /\ Db.WebhookUrls.created_by_admin row = true
         /\ exists top,
              webhooks (state (snd res)) = top :: webhooks r
              /\ WebhookUrl.id top = Db.WebhookUrls.id row
              /\ WebhookUrl.user_id top = selectedUserId r
              /\ WebhookUrl.webhook_url top = webhookUrl r)
  /\ Db.profiles (db (snd res)) = Db.profiles d
  /\ Db.meta_credentials (db (snd res)) = Db.meta_credentials d
  /\ selectedUserId (state (snd res)) = EmptyString
  /\ webhookUrl (state (snd res)) = EmptyString
  /\ isSaving (state (snd res)) = false.
Proof.
  intros Ha Hs Hu Hno. cbv zeta. rewrite (handleAddWebhook_accepted Ha Hs Hu Hno).
  cbn [fst snd db state]. split; [reflexivity |].
  split; [| now repeat split].
  eexists. split; [reflexivity |]. repeat split.
  eexists. split; [reflexivity |]. now repeat split.
Qed.

(** Create, then delete the row just created (its id being new to the store
    and to the listing): the store and the listing are back where they were. *)
Theorem add_then_delete_restores :
  Db.has_role d uid (Some Db.admin) = true ->
  Js.truthy (selectedUserId r) = true ->
  Js.truthy (webhookUrl r) = true ->
  (forall w, In w (webhooks r) -> WebhookUrl.user_id w <> selectedUserId r) ->
  ~ In fresh (map Db.WebhookUrls.id (Db.webhook_urls d)) ->
  ~ In fresh (map WebhookUrl.id (webhooks r)) ->
  let res := run (handleAddWebhook uid r fresh now ;; handleDeleteWebhook uid fresh) r d in
  fst res = Returned tt
  /\ db (snd res) = d
  /\ webhooks (state (snd res)) = webhooks r.
Proof.
  intros Ha Hs Hu Hno Hd Hl. cbv zeta. unfold run, bind.
  pose proof (handleAddWebhook_accepted Ha Hs Hu Hno) as E. unfold run in E. rewrite E.
  unfold handleDeleteWebhook, try_catch, bind, store_call, Db.webhook_urls_delete,
    Db.webhook_urls_delete_using.
  cbn [db state trace Db.user_roles Db.profiles Db.meta_credentials Db.webhook_urls].
  unfold Db.has_role in Ha |- *. cbn [Db.user_roles]. rewrite Ha.
  cbn [Db.holds]. cbn [fst snd db state].
  split; [reflexivity |]. split.
  - rewrite filter_app. cbn [filter Db.WebhookUrls.id]. rewrite String.eqb_refl.
    cbn [andb negb]. rewrite app_nil_r. rewrite filter_all.
    + now destruct d.
    + intros x Hx. rewrite andb_true_r.
      destruct (String.eqb (Db.WebhookUrls.id x) fresh) eqn:Ex; [| reflexivity].
      apply String.eqb_eq in Ex. exfalso. apply Hd. rewrite <- Ex. now apply in_map.
  - cbn. rewrite String.eqb_refl. cbn. apply filter_all.
    intros x Hx. destruct (String.eqb (WebhookUrl.id x) fresh) eqn:Ex; [| reflexivity].
    apply String.eqb_eq in Ex. exfalso. apply Hl. rewrite <- Ex. now apply in_map.
Qed.

End AdminCreate.

Lemma add_webhook_inserts_on_top_witness :
  AdminWebhooks.isSaving
    (state (snd (run (AdminWebhooks.handleAddWebhook (Some "root") Example.root_selected
                        "w2" 4)
                   Example.root_selected Example.small_db))) = false.
Proof.
  refine (proj2 (proj2 (proj2 (proj2 (proj2 (proj2
    (add_webhook_inserts_on_top (Some "root") Example.root_selected "w2" 4 Example.small_db
       eq_refl eq_refl eq_refl _))))))).
  intros w [<- | []]. discriminate.
Defined.

Lemma add_then_delete_restores_witness :
  db (snd (run (AdminWebhooks.handleAddWebhook (Some "root") Example.root_selected "w2" 4 ;;
                AdminWebhooks.handleDeleteWebhook (Some "root") "w2")
             Example.root_selected Example.small_db))
  = Example.small_db.
Proof.
  refine (proj1 (proj2
    (add_then_delete_restores (Some "root") Example.root_selected "w2" 4 Example.small_db
       eq_refl eq_refl eq_refl _ _ _))).
  - intros w [<- | []]. discriminate.
  - simpl. intros [H | []]. discriminate.
  - simpl. intros [H | []]. discriminate.
Defined.

(** ** Admin webhook manager: the one-webhook-per-user invariant *)

Lemma NoDup_map_filter {A B} (f : A -> B) (g : A -> bool) (l : list A) :
  NoDup (map f l) -> NoDup (map f (filter g l)).
Proof.
  induction l as [|x l IH]; simpl; intro H; [constructor |].
  inversion H as [|? ? Hx Hl]; subst.
  destruct (g x); simpl; [| now apply IH].
  constructor; [| now apply IH].
  intro Hin. apply Hx. apply in_map_iff in Hin. destruct Hin as (y & E & Hy).
  apply filter_In in Hy. rewrite <- E. apply in_map. tauto.
Qed.

(** An insert of a webhook row either fails and leaves the store as it is, or
    appends the row. *)
Lemma webhook_insert_cases (uid : option Db.uuid) (user_id : Db.uuid) (webhook_url : string)
    (created_by_admin : bool) (fresh : Db.uuid) (now : nat) (d : Db.t) :
  (exists e, Db.webhook_urls_insert uid user_id webhook_url created_by_admin fresh now d
             = (inl e, d))
  \/ Db.webhook_urls_insert uid user_id webhook_url created_by_admin fresh now d
     = (inr {| Db.WebhookUrls.id := fresh;
               Db.WebhookUrls.user_id := user_id;
               Db.WebhookUrls.webhook_url := webhook_url;
               Db.WebhookUrls.created_at := Some now;
               Db.WebhookUrls.created_by_admin := created_by_admin |},
        {| Db.user_roles := Db.user_roles d;
           Db.profiles := Db.profiles d;
           Db.meta_credentials := Db.meta_credentials d;
           Db.webhook_urls :=
             Db.webhook_urls d ++
             [{| Db.WebhookUrls.id := fresh;
                 Db.WebhookUrls.user_id := user_id;
                 Db.WebhookUrls.webhook_url := webhook_url;
                 Db.WebhookUrls.created_at := Some now;
                 Db.WebhookUrls.created_by_admin := created_by_admin |}] |}).
Proof.
  unfold Db.webhook_urls_insert.
  destruct (negb (Db.webhook_urls_insert_check d uid _)); [left; now eexists |].
  destruct (negb (Db.webhook_urls_select_using d uid _)); [left; now eexists |].
  now right.
Qed.

(** As long as the listing is in step with the store, the application-level
    check does its job: if the store has at most one webhook per user, it
    still has after any create, accepted or not, and after any delete by an
    admin; and the listing stays in step, so this goes on holding. *)
Theorem one_webhook_per_user_kept (r : AdminWebhooks.State) (d : Db.t) :
  AdminWebhooks.in_step r d ->
  NoDup (map Db.WebhookUrls.user_id (Db.webhook_urls d)) ->
  (forall uid fresh now,
      let w' := snd (run (AdminWebhooks.handleAddWebhook uid r fresh now) r d) in
      AdminWebhooks.in_step (state w') (db w') /\
      NoDup (map Db.WebhookUrls.user_id (Db.webhook_urls (db w'))))
  /\ (forall uid id,
         Db.has_role d uid (Some Db.admin) = true ->
         let w' := snd (run (AdminWebhooks.handleDeleteWebhook uid id) r d) in
         AdminWebhooks.in_step (state w') (db w') /\
         NoDup (map Db.WebhookUrls.user_id (Db.webhook_urls (db w')))).
Proof.
  intros Hstep Hnd. split.
  - intros uid fresh now. cbv zeta. unfold run, AdminWebhooks.handleAddWebhook.
    destruct (negb (Js.truthy (AdminWebhooks.selectedUserId r))
              || negb (Js.truthy (AdminWebhooks.webhookUrl r))); [now split |].
    destruct (find _ (AdminWebhooks.webhooks r)) as [w|] eqn:Ef; [now split |].
    unfold finally, try_catch, bind, store_call, AdminWebhooks.setIsSaving, set_state.
    cbn [db state trace].
    destruct (webhook_insert_cases uid (AdminWebhooks.selectedUserId r)
                (AdminWebhooks.webhookUrl r) true fresh now d) as [[e ->] | ->].
    + cbn. now split.
    + cbn [fst snd db state]. cbn. split.
      * intros row Hin. apply in_app_iff in Hin. destruct Hin as [Hin | [<- | []]].
        -- destruct (Hstep row Hin) as (w & Hw & Hid & Hu).
           exists w. split; [now right | now split].
        -- eexists. split; [left; reflexivity | now split].
      * rewrite map_app. simpl. apply NoDup_app; [exact Hnd | repeat constructor; auto |].
        intros x Hx [<- | []].
        apply in_map_iff in Hx. destruct Hx as (row & Hu & Hin).
        destruct (Hstep row Hin) as (w & Hw & _ & Hwu).
        apply (find_none _ _ Ef) in Hw. rewrite Hwu, Hu, String.eqb_refl in Hw.
        discriminate.
  - intros uid id Ha. cbv zeta.
    unfold run, AdminWebhooks.handleDeleteWebhook, try_catch, bind, store_call,
      Db.webhook_urls_delete, Db.webhook_urls_delete_using.
    cbn [db state trace]. rewrite Ha. cbn. split.
    + intros row Hin. apply filter_In in Hin. destruct Hin as [Hin Hne].
      rewrite andb_true_r in Hne.
      destruct (Hstep row Hin) as (w & Hw & Hid & Hu).
      exists w. split; [| now split].
      apply filter_In. split; [exact Hw | now rewrite Hid].
    + now apply NoDup_map_filter.
Qed.

Lemma one_webhook_per_user_kept_witness :
  NoDup (map Db.WebhookUrls.user_id
           (Db.webhook_urls
              (db (snd (run (AdminWebhooks.handleAddWebhook (Some "root")
                               Example.root_selected "w2" 4)
                          Example.root_selected Example.small_db))))).
Proof.
  refine (proj2 (proj1 (one_webhook_per_user_kept Example.root_selected Example.small_db _ _)
                   (Some "root") "w2" 4)).
  - intros row [<- | []]. exists Example.alice_webhook. split; [now left | now split].
  - repeat constructor. simpl. intuition.
Defined.

(** Under a session without the admin role the two handlers cannot change the
    store.  A create is refused by the policy: the store answers with an error
    [e] and stays as it was, and the error toast's description is the message
    of [e], whatever its text.  A delete is not refused, it just deletes
    nothing, so the page reports success and drops the row from its own
    listing although the row is still stored. *)
Theorem non_admin_session_outcomes (uid : option Db.uuid) (r : AdminWebhooks.State)
    (fresh : Db.uuid) (now : nat) (id : string) (d : Db.t) :
  Db.has_role d uid (Some Db.admin) = false ->
  Js.truthy (AdminWebhooks.selectedUserId r) = true ->
  Js.truthy (AdminWebhooks.webhookUrl r) = true ->
  (forall w, In w (AdminWebhooks.webhooks r) ->
             AdminWebhooks.WebhookUrl.user_id w <> AdminWebhooks.selectedUserId r) ->
  (exists e,
     Db.webhook_urls_insert uid (AdminWebhooks.selectedUserId r)
       (AdminWebhooks.webhookUrl r) true fresh now d = (inl e, d)
     /\ run (AdminWebhooks.handleAddWebhook uid r fresh now) r d =
        (Returned tt,
         {| state := AdminWebhooks.with_isSaving false (AdminWebhooks.with_isSaving true r);
            db := d;
            trace := [StoreCall (WebhookUrlsInsert (AdminWebhooks.selectedUserId r)
                                   (AdminWebhooks.webhookUrl r) true);
                      Toast "Erro ao adicionar" (Js.message e) true] |}))
  /\ run (AdminWebhooks.handleDeleteWebhook uid id) r d =
     (Returned tt,
      {| state := AdminWebhooks.with_webhooks
                    (filter (fun w => negb (String.eqb (AdminWebhooks.WebhookUrl.id w) id)))
                    r;
         db := d;
         trace := [StoreCall (WebhookUrlsDelete id);
                   Toast "Webhook removido!" "O webhook foi removido com sucesso." false] |}).
Proof.
  intros Ha Hs Hu Hno. split.
  - eexists. split; [now apply insert_non_admin |].
    unfold run, AdminWebhooks.handleAddWebhook.
    rewrite Hs, Hu, (no_listed_row_find r Hno). cbn [negb orb].
    unfold finally, try_catch, bind, store_call, AdminWebhooks.setIsSaving, set_state.
    cbn [db state trace]. rewrite insert_non_admin by exact Ha. reflexivity.
  - unfold run, AdminWebhooks.handleDeleteWebhook, try_catch, bind, store_call.
    cbn [db state trace]. rewrite delete_non_admin by exact Ha. reflexivity.
Qed.

Lemma non_admin_session_outcomes_witness :
  db (snd (run (AdminWebhooks.handleDeleteWebhook (Some "alice") "w1")
             Example.root_selected Example.small_db))
  = Example.small_db.
Proof.
  refine (f_equal (fun x => db (snd x))
            (proj2 (non_admin_session_outcomes (Some "alice") Example.root_selected
                      "w2" 4 "w1" Example.small_db eq_refl eq_refl eq_refl _))).
  intros w [<- | []]. discriminate.
Defined.

(** ** Navigation and the admin page guard *)

(** The navigation and the guard of the admin page agree: once the role
    lookup has finished, the link to [/admin/webhooks] is offered exactly when
    the page behind it would render rather than redirect; the two other links
    are offered to everybody. *)
Theorem admin_link_matches_page_guard (h : AdminWebhooks.UseAdmin) :
  (AdminWebhooks.loading h = false ->
   (In "/admin/webhooks"
       (map Layout.href (Layout.filteredNavItems (AdminWebhooks.isAdmin h)))
    <-> AdminWebhooks.render h = AdminWebhooks.Page))
  /\ In "/dashboard" (map Layout.href (Layout.filteredNavItems (AdminWebhooks.isAdmin h)))
  /\ In "/configuracao" (map Layout.href (Layout.filteredNavItems (AdminWebhooks.isAdmin h))).
Proof.
  destruct h as [[|] l]; simpl; (split; [intros ->; simpl; split | split; auto]);
    intro H; auto;
    repeat match goal with
           | H : _ \/ _ |- _ => destruct H
           end;
    try discriminate; try contradiction.
Qed.

(** ** Role rows seen through row-level security *)

Lemma existsb_filter_implied {A} (t g : A -> bool) (l : list A) :
  (forall x, t x = true -> g x = true) ->
  existsb t (filter g l) = existsb t l.
Proof.
  intro H. induction l as [|x l IH]; simpl; [reflexivity |].
  destruct (g x) eqn:G; simpl; [now rewrite IH |].
  destruct (t x) eqn:T; [| exact IH].
  rewrite (H x T) in G. discriminate.
Qed.

(** A caller's own role rows are never hidden from the caller: looking for a
    role of one's own among the rows of [user_roles] that the SELECT policies
    let through gives the same answer as [has_role], for admins and
    non-admins alike. *)
Theorem own_role_lookup_agrees (d : Db.t) (uid : Db.uuid) (role : Db.app_role) :
  existsb (fun x => String.eqb (Db.UserRoles.user_id x) uid
                    && Db.app_role_eqb (Db.UserRoles.role x) role)
    (filter (Db.user_roles_select_using d (Some uid)) (Db.user_roles d))
  = Db.has_role d (Some uid) (Some role).
Proof.
  rewrite existsb_filter_implied.
  - unfold Db.has_role. induction (Db.user_roles d) as [|x l IH]; simpl; [reflexivity |].
    rewrite IH. f_equal.
    now destruct (String.eqb (Db.UserRoles.user_id x) uid),
      (Db.app_role_eqb (Db.UserRoles.role x) role).
  - intros x T. apply andb_true_iff in T. destruct T as [E _].
    apply String.eqb_eq in E. unfold Db.user_roles_select_using. simpl.
    now rewrite E, String.eqb_refl.
Qed.

(** ** The earlier revision of the pointer form *)

Section EarlierRevision.

Variables (r : ClientSupabaseConfigV1.State) (n : network_reply).

Let url := ClientSupabaseConfigV1.url (ClientSupabaseConfigV1.credentials r).
Let key := ClientSupabaseConfigV1.key (ClientSupabaseConfigV1.credentials r).

(** In the earlier revision an error reply that reports an invalid API key
    does not stop anything: the error the prober throws for it carries the
    translated message, which its own [catch] does not recognise, so the
    prober returns true.  A save then writes the pointer with the rejected key
    and reports success, where the current revision, given the same fields
    and the same reply, issues no store call. *)
Theorem earlier_revision_accepts_rejected_key (e : Js.Error) (u : Auth.User)
    (r' : ClientSupabaseConfig.State) (p : network_reply) (d : Db.t) :
  Js.truthy url = true -> Js.truthy key = true ->
  Regex.test ClientSupabaseConfig.urlPattern url = true ->
  Js.includes (Js.message e) "Invalid API key" = true ->
  ClientSupabaseConfig.url (ClientSupabaseConfig.credentials r') = url ->
  ClientSupabaseConfig.key (ClientSupabaseConfig.credentials r') = key ->
  fst (run (ClientSupabaseConfigV1.testConnection r (Resolved (Some e))) r d) = Returned true
  /\ filter is_store_call
       (trace (snd (run (ClientSupabaseConfigV1.handleSave (Some u) r (Resolved (Some e)))
                      r d)))
     = [StoreCall (ProfilesUpdate (Some url) (Some key) (Auth.id u))]
  /\ last (trace (snd (run (ClientSupabaseConfigV1.handleSave (Some u) r
                              (Resolved (Some e))) r d)))
       (ConsoleLog EmptyString)
     = Toast "Configuração salva!" "Seu Supabase foi conectado com sucesso." false
  /\ filter is_store_call
       (trace (snd (run (ClientSupabaseConfig.handleSave (Some u) r'
                           {| ClientSupabaseConfig.probe := Resolved (Some e);
                              ClientSupabaseConfig.provision := p |}) r' d)))
     = [].
Proof.
  subst url key. intros Hu Hk Ht He Eu Ek.
  unfold run, ClientSupabaseConfigV1.handleSave, ClientSupabaseConfigV1.testConnection,
    ClientSupabaseConfig.handleSave, ClientSupabaseConfig.testConnection,
    ClientSupabaseConfig.is_invalid_api_key.
  rewrite Eu, Ek, Hu, Hk, Ht. cbn [negb orb].
  unfold finally, try_catch, bind, client_query, store_call, throw, ret.
  cbn [Js.message fst snd state db trace]. rewrite He.
  cbn. rewrite ?He. cbn. repeat split.
Qed.

(** Apart from that reply, and from a rejected request whose message happens
    to mention the URL format, the two revisions accept exactly the same
    connections. *)
Theorem revisions_accept_same_connections (wl : world ClientSupabaseConfigV1.State)
    (wc : world ClientSupabaseConfig.State) :
  (forall e, n = Resolved (Some e) -> Js.includes (Js.message e) "Invalid API key" = false) ->
  (forall e, n = Rejected e -> Js.includes (Js.message e) "Formato de URL" = false) ->
  (fst (ClientSupabaseConfigV1.testConnection r n wl) = Returned true <->
   fst (ClientSupabaseConfig.testConnection n url key wc) = Returned true).
Proof.
  subst url key. intros Hres Hrej.
  unfold ClientSupabaseConfigV1.testConnection, ClientSupabaseConfig.testConnection,
    ClientSupabaseConfig.is_invalid_api_key.
  destruct (Js.truthy (ClientSupabaseConfigV1.url (ClientSupabaseConfigV1.credentials r)));
    destruct (Js.truthy (ClientSupabaseConfigV1.key (ClientSupabaseConfigV1.credentials r)));
    cbn [negb orb]; try (cbn; split; discriminate).
  destruct (Regex.test ClientSupabaseConfig.urlPattern
              (ClientSupabaseConfigV1.url (ClientSupabaseConfigV1.credentials r)));
    cbn [negb]; [| cbn; split; discriminate].
  unfold try_catch, bind, client_query, throw, ret.
  destruct n as [[e|]|e]; cbn [fst snd state db trace].
  - rewrite (Hres e eq_refl). cbn. split; reflexivity.
  - cbn. split; reflexivity.
  - rewrite (Hrej e eq_refl), orb_false_r.
    destruct (Js.includes (Js.message e) "Invalid API key") eqn:Hi; cbn;
      rewrite ?Hi; cbn; split; intro; try discriminate; reflexivity.
Qed.

(** The test button of the earlier revision does not look at what the prober
    returns: with an empty field the user gets the required-fields toast and,
    right after it, the success toast, and the form is marked connected,
    without any network call. *)
Theorem earlier_test_button_ignores_empty_fields (d : Db.t) :
  Js.truthy url = false \/ Js.truthy key = false ->
  run (ClientSupabaseConfigV1.handleTestConnection r n) r d =
  (Returned tt,
   {| state := ClientSupabaseConfigV1.with_isTesting false
                 (ClientSupabaseConfigV1.with_isConnected true
                    (ClientSupabaseConfigV1.with_isTesting true r));
      db := d;
      trace := [Toast "Campos obrigatórios" "Preencha a URL e a chave do Supabase." true;
                Toast "Conexão bem-sucedida!" "Seu Supabase está acessível." false] |}).
Proof.
  subst url key. intro H.
  unfold run, ClientSupabaseConfigV1.handleTestConnection,
    ClientSupabaseConfigV1.testConnection.
  assert (E : negb (Js.truthy (ClientSupabaseConfigV1.url (ClientSupabaseConfigV1.credentials r)))
              || negb (Js.truthy (ClientSupabaseConfigV1.key
                                    (ClientSupabaseConfigV1.credentials r))) = true)
    by (destruct H as [-> | ->]; [reflexivity | apply orb_true_r]).
  rewrite E. reflexivity.
Qed.

End EarlierRevision.

Lemma earlier_revision_accepts_rejected_key_witness :
  fst (run (ClientSupabaseConfigV1.testConnection Example.typed_pointer_v1
              (Resolved (Some {| Js.message := "Invalid API key" |})))
         Example.typed_pointer_v1 Example.small_db)
  = Returned true.
Proof.
  apply (earlier_revision_accepts_rejected_key Example.typed_pointer_v1
           {| Js.message := "Invalid API key" |} Example.alice Example.typed_pointer
           (Resolved None) Example.small_db
           eq_refl eq_refl eq_refl eq_refl eq_refl eq_refl).
Defined.

Lemma revisions_accept_same_connections_witness :
  fst (ClientSupabaseConfigV1.testConnection Example.typed_pointer_v1
         (Rejected {| Js.message := "Failed to fetch" |})
         {| state := Example.typed_pointer_v1; db := Example.small_db; trace := [] |})
  = Returned true.
Proof.
  refine (proj2 (revisions_accept_same_connections Example.typed_pointer_v1
                   (Rejected {| Js.message := "Failed to fetch" |})
                   {| state := Example.typed_pointer_v1; db := Example.small_db; trace := [] |}
                   {| state := Example.typed_pointer; db := Example.small_db; trace := [] |}
                   _ _) eq_refl).
  - intros e H. discriminate.
  - intros e H. injection H as <-. reflexivity.
Defined.

Lemma earlier_test_button_ignores_empty_fields_witness :
  ClientSupabaseConfigV1.isConnected
    (state (snd (run (ClientSupabaseConfigV1.handleTestConnection
                        ClientSupabaseConfigV1.initial (Resolved None))
                   ClientSupabaseConfigV1.initial Example.small_db)))
  = true.
Proof.
  refine (f_equal (fun x => ClientSupabaseConfigV1.isConnected (state (snd x)))
            (earlier_test_button_ignores_empty_fields ClientSupabaseConfigV1.initial
               (Resolved None) Example.small_db (or_introl eq_refl))).
Defined.
